(** * A shallow embedding of the tez training harness ([tez/model/model.py])

    The harness drives a host deep-learning framework: every operation of the
    class [Model] is a sequence of attribute updates on the harness object and
    of calls into the host (torch, torch_xla, tqdm, the callback runner).  The
    host is opaque to this development.  What the harness does is therefore
    recorded as a log of the calls it issues, in order; what the host answers
    is a parameter ([Host]), and so is whether a call raises. *)

From Stdlib Require Import ZArith QArith.QArith_base Lia Ascii String.
From stdpp Require Import base option list strings gmap.

Set Warnings "-clear-no-such-hyp".

Local Open Scope string_scope.
Local Open Scope Z_scope.
Local Open Scope list_scope.

(** * Enumerations *)

(** Modelled from the spec: [tez.enums] is not part of the sources; the spec
    describes a coarse model-lifecycle enum (train/valid/test/end) and a
    training-state enum of epoch and step start and end events.  The members
    below are the ones [model.py] refers to. *)
Inductive ModelState : Type := MS_TRAIN | MS_VALID | MS_TEST | MS_END.

Inductive TrainingState : Type :=
| TRAIN_START | TRAIN_END
| EPOCH_START | EPOCH_END
| TRAIN_EPOCH_START | TRAIN_EPOCH_END
| VALID_EPOCH_START | VALID_EPOCH_END
| TRAIN_STEP_START | TRAIN_STEP_END
| VALID_STEP_START | VALID_STEP_END.

(** [ModelState.X.value] *)
Definition ModelState_value (s : ModelState) : string :=
  match s with
  | MS_TRAIN => "train"
  | MS_VALID => "valid"
  | MS_TEST => "test"
  | MS_END => "end"
  end.

#[global] Instance ModelState_eq_dec : EqDecision ModelState.
Proof. solve_decision. Defined.
#[global] Instance TrainingState_eq_dec : EqDecision TrainingState.
Proof. solve_decision. Defined.

(** * Host objects

    Objects of the host framework are handles: the harness never looks inside
    them. *)

Definition Batch := nat.
Definition Dataset := nat.
Definition Collate := nat.
Definition Optimizer := nat.
Definition Scheduler := nat.
Definition Callback := nat.
Definition Tensor := Z.
Definition Threshold := Q.

Inductive Sampler : Type :=
| UserSampler (id : nat)
| DistributedSampler (dataset : option Dataset) (shuffle : bool).

(** [torch.utils.data.DataLoader(dataset, batch_size=, num_workers=, sampler=,
    shuffle=, collate_fn=)] *)
Record Loader : Type := DataLoader {
  ld_dataset : option Dataset;
  ld_batch_size : Z;
  ld_num_workers : Z;
  ld_sampler : option Sampler;
  ld_shuffle : bool;
  ld_collate_fn : option Collate
}.

Inductive Net : Type :=
| Module (id : nat)
| DataParallel (inner : Net)
| DistributedDataParallel (inner : Net) (device_id : Z).

Inductive Scaler : Type := GradScaler.

Record CallbackRunner : Type := mkCallbackRunner { cr_callbacks : list Callback }.

(** [self.device] holds what the code stores there: a [torch.device] in [fit],
    the XLA device on a TPU, and in [load] the bare string it was given. *)
Inductive Device : Type :=
| DeviceName (name : string)
| TorchDevice (name : string) (index : option Z)
| XlaDevice.

#[global] Instance Device_eq_dec : EqDecision Device.
Proof. solve_decision. Defined.

(** The loss tensor of a batch and what the code computes from it; tensor
    arithmetic stays symbolic. *)
Inductive Loss : Type :=
| LossOf (b : Batch)
| LossMean (l : Loss)
| LossDiv (l : Loss) (k : Z)
| LossGathered (l : Loss) (world_size : Z).

(** [loss.item() * accumulation_steps] and the like: floats stay symbolic. *)
Inductive Sample : Type :=
| Item (l : Loss)
| ItemTimes (l : Loss) (k : Z).

(** Modelled from the spec: [tez.utils.AverageMeter] is not part of the
    sources; the spec speaks of named running-average values.  A meter is the
    list of the updates [(value, n)] it received, and [avg] is the running
    average of that list, kept symbolic. *)
Record AverageMeter : Type := mkMeter { am_updates : list (Sample * Z) }.

Definition AverageMeter_new : AverageMeter := mkMeter [].

Definition AverageMeter_update (m : AverageMeter) (val : Sample) (n : Z) : AverageMeter :=
  mkMeter (am_updates m ++ [(val, n)]).

Inductive Avg : Type := AvgOf (updates : list (Sample * Z)).

Definition AverageMeter_avg (m : AverageMeter) : Avg := AvgOf (am_updates m).

(** A metric handed to [scheduler.step]. *)
Inductive Metric : Type :=
| MetricEpoch (e : Z)
| MetricAvg (a : Avg).

(** * Checkpoints *)

Definition StateDict := gmap string Tensor.
Definition OptState := Z.
Definition SchedState := Z.

Inductive Entry : Type :=
| ENone
| EBool (b : bool)
| EInt (z : Z)
| EWeights (sd : gmap string Tensor)
| EOptimizer (s : OptState)
| EScheduler (s : SchedState).

(** What [torch.save] is given: the raw weight mapping or the checkpoint
    dictionary. *)
Inductive Payload : Type :=
| PWeights (sd : gmap string Tensor)
| PRecord (d : gmap string Entry).

(** What [load_state_dict] is given. *)
Inductive Loaded : Type :=
| LWeights (sd : gmap string Tensor)
| LRecord (d : gmap string Entry)
| LEntry (e : Entry)
| LTensor (t : Tensor).

(** * The configuration record [args] *)

Record Args : Type := mkArgs {
  epochs : Z;
  train_batch_size : Z;
  valid_batch_size : Z;
  n_jobs : Z;
  args_device : string;
  args_accumulation_steps : Z;
  args_clip_grad_norm : option Threshold;
  train_shuffle : bool;
  args_fp16 : bool
}.

Definition set_args_fp16 (v : bool) (a : Args) : Args :=
  {| epochs := epochs a; train_batch_size := train_batch_size a;
     valid_batch_size := valid_batch_size a; n_jobs := n_jobs a;
     args_device := args_device a;
     args_accumulation_steps := args_accumulation_steps a;
     args_clip_grad_norm := args_clip_grad_norm a;
     train_shuffle := train_shuffle a; args_fp16 := v |}.

(** * The harness object *)

Record Model : Type := mkModel {
  model : option Net;
  train_loader : option Loader;
  valid_loader : option Loader;
  optimizer : option Optimizer;
  scheduler : option Scheduler;
  step_scheduler_after : option string;
  step_scheduler_metric : option string;
  current_epoch : Z;
  current_train_step : Z;
  current_valid_step : Z;
  _model_state : option ModelState;
  _train_state : option TrainingState;
  device : option Device;
  _callback_runner : option CallbackRunner;
  fp16 : bool;
  scaler : option Scaler;
  accumulation_steps : Z;
  batch_index : Z;
  clip_grad_norm : option Threshold;
  using_tpu : bool;
  local_rank : Z;
  train_sampler : option Sampler;
  valid_sampler : option Sampler;
  device_count : option Z
}.

(** The attribute values of the class body (lines 29-55); [device_count] is
    only created by [_init_tez], so a fresh object has none. *)
Definition Model_init : Model :=
  {| model := None;
     train_loader := None;
     valid_loader := None;
     optimizer := None;
     scheduler := None;
     step_scheduler_after := None;
     step_scheduler_metric := None;
     current_epoch := 0;
     current_train_step := 0;
     current_valid_step := 0;
     _model_state := None;
     _train_state := None;
     device := None;
     _callback_runner := None;
     fp16 := false;
     scaler := None;
     accumulation_steps := 0;
     batch_index := 0;
     clip_grad_norm := None;
     using_tpu := false;
     local_rank := (-1);
     train_sampler := None;
     valid_sampler := None;
     device_count := None |}.

(** Attribute assignment [self.f = v], one setter per attribute. *)
Definition set_model (v : option Net) (m : Model) : Model :=
  {| model := v; train_loader := train_loader m; valid_loader := valid_loader m; optimizer := optimizer m; scheduler := scheduler m; step_scheduler_after := step_scheduler_after m; step_scheduler_metric := step_scheduler_metric m; current_epoch := current_epoch m; current_train_step := current_train_step m; current_valid_step := current_valid_step m; _model_state := _model_state m; _train_state := _train_state m; device := device m; _callback_runner := _callback_runner m; fp16 := fp16 m; scaler := scaler m; accumulation_steps := accumulation_steps m; batch_index := batch_index m; clip_grad_norm := clip_grad_norm m; using_tpu := using_tpu m; local_rank := local_rank m; train_sampler := train_sampler m; valid_sampler := valid_sampler m; device_count := device_count m |}.
Definition set_train_loader (v : option Loader) (m : Model) : Model :=
  {| model := model m; train_loader := v; valid_loader := valid_loader m; optimizer := optimizer m; scheduler := scheduler m; step_scheduler_after := step_scheduler_after m; step_scheduler_metric := step_scheduler_metric m; current_epoch := current_epoch m; current_train_step := current_train_step m; current_valid_step := current_valid_step m; _model_state := _model_state m; _train_state := _train_state m; device := device m; _callback_runner := _callback_runner m; fp16 := fp16 m; scaler := scaler m; accumulation_steps := accumulation_steps m; batch_index := batch_index m; clip_grad_norm := clip_grad_norm m; using_tpu := using_tpu m; local_rank := local_rank m; train_sampler := train_sampler m; valid_sampler := valid_sampler m; device_count := device_count m |}.
Definition set_valid_loader (v : option Loader) (m : Model) : Model :=
  {| model := model m; train_loader := train_loader m; valid_loader := v; optimizer := optimizer m; scheduler := scheduler m; step_scheduler_after := step_scheduler_after m; step_scheduler_metric := step_scheduler_metric m; current_epoch := current_epoch m; current_train_step := current_train_step m; current_valid_step := current_valid_step m; _model_state := _model_state m; _train_state := _train_state m; device := device m; _callback_runner := _callback_runner m; fp16 := fp16 m; scaler := scaler m; accumulation_steps := accumulation_steps m; batch_index := batch_index m; clip_grad_norm := clip_grad_norm m; using_tpu := using_tpu m; local_rank := local_rank m; train_sampler := train_sampler m; valid_sampler := valid_sampler m; device_count := device_count m |}.
Definition set_optimizer (v : option Optimizer) (m : Model) : Model :=
  {| model := model m; train_loader := train_loader m; valid_loader := valid_loader m; optimizer := v; scheduler := scheduler m; step_scheduler_after := step_scheduler_after m; step_scheduler_metric := step_scheduler_metric m; current_epoch := current_epoch m; current_train_step := current_train_step m; current_valid_step := current_valid_step m; _model_state := _model_state m; _train_state := _train_state m; device := device m; _callback_runner := _callback_runner m; fp16 := fp16 m; scaler := scaler m; accumulation_steps := accumulation_steps m; batch_index := batch_index m; clip_grad_norm := clip_grad_norm m; using_tpu := using_tpu m; local_rank := local_rank m; train_sampler := train_sampler m; valid_sampler := valid_sampler m; device_count := device_count m |}.
Definition set_scheduler (v : option Scheduler) (m : Model) : Model :=
  {| model := model m; train_loader := train_loader m; valid_loader := valid_loader m; optimizer := optimizer m; scheduler := v; step_scheduler_after := step_scheduler_after m; step_scheduler_metric := step_scheduler_metric m; current_epoch := current_epoch m; current_train_step := current_train_step m; current_valid_step := current_valid_step m; _model_state := _model_state m; _train_state := _train_state m; device := device m; _callback_runner := _callback_runner m; fp16 := fp16 m; scaler := scaler m; accumulation_steps := accumulation_steps m; batch_index := batch_index m; clip_grad_norm := clip_grad_norm m; using_tpu := using_tpu m; local_rank := local_rank m; train_sampler := train_sampler m; valid_sampler := valid_sampler m; device_count := device_count m |}.
Definition set_step_scheduler_after (v : option string) (m : Model) : Model :=
  {| model := model m; train_loader := train_loader m; valid_loader := valid_loader m; optimizer := optimizer m; scheduler := scheduler m; step_scheduler_after := v; step_scheduler_metric := step_scheduler_metric m; current_epoch := current_epoch m; current_train_step := current_train_step m; current_valid_step := current_valid_step m; _model_state := _model_state m; _train_state := _train_state m; device := device m; _callback_runner := _callback_runner m; fp16 := fp16 m; scaler := scaler m; accumulation_steps := accumulation_steps m; batch_index := batch_index m; clip_grad_norm := clip_grad_norm m; using_tpu := using_tpu m; local_rank := local_rank m; train_sampler := train_sampler m; valid_sampler := valid_sampler m; device_count := device_count m |}.
Definition set_step_scheduler_metric (v : option string) (m : Model) : Model :=
  {| model := model m; train_loader := train_loader m; valid_loader := valid_loader m; optimizer := optimizer m; scheduler := scheduler m; step_scheduler_after := step_scheduler_after m; step_scheduler_metric := v; current_epoch := current_epoch m; current_train_step := current_train_step m; current_valid_step := current_valid_step m; _model_state := _model_state m; _train_state := _train_state m; device := device m; _callback_runner := _callback_runner m; fp16 := fp16 m; scaler := scaler m; accumulation_steps := accumulation_steps m; batch_index := batch_index m; clip_grad_norm := clip_grad_norm m; using_tpu := using_tpu m; local_rank := local_rank m; train_sampler := train_sampler m; valid_sampler := valid_sampler m; device_count := device_count m |}.
Definition set_current_epoch (v : Z) (m : Model) : Model :=
  {| model := model m; train_loader := train_loader m; valid_loader := valid_loader m; optimizer := optimizer m; scheduler := scheduler m; step_scheduler_after := step_scheduler_after m; step_scheduler_metric := step_scheduler_metric m; current_epoch := v; current_train_step := current_train_step m; current_valid_step := current_valid_step m; _model_state := _model_state m; _train_state := _train_state m; device := device m; _callback_runner := _callback_runner m; fp16 := fp16 m; scaler := scaler m; accumulation_steps := accumulation_steps m; batch_index := batch_index m; clip_grad_norm := clip_grad_norm m; using_tpu := using_tpu m; local_rank := local_rank m; train_sampler := train_sampler m; valid_sampler := valid_sampler m; device_count := device_count m |}.
Definition set_current_train_step (v : Z) (m : Model) : Model :=
  {| model := model m; train_loader := train_loader m; valid_loader := valid_loader m; optimizer := optimizer m; scheduler := scheduler m; step_scheduler_after := step_scheduler_after m; step_scheduler_metric := step_scheduler_metric m; current_epoch := current_epoch m; current_train_step := v; current_valid_step := current_valid_step m; _model_state := _model_state m; _train_state := _train_state m; device := device m; _callback_runner := _callback_runner m; fp16 := fp16 m; scaler := scaler m; accumulation_steps := accumulation_steps m; batch_index := batch_index m; clip_grad_norm := clip_grad_norm m; using_tpu := using_tpu m; local_rank := local_rank m; train_sampler := train_sampler m; valid_sampler := valid_sampler m; device_count := device_count m |}.
Definition set_current_valid_step (v : Z) (m : Model) : Model :=
  {| model := model m; train_loader := train_loader m; valid_loader := valid_loader m; optimizer := optimizer m; scheduler := scheduler m; step_scheduler_after := step_scheduler_after m; step_scheduler_metric := step_scheduler_metric m; current_epoch := current_epoch m; current_train_step := current_train_step m; current_valid_step := v; _model_state := _model_state m; _train_state := _train_state m; device := device m; _callback_runner := _callback_runner m; fp16 := fp16 m; scaler := scaler m; accumulation_steps := accumulation_steps m; batch_index := batch_index m; clip_grad_norm := clip_grad_norm m; using_tpu := using_tpu m; local_rank := local_rank m; train_sampler := train_sampler m; valid_sampler := valid_sampler m; device_count := device_count m |}.
Definition set__model_state (v : option ModelState) (m : Model) : Model :=
  {| model := model m; train_loader := train_loader m; valid_loader := valid_loader m; optimizer := optimizer m; scheduler := scheduler m; step_scheduler_after := step_scheduler_after m; step_scheduler_metric := step_scheduler_metric m; current_epoch := current_epoch m; current_train_step := current_train_step m; current_valid_step := current_valid_step m; _model_state := v; _train_state := _train_state m; device := device m; _callback_runner := _callback_runner m; fp16 := fp16 m; scaler := scaler m; accumulation_steps := accumulation_steps m; batch_index := batch_index m; clip_grad_norm := clip_grad_norm m; using_tpu := using_tpu m; local_rank := local_rank m; train_sampler := train_sampler m; valid_sampler := valid_sampler m; device_count := device_count m |}.
Definition set__train_state (v : option TrainingState) (m : Model) : Model :=
  {| model := model m; train_loader := train_loader m; valid_loader := valid_loader m; optimizer := optimizer m; scheduler := scheduler m; step_scheduler_after := step_scheduler_after m; step_scheduler_metric := step_scheduler_metric m; current_epoch := current_epoch m; current_train_step := current_train_step m; current_valid_step := current_valid_step m; _model_state := _model_state m; _train_state := v; device := device m; _callback_runner := _callback_runner m; fp16 := fp16 m; scaler := scaler m; accumulation_steps := accumulation_steps m; batch_index := batch_index m; clip_grad_norm := clip_grad_norm m; using_tpu := using_tpu m; local_rank := local_rank m; train_sampler := train_sampler m; valid_sampler := valid_sampler m; device_count := device_count m |}.
Definition set_device (v : option Device) (m : Model) : Model :=
  {| model := model m; train_loader := train_loader m; valid_loader := valid_loader m; optimizer := optimizer m; scheduler := scheduler m; step_scheduler_after := step_scheduler_after m; step_scheduler_metric := step_scheduler_metric m; current_epoch := current_epoch m; current_train_step := current_train_step m; current_valid_step := current_valid_step m; _model_state := _model_state m; _train_state := _train_state m; device := v; _callback_runner := _callback_runner m; fp16 := fp16 m; scaler := scaler m; accumulation_steps := accumulation_steps m; batch_index := batch_index m; clip_grad_norm := clip_grad_norm m; using_tpu := using_tpu m; local_rank := local_rank m; train_sampler := train_sampler m; valid_sampler := valid_sampler m; device_count := device_count m |}.
Definition set__callback_runner (v : option CallbackRunner) (m : Model) : Model :=
  {| model := model m; train_loader := train_loader m; valid_loader := valid_loader m; optimizer := optimizer m; scheduler := scheduler m; step_scheduler_after := step_scheduler_after m; step_scheduler_metric := step_scheduler_metric m; current_epoch := current_epoch m; current_train_step := current_train_step m; current_valid_step := current_valid_step m; _model_state := _model_state m; _train_state := _train_state m; device := device m; _callback_runner := v; fp16 := fp16 m; scaler := scaler m; accumulation_steps := accumulation_steps m; batch_index := batch_index m; clip_grad_norm := clip_grad_norm m; using_tpu := using_tpu m; local_rank := local_rank m; train_sampler := train_sampler m; valid_sampler := valid_sampler m; device_count := device_count m |}.
Definition set_fp16 (v : bool) (m : Model) : Model :=
  {| model := model m; train_loader := train_loader m; valid_loader := valid_loader m; optimizer := optimizer m; scheduler := scheduler m; step_scheduler_after := step_scheduler_after m; step_scheduler_metric := step_scheduler_metric m; current_epoch := current_epoch m; current_train_step := current_train_step m; current_valid_step := current_valid_step m; _model_state := _model_state m; _train_state := _train_state m; device := device m; _callback_runner := _callback_runner m; fp16 := v; scaler := scaler m; accumulation_steps := accumulation_steps m; batch_index := batch_index m; clip_grad_norm := clip_grad_norm m; using_tpu := using_tpu m; local_rank := local_rank m; train_sampler := train_sampler m; valid_sampler := valid_sampler m; device_count := device_count m |}.
Definition set_scaler (v : option Scaler) (m : Model) : Model :=
  {| model := model m; train_loader := train_loader m; valid_loader := valid_loader m; optimizer := optimizer m; scheduler := scheduler m; step_scheduler_after := step_scheduler_after m; step_scheduler_metric := step_scheduler_metric m; current_epoch := current_epoch m; current_train_step := current_train_step m; current_valid_step := current_valid_step m; _model_state := _model_state m; _train_state := _train_state m; device := device m; _callback_runner := _callback_runner m; fp16 := fp16 m; scaler := v; accumulation_steps := accumulation_steps m; batch_index := batch_index m; clip_grad_norm := clip_grad_norm m; using_tpu := using_tpu m; local_rank := local_rank m; train_sampler := train_sampler m; valid_sampler := valid_sampler m; device_count := device_count m |}.
Definition set_accumulation_steps (v : Z) (m : Model) : Model :=
  {| model := model m; train_loader := train_loader m; valid_loader := valid_loader m; optimizer := optimizer m; scheduler := scheduler m; step_scheduler_after := step_scheduler_after m; step_scheduler_metric := step_scheduler_metric m; current_epoch := current_epoch m; current_train_step := current_train_step m; current_valid_step := current_valid_step m; _model_state := _model_state m; _train_state := _train_state m; device := device m; _callback_runner := _callback_runner m; fp16 := fp16 m; scaler := scaler m; accumulation_steps := v; batch_index := batch_index m; clip_grad_norm := clip_grad_norm m; using_tpu := using_tpu m; local_rank := local_rank m; train_sampler := train_sampler m; valid_sampler := valid_sampler m; device_count := device_count m |}.
Definition set_batch_index (v : Z) (m : Model) : Model :=
  {| model := model m; train_loader := train_loader m; valid_loader := valid_loader m; optimizer := optimizer m; scheduler := scheduler m; step_scheduler_after := step_scheduler_after m; step_scheduler_metric := step_scheduler_metric m; current_epoch := current_epoch m; current_train_step := current_train_step m; current_valid_step := current_valid_step m; _model_state := _model_state m; _train_state := _train_state m; device := device m; _callback_runner := _callback_runner m; fp16 := fp16 m; scaler := scaler m; accumulation_steps := accumulation_steps m; batch_index := v; clip_grad_norm := clip_grad_norm m; using_tpu := using_tpu m; local_rank := local_rank m; train_sampler := train_sampler m; valid_sampler := valid_sampler m; device_count := device_count m |}.
Definition set_clip_grad_norm (v : option Threshold) (m : Model) : Model :=
  {| model := model m; train_loader := train_loader m; valid_loader := valid_loader m; optimizer := optimizer m; scheduler := scheduler m; step_scheduler_after := step_scheduler_after m; step_scheduler_metric := step_scheduler_metric m; current_epoch := current_epoch m; current_train_step := current_train_step m; current_valid_step := current_valid_step m; _model_state := _model_state m; _train_state := _train_state m; device := device m; _callback_runner := _callback_runner m; fp16 := fp16 m; scaler := scaler m; accumulation_steps := accumulation_steps m; batch_index := batch_index m; clip_grad_norm := v; using_tpu := using_tpu m; local_rank := local_rank m; train_sampler := train_sampler m; valid_sampler := valid_sampler m; device_count := device_count m |}.
Definition set_using_tpu (v : bool) (m : Model) : Model :=
  {| model := model m; train_loader := train_loader m; valid_loader := valid_loader m; optimizer := optimizer m; scheduler := scheduler m; step_scheduler_after := step_scheduler_after m; step_scheduler_metric := step_scheduler_metric m; current_epoch := current_epoch m; current_train_step := current_train_step m; current_valid_step := current_valid_step m; _model_state := _model_state m; _train_state := _train_state m; device := device m; _callback_runner := _callback_runner m; fp16 := fp16 m; scaler := scaler m; accumulation_steps := accumulation_steps m; batch_index := batch_index m; clip_grad_norm := clip_grad_norm m; using_tpu := v; local_rank := local_rank m; train_sampler := train_sampler m; valid_sampler := valid_sampler m; device_count := device_count m |}.
Definition set_local_rank (v : Z) (m : Model) : Model :=
  {| model := model m; train_loader := train_loader m; valid_loader := valid_loader m; optimizer := optimizer m; scheduler := scheduler m; step_scheduler_after := step_scheduler_after m; step_scheduler_metric := step_scheduler_metric m; current_epoch := current_epoch m; current_train_step := current_train_step m; current_valid_step := current_valid_step m; _model_state := _model_state m; _train_state := _train_state m; device := device m; _callback_runner := _callback_runner m; fp16 := fp16 m; scaler := scaler m; accumulation_steps := accumulation_steps m; batch_index := batch_index m; clip_grad_norm := clip_grad_norm m; using_tpu := using_tpu m; local_rank := v; train_sampler := train_sampler m; valid_sampler := valid_sampler m; device_count := device_count m |}.
Definition set_train_sampler (v : option Sampler) (m : Model) : Model :=
  {| model := model m; train_loader := train_loader m; valid_loader := valid_loader m; optimizer := optimizer m; scheduler := scheduler m; step_scheduler_after := step_scheduler_after m; step_scheduler_metric := step_scheduler_metric m; current_epoch := current_epoch m; current_train_step := current_train_step m; current_valid_step := current_valid_step m; _model_state := _model_state m; _train_state := _train_state m; device := device m; _callback_runner := _callback_runner m; fp16 := fp16 m; scaler := scaler m; accumulation_steps := accumulation_steps m; batch_index := batch_index m; clip_grad_norm := clip_grad_norm m; using_tpu := using_tpu m; local_rank := local_rank m; train_sampler := v; valid_sampler := valid_sampler m; device_count := device_count m |}.
Definition set_valid_sampler (v : option Sampler) (m : Model) : Model :=
  {| model := model m; train_loader := train_loader m; valid_loader := valid_loader m; optimizer := optimizer m; scheduler := scheduler m; step_scheduler_after := step_scheduler_after m; step_scheduler_metric := step_scheduler_metric m; current_epoch := current_epoch m; current_train_step := current_train_step m; current_valid_step := current_valid_step m; _model_state := _model_state m; _train_state := _train_state m; device := device m; _callback_runner := _callback_runner m; fp16 := fp16 m; scaler := scaler m; accumulation_steps := accumulation_steps m; batch_index := batch_index m; clip_grad_norm := clip_grad_norm m; using_tpu := using_tpu m; local_rank := local_rank m; train_sampler := train_sampler m; valid_sampler := v; device_count := device_count m |}.
Definition set_device_count (v : option Z) (m : Model) : Model :=
  {| model := model m; train_loader := train_loader m; valid_loader := valid_loader m; optimizer := optimizer m; scheduler := scheduler m; step_scheduler_after := step_scheduler_after m; step_scheduler_metric := step_scheduler_metric m; current_epoch := current_epoch m; current_train_step := current_train_step m; current_valid_step := current_valid_step m; _model_state := _model_state m; _train_state := _train_state m; device := device m; _callback_runner := _callback_runner m; fp16 := fp16 m; scaler := scaler m; accumulation_steps := accumulation_steps m; batch_index := batch_index m; clip_grad_norm := clip_grad_norm m; using_tpu := using_tpu m; local_rank := local_rank m; train_sampler := train_sampler m; valid_sampler := valid_sampler m; device_count := v |}.

(** * Exceptions, events and the host *)

Inductive Exn : Type :=
| RuntimeError (msg : string)
| ValueError (msg : string)
| AttributeError (attr : string)
| TypeError (msg : string)
| UnboundLocalError (name : string)
| ZeroDivisionError
| KeyError (key : string)
| FileNotFoundError (path : string)
| NameError (name : string)
| HostError (code : nat).

(** What the harness does that can be observed from outside: the two property
    assignments, and every call into the host, with its arguments. *)
Inductive Event : Type :=
| Assign_model_state (v : ModelState)
| Assign_train_state (v : TrainingState)
| RunCallbacks (v : TrainingState)
| XlaDeviceCall
| TorchDeviceCall (d : Device) (index : option Z)
| CpuCount
| CudaDeviceCount
| ModelTo (d : option Device)
| WrapDataParallel
| InitProcessGroup
| WrapDistributedDataParallel (device_id : Z)
| NewDistributedSampler (dataset : option Dataset) (shuffle : bool)
| NewDataLoader (l : Loader)
| FetchOptimizer
| FetchScheduler
| NewGradScaler
| NewCallbackRunner (callbacks : list Callback)
| SamplerSetEpoch (e : Z)
| ModelTrain
| ModelEval
| DistBarrier
| DistWorldSize
| DistAllGather (l : Loss)
| OptimizerZeroGrad
| ModelZeroGrad
| Tqdm (l : Loader)
| TqdmSetPostfix (stage : string)
| TqdmClose
| Print (step : Z)
| BatchTo (b : Batch) (d : option Device)
| Forward (b : Batch) (autocast : bool)
| Backward (l : Loss) (scaled : bool)
| ClipGradNorm (max_norm : Threshold)
| ScalerStep (o : option Optimizer)
| ScalerUpdate
| XmOptimizerStep (o : option Optimizer)
| OptimizerStep
| SchedulerStep (metric : option Metric)
| ModelStateDict
| OptimizerStateDict
| SchedulerStateDict
| TorchSave (p : Payload) (path : string)
| XmSave (p : Payload) (path : string)
| ParamDevice
| TorchLoad (path : string) (map_location : Device)
| LoadStateDict (v : Loaded).

(** The host: the environment the module is imported in, the answers of the
    framework, and the hooks a user of the class overrides.  Answers and
    failures may depend on everything that happened before (the log). *)
Record Host : Type := mkHost {
  XLA_AVAILABLE : bool;
  LOCAL_RANK : option string;
  cpu_count : Z;
  cuda_device_count : list Event -> Z;
  world_size : list Event -> Z;
  host_raises : list Event -> Event -> option Exn;
  loader_batches : Loader -> list Batch;
  param_device : list Event -> Device;
  model_state_dict : list Event -> gmap string Tensor;
  optimizer_state_dict : list Event -> OptState;
  scheduler_state_dict : list Event -> SchedState;
  files : string -> option Payload;
  fetch_optimizer : list Event -> option Optimizer;
  fetch_scheduler : list Event -> option Scheduler;
  callbacks_effect : TrainingState -> Model -> Model
}.

(** [metrics] is an attribute of the class, created once by the class body and
    never rebound: every instance reads and updates the same dictionary.  It
    is kept beside the instance attributes. *)
Record World : Type := mkWorld {
  obj : Model;
  metrics : gmap string (gmap string Avg);
  log : list Event
}.

Definition metrics_init : gmap string (gmap string Avg) :=
  <["test" := ∅]> (<["valid" := ∅]> (<["train" := ∅]> ∅)).

Definition World_init : World := mkWorld Model_init metrics_init [].

(** * The monad of harness code: state, log and exceptions *)

Inductive Res (A : Type) : Type :=
| Ok (a : A)
| Raise (e : Exn).
Arguments Ok {A} a.
Arguments Raise {A} e.

Definition M (A : Type) : Type := World -> Res A * World.

Definition ret {A} (a : A) : M A := fun w => (Ok a, w).

Definition bind {A B} (m : M A) (k : A -> M B) : M B :=
  fun w => match m w with
           | (Ok a, w') => k a w'
           | (Raise e, w') => (Raise e, w')
           end.

Definition raise {A} (e : Exn) : M A := fun w => (Raise e, w).

Notation "x <- m ;; k" := (bind m (fun x => k))
  (at level 100, m at next level, right associativity).
Notation "m ;; k" := (bind m (fun _ => k))
  (at level 100, right associativity).

(** Reading and assigning attributes of [self]. *)
Definition self {A} (f : Model -> A) : M A := fun w => (Ok (f (obj w)), w).

Definition assign (f : Model -> Model) : M unit :=
  fun w => (Ok tt, mkWorld (f (obj w)) (metrics w) (log w)).

Definition get_metrics : M (gmap string (gmap string Avg)) :=
  fun w => (Ok (metrics w), w).

Definition put_metrics (ms : gmap string (gmap string Avg)) : M unit :=
  fun w => (Ok tt, mkWorld (obj w) ms (log w)).

Definition emit (e : Event) : M unit :=
  fun w => (Ok tt, mkWorld (obj w) (metrics w) (log w ++ [e])).

(** [x.attr] on an attribute that may hold [None]. *)
Definition deref {A} (name : string) (o : option A) : M A :=
  match o with
  | Some a => ret a
  | None => raise (AttributeError name)
  end.


(** * Python built-ins the code relies on *)

(** [s.split("_")[0]] and ["_".join(s.split("_")[1:])]: the text before the
    first underscore, and the text after it (empty when there is none). *)
Fixpoint split_underscore (s : string) : string * string :=
  match s with
  | EmptyString => (EmptyString, EmptyString)
  | String c rest =>
      if Ascii.eqb c "_"%char then (EmptyString, rest)
      else let '(a, b) := split_underscore rest in (String c a, b)
  end.

Definition is_space (c : ascii) : bool :=
  let n := Ascii.nat_of_ascii c in
  (Nat.eqb n 32 || (Nat.leb 9 n && Nat.leb n 13))%bool.

Definition digit_of (c : ascii) : option Z :=
  let n := Ascii.nat_of_ascii c in
  if (Nat.leb 48 n && Nat.leb n 57)%bool then Some (Z.of_nat n - 48) else None.

Fixpoint lstrip (s : string) : string :=
  match s with
  | String c rest => if is_space c then lstrip rest else s
  | EmptyString => EmptyString
  end.

(** Digits of a decimal literal; a single underscore may separate two digits.
    [after_digit] tells whether the previous character was a digit; trailing
    white space ends the literal. *)
Fixpoint py_digits (s : string) (acc : Z) (after_digit : bool) : option Z :=
  match s with
  | EmptyString => if after_digit then Some acc else None
  | String c rest =>
      match digit_of c with
      | Some d => py_digits rest (10 * acc + d) true
      | None =>
          if Ascii.eqb c "_"%char then
            if after_digit then py_digits rest acc false else None
          else if (is_space c && after_digit)%bool then
            match lstrip rest with
            | EmptyString => Some acc
            | _ => None
            end
          else None
      end
  end.

(** [int(s)] for a string of ASCII characters: white space around, an optional
    sign, decimal digits.  [None] stands for the [ValueError] it raises. *)
Definition py_int (s : string) : option Z :=
  match lstrip s with
  | String "-"%char rest => Z.opp <$> py_digits rest 0 false
  | String "+"%char rest => py_digits rest 0 false
  | t => py_digits t 0 false
  end.

(** * Files *)

(** What an event writes to disk. *)
Definition written_by (e : Event) : option (string * Payload) :=
  match e with
  | TorchSave p q | XmSave p q => Some (q, p)
  | _ => None
  end.

Definition written (l : list Event) : list (string * Payload) := omap written_by l.

(** The payload of the latest save to a path in a log (events are logged in
    the order they happen). *)
Definition saved_at (model_path : string) (l : list Event) : option Payload :=
  snd <$> last (filter (fun qp => qp.1 = model_path) (written l)).

Section Harness.

Variable H : Host.

(** A call into the host: it is logged, then it raises or returns. *)
Definition call (e : Event) : M unit :=
  fun w => let w' := mkWorld (obj w) (metrics w) (log w ++ [e]) in
           match host_raises H (log w) e with
           | Some x => (Raise x, w')
           | None => (Ok tt, w')
           end.

(** The answer of the host to the call just made. *)
Definition answer {A} (f : Host -> list Event -> A) : M A :=
  fun w => (Ok (f H (log w)), w).


(** [xm.f(...)]: the name [xm] is bound only when the import of [torch_xla]
    succeeded (lines 17-24). *)
Definition xm_call (e : Event) : M unit :=
  if XLA_AVAILABLE H then call e else raise (NameError "xm").

(** ** Properties (lines 57-74) *)

Definition set_model_state (value : ModelState) : M unit :=
  emit (Assign_model_state value);;
  assign (set__model_state (Some value)).

Definition set_train_state (value : TrainingState) : M unit :=
  emit (Assign_train_state value);;
  assign (set__train_state (Some value));;
  runner <- self _callback_runner;;
  match runner with
  | Some _ =>
      call (RunCallbacks value);;
      assign (callbacks_effect H value)
  | None => ret tt
  end.

(** ** [name_to_metric] (lines 76-81) *)

Definition name_to_metric (metric_name : string) : M Metric :=
  if String.eqb metric_name "current_epoch" then
    e <- self current_epoch;; ret (MetricEpoch e)
  else
    let '(v_1, v_2) := split_underscore metric_name in
    ms <- get_metrics;;
    match ms !! v_1 with
    | None => raise (KeyError v_1)
    | Some sub =>
        match sub !! v_2 with
        | None => raise (KeyError v_2)
        | Some a => ret (MetricAvg a)
        end
    end.

(** ** [model_fn] (lines 95-107); the third component is the literal [{}]. *)

Definition model_fn (data : Batch) : M (Loss * gmap string Sample) :=
  d <- self device;;
  call (BatchTo data d);;
  fp <- self fp16;;
  net <- self model;;
  match net with
  | None => raise (TypeError "'NoneType' object is not callable")
  | Some _ => call (Forward data fp)
  end;;
  let loss := LossOf data in
  lr <- self local_rank;;
  if lr =? -1 then
    dc <- self device_count;;
    n <- deref "device_count" dc;;
    if 1 <? n then ret (LossMean loss, ∅) else ret (loss, ∅)
  else ret (loss, ∅).

Definition model_zero_grad : M unit :=
  net <- self model;;
  deref "zero_grad" net;;
  call ModelZeroGrad.

(** [self.scheduler.step()] or [self.scheduler.step(step_metric)], shared by
    lines 131-135 and 432-436. *)
Definition scheduler_step : M unit :=
  name <- self step_scheduler_metric;;
  match name with
  | None => call (SchedulerStep None)
  | Some n =>
      step_metric <- name_to_metric n;;
      call (SchedulerStep (Some step_metric))
  end.

(** ** [train_one_step] (lines 109-138) *)

Definition train_one_step (data : Batch) : M (Loss * gmap string Sample) :=
  k <- self accumulation_steps;;
  i <- self batch_index;;
  (if ((k =? 1) && (i =? 0))%bool then model_zero_grad else ret tt);;
  r <- model_fn data;;
  let '(loss, metrics) := r in
  k <- self accumulation_steps;;
  let loss := LossDiv loss k in
  fp <- self fp16;;
  (if fp then
     sc <- self scaler;;
     deref "scale" sc;;
     call (Backward loss true)
   else call (Backward loss false));;
  clip <- self clip_grad_norm;;
  match clip with
  | Some c =>
      net <- self model;;
      deref "parameters" net;;
      call (ClipGradNorm c)
  | None => ret tt
  end;;
  i <- self batch_index;;
  k <- self accumulation_steps;;
  (if k =? 0 then raise ZeroDivisionError
   else if (i + 1) mod k =? 0 then
     fp <- self fp16;;
     (if fp then
        sc <- self scaler;;
        deref "step" sc;;
        o <- self optimizer;;
        call (ScalerStep o);;
        call ScalerUpdate
      else
        tpu <- self using_tpu;;
        o <- self optimizer;;
        if tpu then xm_call (XmOptimizerStep o)
        else deref "step" o;; call OptimizerStep);;
     sch <- self scheduler;;
     match sch with
     | Some _ =>
         after <- self step_scheduler_after;;
         if bool_decide (after = Some "batch") then scheduler_step else ret tt
     | None => ret tt
     end;;
     i <- self batch_index;;
     if 0 <? i then model_zero_grad else ret tt
   else ret tt);;
  ret (loss, metrics).

(** ** [validate_one_step] (lines 140-145) *)

Definition validate_one_step (data : Batch) : M (Loss * gmap string Sample) :=
  r <- model_fn data;;
  let '(loss, metrics) := r in
  lr <- self local_rank;;
  if lr =? -1 then
    dc <- self device_count;;
    n <- deref "device_count" dc;;
    if 1 <? n then ret (LossMean loss, metrics) else ret (loss, metrics)
  else ret (loss, metrics).


(** ** [update_metrics] (lines 151-153) *)

(** [self.metrics[key]], a [KeyError] when the key is missing. *)
Definition metrics_item (key : string) : M (gmap string Avg) :=
  ms <- get_metrics;;
  match ms !! key with
  | Some sub => ret sub
  | None => raise (KeyError key)
  end.

Definition update_metrics (losses : AverageMeter) (monitor : gmap string Avg) : M unit :=
  st <- self _model_state;;
  v <- deref "value" st;;
  sub <- metrics_item (ModelState_value v);;
  ms <- get_metrics;;
  put_metrics (<[ModelState_value v := monitor ∪ sub]> ms);;
  st <- self _model_state;;
  v <- deref "value" st;;
  sub <- metrics_item (ModelState_value v);;
  ms <- get_metrics;;
  put_metrics (<[ModelState_value v := <["loss" := AverageMeter_avg losses]> sub]> ms).

(** ** The per-batch bookkeeping shared by both epoch loops *)

(** The locals of an epoch loop; [None] is a name that is not bound yet. *)
Record Locals : Type := mkLocals {
  losses : AverageMeter;
  metrics_meter : option (gmap string AverageMeter);
  monitor : option (gmap string Avg)
}.

(** Lines 177-182 and 214-219.  The loop over [metrics_meter] reads
    [metrics[m_m]] for each of its keys; a key missing from [metrics] is a
    [KeyError] (for some missing key: dictionaries are unordered here). *)
Definition update_meters (b_idx : Z) (metrics : gmap string Sample) (batch_size : Z)
    (loc : Locals) : M Locals :=
  let mm := if b_idx =? 0 then Some ((fun _ => AverageMeter_new) <$> metrics)
            else metrics_meter loc in
  match mm with
  | None => raise (UnboundLocalError "metrics_meter")
  | Some meters =>
      match elements (dom meters ∖ dom metrics) with
      | key :: _ => raise (KeyError key)
      | [] =>
          let meters' :=
            merge (fun om os =>
                     match om, os with
                     | Some m, Some v => Some (AverageMeter_update m v batch_size)
                     | _, _ => om
                     end) meters metrics in
          ret (mkLocals (losses loc) (Some meters') (Some (AverageMeter_avg <$> meters')))
      end
  end.

(** [tk0]: the loader itself on a TPU, a progress bar around it otherwise;
    [len(None)] and [enumerate(None)] are both a [TypeError]. *)
Definition open_loader (data_loader : option Loader) : M (list Batch) :=
  tpu <- self using_tpu;;
  match data_loader with
  | None => raise (TypeError "'NoneType' object")
  | Some l =>
      (if tpu then ret tt else call (Tqdm l));;
      ret (loader_batches H l)
  end.

Definition batch_size_of (data_loader : option Loader) : Z :=
  match data_loader with
  | Some l => ld_batch_size l
  | None => 0
  end.

(** ** [train_one_epoch] (lines 155-192) *)

Definition train_batch (data_loader : option Loader) (b_idx : Z) (data : Batch)
    (loc : Locals) : M Locals :=
  assign (set_batch_index b_idx);;
  set_train_state TRAIN_STEP_START;;
  r <- train_one_step data;;
  let '(loss, metrics) := r in
  set_train_state TRAIN_STEP_END;;
  k <- self accumulation_steps;;
  let loc := mkLocals (AverageMeter_update (losses loc) (ItemTimes loss k)
                         (batch_size_of data_loader))
                      (metrics_meter loc) (monitor loc) in
  loc <- update_meters b_idx metrics (batch_size_of data_loader) loc;;
  n <- self current_train_step;;
  assign (set_current_train_step (n + 1));;
  tpu <- self using_tpu;;
  (if negb tpu then call (TqdmSetPostfix "train") else ret tt);;
  tpu <- self using_tpu;;
  (if tpu then n <- self current_train_step;; call (Print n) else ret tt);;
  ret loc.

Fixpoint train_batches (data_loader : option Loader) (b_idx : Z) (bs : list Batch)
    (loc : Locals) : M Locals :=
  match bs with
  | [] => ret loc
  | data :: rest =>
      loc <- train_batch data_loader b_idx data loc;;
      train_batches data_loader (b_idx + 1) rest loc
  end.

Definition close_and_record (loc : Locals) : M Avg :=
  tpu <- self using_tpu;;
  (if negb tpu then call TqdmClose else ret tt);;
  match monitor loc with
  | None => raise (UnboundLocalError "monitor")
  | Some mon =>
      update_metrics (losses loc) mon;;
      ret (AverageMeter_avg (losses loc))
  end.

Definition train_one_epoch (data_loader : option Loader) : M Avg :=
  lr <- self local_rank;;
  (if negb (lr =? -1) then
     sm <- self train_sampler;;
     deref "set_epoch" sm;;
     e <- self current_epoch;;
     call (SamplerSetEpoch e)
   else ret tt);;
  net <- self model;;
  deref "train" net;;
  call ModelTrain;;
  lr <- self local_rank;;
  (if negb (lr =? -1) then call DistBarrier else ret tt);;
  set_model_state MS_TRAIN;;
  k <- self accumulation_steps;;
  (if 1 <? k then
     o <- self optimizer;;
     deref "zero_grad" o;;
     call OptimizerZeroGrad
   else ret tt);;
  bs <- open_loader data_loader;;
  loc <- train_batches data_loader 0 bs (mkLocals AverageMeter_new None None);;
  close_and_record loc.

(** ** [validate_one_epoch] (lines 194-226) *)

Definition valid_batch (data_loader : option Loader) (b_idx : Z) (data : Batch)
    (loc : Locals) : M Locals :=
  set_train_state VALID_STEP_START;;
  r <- validate_one_step data;;
  let '(loss, metrics) := r in
  lr <- self local_rank;;
  loss <- (if negb (lr =? -1) then
             call DistBarrier;;
             call DistWorldSize;;
             n <- answer world_size;;
             call (DistAllGather loss);;
             ret (LossGathered loss n)
           else ret loss);;
  set_train_state VALID_STEP_END;;
  let loc := mkLocals (AverageMeter_update (losses loc) (Item loss)
                         (batch_size_of data_loader))
                      (metrics_meter loc) (monitor loc) in
  loc <- update_meters b_idx metrics (batch_size_of data_loader) loc;;
  tpu <- self using_tpu;;
  (if negb tpu then call (TqdmSetPostfix "valid") else ret tt);;
  n <- self current_valid_step;;
  assign (set_current_valid_step (n + 1));;
  ret loc.

Fixpoint valid_batches (data_loader : option Loader) (b_idx : Z) (bs : list Batch)
    (loc : Locals) : M Locals :=
  match bs with
  | [] => ret loc
  | data :: rest =>
      loc <- valid_batch data_loader b_idx data loc;;
      valid_batches data_loader (b_idx + 1) rest loc
  end.

Definition validate_one_epoch (data_loader : option Loader) : M Avg :=
  net <- self model;;
  deref "eval" net;;
  call ModelEval;;
  set_model_state MS_VALID;;
  bs <- open_loader data_loader;;
  loc <- valid_batches data_loader 0 bs (mkLocals AverageMeter_new None None);;
  close_and_record loc.

(** ** [save] (lines 265-290) *)

Definition write_file (p : Payload) (model_path : string) : M unit :=
  tpu <- self using_tpu;;
  if tpu then xm_call (XmSave p model_path) else call (TorchSave p model_path).

Definition save (model_path : string) (weights_only : bool) : M unit :=
  net <- self model;;
  deref "state_dict" net;;
  call ModelStateDict;;
  model_state_dict <- answer model_state_dict;;
  if weights_only then write_file (PWeights model_state_dict) model_path
  else
    o <- self optimizer;;
    opt_state_dict <-
      match o with
      | Some _ => call OptimizerStateDict;;
                  s <- answer optimizer_state_dict;; ret (EOptimizer s)
      | None => ret ENone
      end;;
    sch <- self scheduler;;
    sch_state_dict <-
      match sch with
      | Some _ => call SchedulerStateDict;;
                  s <- answer scheduler_state_dict;; ret (EScheduler s)
      | None => ret ENone
      end;;
    e <- self current_epoch;;
    fp <- self fp16;;
    let model_dict : gmap string Entry :=
      <["fp16" := EBool fp]>
        (<["epoch" := EInt e]>
           (<["scheduler" := sch_state_dict]>
              (<["optimizer" := opt_state_dict]>
                 (<["state_dict" := EWeights model_state_dict]> ∅)))) in
    write_file (PRecord model_dict) model_path.

(** ** [load] (lines 292-306) *)

(** The file system as the log determines it: the latest save to the path, or
    else what the host had there. *)
Definition read_file (h : Host) (l : list Event) (model_path : string) : option Payload :=
  match saved_at model_path l with
  | Some p => Some p
  | None => files h model_path
  end.

(** [torch.device(d)] and [torch.device(d, index)] *)
Definition torch_device (d : Device) (index : option Z) : Device :=
  match d with
  | DeviceName s => TorchDevice s index
  | other => other
  end.

(** [p != self.device] for the device [p] of a parameter: a [torch.device]
    never equals a string or [None]. *)
Definition device_differs (p : Device) (d : option Device) : bool :=
  match d with
  | Some (DeviceName _) | None => true
  | Some x => bool_decide (p <> x)
  end.

Definition load (model_path : string) (weights_only : bool) (device_arg : string) : M unit :=
  dev <- (if String.eqb device_arg "tpu" then
            if negb (XLA_AVAILABLE H) then raise (RuntimeError "XLA is not available")
            else
              assign (set_using_tpu true);;
              call XlaDeviceCall;;
              ret XlaDevice
          else ret (DeviceName device_arg));;
  assign (set_device (Some dev));;
  net <- self model;;
  deref "parameters" net;;
  call ParamDevice;;
  pd <- answer param_device;;
  d <- self device;;
  (if device_differs pd d then call (ModelTo d) else ret tt);;
  call (TorchDeviceCall dev None);;
  call (TorchLoad model_path (torch_device dev None));;
  contents <- answer (fun h l => read_file h l model_path);;
  match contents with
  | None => raise (FileNotFoundError model_path)
  | Some model_dict =>
      if weights_only then
        call (LoadStateDict
                match model_dict with
                | PWeights sd => LWeights sd
                | PRecord d => LRecord d
                end)
      else
        match model_dict with
        | PRecord d =>
            match d !! "state_dict" with
            | Some e => call (LoadStateDict (LEntry e))
            | None => raise (KeyError "state_dict")
            end
        | PWeights sd =>
            match sd !! "state_dict" with
            | Some t => call (LoadStateDict (LTensor t))
            | None => raise (KeyError "state_dict")
            end
        end
  end.

(** ** [_init_tez] (lines 308-380) *)

(** [if self.valid_loader:] is Python truthiness: a loader has a length, so an
    empty one counts as false, like [None]. *)
Definition truthy_loader (l : option Loader) : bool :=
  match l with
  | Some ld => negb (bool_decide (loader_batches H ld = []))
  | None => false
  end.

(** The local [n_jobs] is bound on one branch only (lines 326-327); reading
    it unbound is an [UnboundLocalError]. *)
Definition read_n_jobs (local_n_jobs : option Z) : M Z :=
  match local_n_jobs with
  | Some n => ret n
  | None => raise (UnboundLocalError "n_jobs")
  end.

Definition _init_tez (args : Args) (train_dataset valid_dataset : option Dataset)
    (train_sampler_arg valid_sampler_arg : option Sampler)
    (callbacks : option (list Callback))
    (train_collate_fn valid_collate_fn : option Collate) : M unit :=
  assign (set_train_sampler train_sampler_arg);;
  assign (set_valid_sampler valid_sampler_arg);;
  let callbacks := match callbacks with Some c => c | None => [] end in
  local_n_jobs <- (if n_jobs args =? -1 then call CpuCount;; ret (Some (cpu_count H))
                   else ret None);;
  assign (set_accumulation_steps (args_accumulation_steps args));;
  assign (set_clip_grad_norm (args_clip_grad_norm args));;
  call CudaDeviceCount;;
  dc <- answer cuda_device_count;;
  assign (set_device_count (Some dc));;
  lr <- self local_rank;;
  (if lr =? -1 then
     if 1 <? dc then
       net <- self model;;
       call WrapDataParallel;;
       assign (set_model (DataParallel <$> net))
     else ret tt
   else
     call InitProcessGroup;;
     net <- self model;;
     call (WrapDistributedDataParallel lr);;
     assign (set_model ((fun n => DistributedDataParallel n lr) <$> net));;
     sm <- self train_sampler;;
     match sm with
     | None =>
         call (NewDistributedSampler train_dataset (train_shuffle args));;
         assign (set_train_sampler
                   (Some (DistributedSampler train_dataset (train_shuffle args))))
     | Some _ => ret tt
     end);;
  let shuffle := match train_sampler_arg with
                 | None => train_shuffle args
                 | Some _ => false
                 end in
  tl <- self train_loader;;
  match tl with
  | None =>
      workers <- read_n_jobs local_n_jobs;;
      let l := DataLoader train_dataset (train_batch_size args) workers
                 train_sampler_arg shuffle train_collate_fn in
      call (NewDataLoader l);;
      assign (set_train_loader (Some l))
  | Some _ => ret tt
  end;;
  vl <- self valid_loader;;
  match vl, valid_dataset with
  | None, Some _ =>
      workers <- read_n_jobs local_n_jobs;;
      let l := DataLoader valid_dataset (valid_batch_size args) workers
                 valid_sampler_arg shuffle valid_collate_fn in
      call (NewDataLoader l);;
      assign (set_valid_loader (Some l))
  | _, _ => ret tt
  end;;
  o <- self optimizer;;
  match o with
  | None => call FetchOptimizer;;
            r <- answer fetch_optimizer;; assign (set_optimizer r)
  | Some _ => ret tt
  end;;
  sch <- self scheduler;;
  match sch with
  | None => call FetchScheduler;;
            r <- answer fetch_scheduler;; assign (set_scheduler r)
  | Some _ => ret tt
  end;;
  assign (set_fp16 (args_fp16 args));;
  fp <- self fp16;;
  (if fp then call NewGradScaler;; assign (set_scaler (Some GradScaler)) else ret tt);;
  call (NewCallbackRunner callbacks);;
  assign (set__callback_runner (Some (mkCallbackRunner callbacks)));;
  set_train_state TRAIN_START.

(** ** [fit] (lines 382-441) *)

(** Lines 438-440: leave the loop when the model-lifecycle state is "end",
    count the epoch otherwise.  The result tells whether the loop goes on. *)
Definition end_of_epoch : M bool :=
  st <- self _model_state;;
  v <- deref "value" st;;
  if String.eqb (ModelState_value v) "end" then ret false
  else
    e <- self current_epoch;;
    assign (set_current_epoch (e + 1));;
    ret true.

(** One pass of the body of the epoch loop (lines 422-440). *)
Definition fit_epoch : M bool :=
  set_train_state EPOCH_START;;
  set_train_state TRAIN_EPOCH_START;;
  tl <- self train_loader;;
  train_one_epoch tl;;
  set_train_state TRAIN_EPOCH_END;;
  vl <- self valid_loader;;
  (if truthy_loader vl then
     set_train_state VALID_EPOCH_START;;
     vl <- self valid_loader;;
     validate_one_epoch vl;;
     set_train_state VALID_EPOCH_END
   else ret tt);;
  sch <- self scheduler;;
  match sch with
  | Some _ =>
      after <- self step_scheduler_after;;
      if bool_decide (after = Some "epoch") then scheduler_step else ret tt
  | None => ret tt
  end;;
  set_train_state EPOCH_END;;
  end_of_epoch.

(** [for _ in range(args.epochs)]: [n] passes are left. *)
Fixpoint fit_epochs (n : nat) : M unit :=
  match n with
  | O => ret tt
  | S n' =>
      continue <- fit_epoch;;
      if continue then fit_epochs n' else ret tt
  end.

(** Lines 393-408.  [args] is mutated in place on the TPU branch; the updated
    record is returned. *)
Definition select_device (args : Args) : M Args :=
  rank <- match py_int (default "-1" (LOCAL_RANK H)) with
          | Some z => ret z
          | None => raise (ValueError "invalid literal for int() with base 10")
          end;;
  assign (set_local_rank rank);;
  if String.eqb (args_device args) "tpu" then
    if negb (XLA_AVAILABLE H) then raise (RuntimeError "XLA is not available")
    else
      assign (set_using_tpu true);;
      let args := set_args_fp16 false args in
      call XlaDeviceCall;;
      assign (set_device (Some XlaDevice));;
      ret args
  else if String.prefix "cuda" (args_device args) then
    lr <- self local_rank;;
    (if lr =? -1 then
       call (TorchDeviceCall (DeviceName (args_device args)) None);;
       assign (set_device (Some (TorchDevice (args_device args) None)))
     else
       call (TorchDeviceCall (DeviceName "cuda") (Some lr));;
       assign (set_device (Some (TorchDevice "cuda" (Some lr)))));;
    ret args
  else
    call (TorchDeviceCall (DeviceName "cpu") None);;
    assign (set_device (Some (TorchDevice "cpu" None)));;
    ret args.

Definition fit (train_dataset : option Dataset) (args : Args)
    (valid_dataset : option Dataset)
    (train_sampler_arg valid_sampler_arg : option Sampler)
    (callbacks : option (list Callback))
    (train_collate_fn valid_collate_fn : option Collate) : M Args :=
  args <- select_device args;;
  net <- self model;;
  deref "to" net;;
  d <- self device;;
  call (ModelTo d);;
  _init_tez args train_dataset valid_dataset train_sampler_arg valid_sampler_arg
    callbacks train_collate_fn valid_collate_fn;;
  fit_epochs (Z.to_nat (epochs args));;
  set_train_state TRAIN_END;;
  ret args.

End Harness.

(** * Hosts and worlds used in examples *)

Module Demo.

(** A host on which no call ever fails, with callbacks that leave the object
    alone.  A dataset handle doubles as the number of batches a loader draws
    from it. *)
Definition host (xla : bool) (rank : option string) : Host :=
  {| XLA_AVAILABLE := xla;
     LOCAL_RANK := rank;
     cpu_count := 4;
     cuda_device_count := fun _ => 1;
     world_size := fun _ => 1;
     host_raises := fun _ _ => None;
     loader_batches := fun l => match ld_dataset l with
                                | Some n => seq 0 n
                                | None => []
                                end;
     param_device := fun _ => TorchDevice "cpu" None;
     model_state_dict := fun _ => <["weight" := 1]> ∅;
     optimizer_state_dict := fun _ => 7;
     scheduler_state_dict := fun _ => 9;
     files := fun _ => None;
     fetch_optimizer := fun _ => Some 0%nat;
     fetch_scheduler := fun _ => None;
     callbacks_effect := fun _ m => m |}.

(** A fresh object whose [model] attribute has been set. *)
Definition fresh : World :=
  mkWorld (set_model (Some (Module 0)) Model_init) metrics_init [].

Definition config (n_epochs workers : Z) (dev : string) (k : Z) (amp : bool) : Args :=
  {| epochs := n_epochs; train_batch_size := 8; valid_batch_size := 8;
     n_jobs := workers; args_device := dev; args_accumulation_steps := k;
     args_clip_grad_norm := None; train_shuffle := false; args_fp16 := amp |}.

(** A loader over [n] batches of size 8. *)
Definition loader (n : nat) : Loader := DataLoader (Some n) 8 0 None false None.

(** An object ready for an epoch on one device: model and optimizer set,
    [accumulation_steps = k]. *)
Definition ready (k : Z) : World :=
  mkWorld (set_device_count (Some 1)
             (set_optimizer (Some 0%nat)
                (set_accumulation_steps k (obj fresh))))
          metrics_init [].

End Demo.

(** * Reasoning about harness code *)

Definition exn_of {A} (r : Res A) : option Exn :=
  match r with
  | Ok _ => None
  | Raise e => Some e
  end.

(** A property of what an operation adds to the log: it may depend on the log
    before, and on how the operation ended. *)
Definition LogProp : Type := list Event -> list Event -> option Exn -> Prop.

Definition seq_ok (L1 L2 L3 : LogProp) : Prop :=
  (forall l e1 e2 r, L1 l e1 None -> L2 (l ++ e1) e2 r -> L3 l (e1 ++ e2) r) /\
  (forall l e1 x, L1 l e1 (Some x) -> L3 l e1 (Some x)).

Definition closed (L : LogProp) : Prop :=
  (forall l, L l [] None) /\ seq_ok L L L.

(** [always P L m Q]: started where [P] holds, [m] extends the log by events
    that satisfy [L], whatever the outcome, and [Q] holds if it returns. *)
Definition always {A} (P : World -> Prop) (L : LogProp) (m : M A)
    (Q : A -> World -> Prop) : Prop :=
  forall w, P w ->
    (exists ext, log (m w).2 = log w ++ ext /\ L (log w) ext (exn_of (m w).1)) /\
    (forall a, (m w).1 = Ok a -> Q a (m w).2).

(** The same with one invariant [I] of the world throughout. *)
Definition inv {A} (I : World -> Prop) (L : LogProp) (m : M A) (R : A -> Prop) : Prop :=
  always I L m (fun a w => I w /\ R a).

(** An invariant that does not look at the log. *)
Definition log_indep (I : World -> Prop) : Prop :=
  forall o ms l l', I (mkWorld o ms l) -> I (mkWorld o ms l').


(** ** Step-by-step execution at a known world *)

Definition wp {A} (m : M A) (Q : Res A -> World -> Prop) (w : World) : Prop :=
  Q (m w).1 (m w).2.

Definition logged (w : World) (e : Event) : World :=
  mkWorld (obj w) (metrics w) (log w ++ [e]).


(** * Observations on the log *)

(** Events of mixed-precision execution: a forward pass under autocast, a
    scaled backward pass, a step or update of the gradient scaler, and the
    creation of the scaler. *)
Definition uses_amp (e : Event) : bool :=
  match e with
  | Forward _ true | Backward _ true | ScalerStep _ | ScalerUpdate | NewGradScaler => true
  | _ => false
  end.

Definition no_amp : LogProp := fun _ ext _ => Forall (fun e => uses_amp e = false) ext.

Definition fp16_off (w : World) : Prop := fp16 (obj w) = false.

Definition anywhere (w : World) : Prop := True.

(** The values assigned to [train_state], and the values the callback runner
    was invoked with, in order. *)
Definition assigned (l : list Event) : list TrainingState :=
  omap (fun e => match e with Assign_train_state v => Some v | _ => None end) l.

Definition dispatched (l : list Event) : list TrainingState :=
  omap (fun e => match e with RunCallbacks v => Some v | _ => None end) l.

Definition paired : LogProp := fun _ ext _ => dispatched ext = assigned ext.

Definition has_runner (w : World) : Prop := _callback_runner (obj w) <> None.

(** Events that are calls into the host, as opposed to the two property
    assignments. *)
Definition is_call (e : Event) : bool :=
  match e with
  | Assign_model_state _ | Assign_train_state _ => false
  | _ => true
  end.

(** A failure of the host is never swallowed or replaced: a call that the
    host fails is the last thing the operation does, and its exception is
    the outcome of the operation. *)
Definition propagated (H : Host) : LogProp := fun l ext r =>
  forall pre c post x,
    ext = pre ++ c :: post ->
    is_call c = true ->
    host_raises H (l ++ pre) c = Some x ->
    post = [] /\ r = Some x.

(** ** Checkpoints *)

Definition checkpoint_keys : gset string :=
  {[ "state_dict"; "optimizer"; "scheduler"; "epoch"; "fp16" ]}.

(** [p] is the checkpoint dictionary of the object in world [w]: the five
    keys, holding the weights the model reports, the optimizer and scheduler
    states or [None], the epoch counter and the mixed-precision flag. *)
Definition is_checkpoint_of (H : Host) (w : World) (p : Payload) : Prop :=
  exists d, p = PRecord d /\
    dom d = checkpoint_keys /\
    d !! "state_dict" = Some (EWeights (model_state_dict H (log w ++ [ModelStateDict]))) /\
    d !! "epoch" = Some (EInt (current_epoch (obj w))) /\
    d !! "fp16" = Some (EBool (fp16 (obj w))) /\
    match optimizer (obj w) with
    | None => d !! "optimizer" = Some ENone
    | Some _ => exists s, d !! "optimizer" = Some (EOptimizer s)
    end /\
    match scheduler (obj w) with
    | None => d !! "scheduler" = Some ENone
    | Some _ => exists s, d !! "scheduler" = Some (EScheduler s)
    end.

(** The outcome of an operation started in [w]: whatever it wrote went to
    [path] and satisfies [good], and if it returned it wrote exactly once. *)
Definition writes_only (w : World) (path : string) (good : Payload -> Prop)
    (r : Res unit) (w' : World) : Prop :=
  exists ext, log w' = log w ++ ext /\
    (forall q p, (q, p) ∈ written ext -> q = path /\ good p) /\
    (r = Ok tt -> exists p, written ext = [(path, p)]).

(** Events of [load]: they concern the device, the file and the weights of
    the model, nothing else. *)
Definition load_event (e : Event) : bool :=
  match e with
  | XlaDeviceCall | ParamDevice | ModelTo _ | TorchDeviceCall _ _
  | TorchLoad _ _ | LoadStateDict _ => true
  | _ => false
  end.

(** What [load_state_dict] was called with. *)
Definition loads (l : list Event) : list Loaded :=
  omap (fun e => match e with LoadStateDict v => Some v | _ => None end) l.

(** ** Metrics *)

Definition metric_keys : gset string := {[ "train"; "valid"; "test" ]}.

Definition has_metric_keys (w : World) : Prop := dom (metrics w) = metric_keys.

Definition unconstrained : LogProp := fun _ _ _ => True.

(** ** Optimizer steps *)

(** The three ways [train_one_step] steps the optimizer. *)
Definition is_step (e : Event) : bool :=
  match e with
  | OptimizerStep | ScalerStep _ | XmOptimizerStep _ => true
  | _ => false
  end.

Definition no_steps : LogProp := fun _ ext _ => Forall (fun e => is_step e = false) ext.

Definition accumulates_zero (w : World) : Prop := accumulation_steps (obj w) = 0.

(** ** Gradients *)

(** The gradients the host holds, as the log determines them: a backward pass
    adds the gradient of its loss to what is there, [zero_grad] clears it.
    (The optimizer is taken to hold the parameters of the model, so that
    [optimizer.zero_grad()] and [model.zero_grad()] clear the same
    gradients.)  [replay grads l] lists, for each optimizer step in [l], the
    losses whose gradients are summed at that step. *)
Fixpoint replay (grads : list Loss) (l : list Event) : list (list Loss) :=
  match l with
  | [] => []
  | e :: rest =>
      match e with
      | Backward loss _ => replay (grads ++ [loss]) rest
      | ModelZeroGrad | OptimizerZeroGrad => replay [] rest
      | OptimizerStep | ScalerStep _ | XmOptimizerStep _ => grads :: replay grads rest
      | _ => replay grads rest
      end
  end.

Definition step_gradients (l : list Event) : list (list Loss) := replay [] l.

(** The loss of a backward pass is a loss divided by [k]. *)
Definition divided_by (k : Z) (e : Event) : Prop :=
  match e with
  | Backward l _ => exists l0, l = LossDiv l0 k
  | _ => True
  end.

(** ** Epochs *)

(** [self.model.train()] opens a training epoch and [self.model.eval()] a
    validation epoch (lines 159 and 195); nothing else calls them. *)
Definition is_train (e : Event) : bool :=
  match e with ModelTrain => true | _ => false end.

Definition is_eval (e : Event) : bool :=
  match e with ModelEval => true | _ => false end.

Definition count_train (l : list Event) : nat :=
  length (filter (fun e => is_train e = true) l).

Definition count_eval (l : list Event) : nat :=
  length (filter (fun e => is_eval e = true) l).

(** The operation returns, having put the model in training mode [a] times
    and in evaluation mode [b] times. *)
Definition counted (a b : nat) : LogProp := fun _ ext r =>
  r = None /\ count_train ext = a /\ count_eval ext = b.

(** Training-state events of single steps. *)
Definition is_step_state (v : TrainingState) : bool :=
  match v with
  | TRAIN_STEP_START | TRAIN_STEP_END | VALID_STEP_START | VALID_STEP_END => true
  | _ => false
  end.

(** Callbacks that leave the object alone on step events and otherwise do no
    more than set the model-lifecycle state (as an early-stopping callback
    does). *)
Definition callbacks_set_state_only (H : Host) : Prop :=
  (forall v m, is_step_state v = true -> callbacks_effect H v m = m) /\
  (forall v m, callbacks_effect H v m = m \/
               exists ms, callbacks_effect H v m = set__model_state (Some ms) m).

(** What [fit] has settled once [_init_tez] is through: the loaders, the
    mixed-precision flag, the local rank and whether a TPU is used. *)
Record Setup : Type := mkSetup {
  su_train : Loader;
  su_valid : option Loader;
  su_fp16 : bool;
  su_rank : Z;
  su_tpu : bool
}.

(** What the epoch loop relies on: the setup, the epoch counter [e], and
    everything that keeps a step from failing by itself. *)
Definition Ready (H : Host) (su : Setup) (e : Z) (w : World) : Prop :=
  model (obj w) <> None /\
  train_loader (obj w) = Some (su_train su) /\
  loader_batches H (su_train su) <> [] /\
  valid_loader (obj w) = su_valid su /\
  optimizer (obj w) <> None /\
  accumulation_steps (obj w) <> 0 /\
  fp16 (obj w) = su_fp16 su /\
  (su_fp16 su = true -> scaler (obj w) <> None) /\
  using_tpu (obj w) = su_tpu su /\
  (su_tpu su = true -> XLA_AVAILABLE H = true) /\
  local_rank (obj w) = su_rank su /\
  (su_rank su <> -1 -> train_sampler (obj w) <> None) /\
  device_count (obj w) <> None /\
  step_scheduler_metric (obj w) = None /\
  current_epoch (obj w) = e /\
  has_metric_keys w.

(** The same while the model-lifecycle state is known to be [v], or known to
    be set. *)
Definition Ready_in (H : Host) su e (v : ModelState) (w : World) : Prop :=
  Ready H su e w /\ _model_state (obj w) = Some v.

Definition Ready_set (H : Host) su e (w : World) : Prop :=
  Ready H su e w /\ _model_state (obj w) <> None.

(** Validation runs once per epoch when the valid loader is truthy. *)
Definition valid_count (H : Host) (su : Setup) : nat :=
  if truthy_loader H (su_valid su) then 1%nat else 0%nat.

(** The end of an epoch: the counter has moved on unless the loop is left,
    and it is left exactly when the state is "end". *)
Definition epoch_done (H : Host) (su : Setup) (e : Z) (b : bool) (w : World) : Prop :=
  Ready H su (e + (if b then 1 else 0)) w /\
  (b = false <-> _model_state (obj w) = Some MS_END).

(** The locals of an epoch loop: before batch 0 nothing is bound, afterwards
    the meters and the monitor are the empty dictionaries ([model_fn] reports
    no metrics). *)
Definition locals_ok (i : Z) (loc : Locals) : Prop :=
  i = 0 \/ (metrics_meter loc = Some ∅ /\ monitor loc = Some ∅).

(** The host never fails a call. *)
Definition quiet (H : Host) : Prop := forall l e, host_raises H l e = None.

(** * What [fit] prepares *)

(** The configuration as [fit] passes it on: on a TPU it has switched mixed
    precision off (line 399). *)
Definition chosen (args : Args) : Args :=
  if String.eqb (args_device args) "tpu" then set_args_fp16 false args else args.

(** [args.train_shuffle if train_sampler is None else False] (lines 354, 364) *)
Definition fit_shuffle (args : Args) (train_sampler_arg : option Sampler) : bool :=
  match train_sampler_arg with
  | None => train_shuffle args
  | Some _ => false
  end.

(** The loaders that [_init_tez] leaves on the object when the local [n_jobs]
    is bound (lines 348-366): the ones that are there already, or new ones
    over the datasets. *)
Definition fit_train_loader (H : Host) (args : Args) (train_dataset : option Dataset)
    (train_sampler_arg : option Sampler) (train_collate_fn : option Collate)
    (w : World) : Loader :=
  match train_loader (obj w) with
  | Some l => l
  | None => DataLoader train_dataset (train_batch_size args) (cpu_count H)
              train_sampler_arg (fit_shuffle args train_sampler_arg) train_collate_fn
  end.

Definition fit_valid_loader (H : Host) (args : Args) (valid_dataset : option Dataset)
    (train_sampler_arg valid_sampler_arg : option Sampler)
    (valid_collate_fn : option Collate) (w : World) : option Loader :=
  match valid_loader (obj w), valid_dataset with
  | Some l, _ => Some l
  | None, Some _ =>
      Some (DataLoader valid_dataset (valid_batch_size args) (cpu_count H)
              valid_sampler_arg (fit_shuffle args train_sampler_arg) valid_collate_fn)
  | None, None => None
  end.

(** The stages of the preparation.  A plan holds what the object has at the
    start and the setup it is heading for; [Prep pl n] is what holds at stage
    [n]: an attribute that is assigned on the way has its initial value
    before and its final value after. *)
Record Plan : Type := mkPlan {
  pl_epoch : Z;
  pl_train0 : option Loader;
  pl_valid0 : option Loader;
  pl_optimizer0 : option Optimizer;
  pl_sampler : option Sampler;
  pl_steps : Z;
  pl_tpu0 : bool;
  pl_setup : Setup
}.

Definition Prep (pl : Plan) (n : nat) (w : World) : Prop :=
  model (obj w) <> None /\
  step_scheduler_metric (obj w) = None /\
  current_epoch (obj w) = pl_epoch pl /\
  has_metric_keys w /\
  ((n < 1)%nat -> using_tpu (obj w) = pl_tpu0 pl) /\
  ((1 <= n)%nat -> local_rank (obj w) = su_rank (pl_setup pl)) /\
  ((1 <= n)%nat -> using_tpu (obj w) = su_tpu (pl_setup pl)) /\
  ((n < 6)%nat -> train_loader (obj w) = pl_train0 pl) /\
  ((6 <= n)%nat -> train_loader (obj w) = Some (su_train (pl_setup pl))) /\
  ((n < 7)%nat -> valid_loader (obj w) = pl_valid0 pl) /\
  ((7 <= n)%nat -> valid_loader (obj w) = su_valid (pl_setup pl)) /\
  ((n < 8)%nat -> optimizer (obj w) = pl_optimizer0 pl) /\
  ((8 <= n)%nat -> optimizer (obj w) <> None) /\
  ((2 <= n < 5)%nat -> train_sampler (obj w) = pl_sampler pl) /\
  ((5 <= n)%nat -> su_rank (pl_setup pl) <> -1 -> train_sampler (obj w) <> None) /\
  ((3 <= n)%nat -> accumulation_steps (obj w) = pl_steps pl) /\
  ((4 <= n)%nat -> device_count (obj w) <> None) /\
  ((9 <= n)%nat -> fp16 (obj w) = su_fp16 (pl_setup pl)) /\
  ((10 <= n)%nat -> su_fp16 (pl_setup pl) = true -> scaler (obj w) <> None).

(** The plan of a call of [fit] on the world [w], with [rank] the value of
    the environment variable. *)
Definition plan_of (H : Host) (args : Args) (train_dataset valid_dataset : option Dataset)
    (train_sampler_arg valid_sampler_arg : option Sampler)
    (train_collate_fn valid_collate_fn : option Collate) (rank : Z) (w : World) : Plan :=
  {| pl_epoch := current_epoch (obj w);
     pl_train0 := train_loader (obj w);
     pl_valid0 := valid_loader (obj w);
     pl_optimizer0 := optimizer (obj w);
     pl_sampler := train_sampler_arg;
     pl_steps := args_accumulation_steps args;
     pl_tpu0 := using_tpu (obj w);
     pl_setup :=
       {| su_train := fit_train_loader H args train_dataset train_sampler_arg
                        train_collate_fn w;
          su_valid := fit_valid_loader H args valid_dataset train_sampler_arg
                        valid_sampler_arg valid_collate_fn w;
          su_fp16 := args_fp16 (chosen args);
          su_rank := rank;
          su_tpu := (String.eqb (args_device args) "tpu" || using_tpu (obj w))%bool |} |}.

(** What a call of [fit] needs to get through: an integer in [LOCAL_RANK],
    XLA where a TPU is used, a model, workers from [n_jobs = -1] unless the
    loaders are there, a train loader that is not empty, a positive number
    of accumulation steps, an optimizer, no metric for the scheduler, and the
    metrics dictionary of the class body. *)
Definition fit_can_start (H : Host) (args : Args) (train_dataset valid_dataset : option Dataset)
    (train_sampler_arg : option Sampler) (train_collate_fn : option Collate)
    (rank : Z) (w : World) : Prop :=
  py_int (default "-1" (LOCAL_RANK H)) = Some rank /\
  (String.eqb (args_device args) "tpu" = true \/ using_tpu (obj w) = true ->
   XLA_AVAILABLE H = true) /\
  model (obj w) <> None /\
  (n_jobs args = -1 \/
   (train_loader (obj w) <> None /\
    (valid_loader (obj w) <> None \/ valid_dataset = None))) /\
  loader_batches H (fit_train_loader H args train_dataset train_sampler_arg
                      train_collate_fn w) <> [] /\
  args_accumulation_steps args <> 0 /\
  (optimizer (obj w) <> None \/ forall l, fetch_optimizer H l <> None) /\
  step_scheduler_metric (obj w) = None /\
  has_metric_keys w.

(** ** Early stopping *)

(** The model is not in the state "end"; no callback puts it there. *)
Definition Live (w : World) : Prop := _model_state (obj w) <> Some MS_END.

Definition never_ends (H : Host) : Prop :=
  forall v m, _model_state (callbacks_effect H v m) = Some MS_END ->
              _model_state m = Some MS_END.

(** The model is in the state "end", and the callback runner is there. *)
Definition Ended (w : World) : Prop :=
  _model_state (obj w) = Some MS_END /\ _callback_runner (obj w) <> None.

(** The callbacks stop the training at the end of every epoch, as an
    early-stopping callback does once it has run out of patience. *)
Definition stops_at_epoch_end (H : Host) : Prop :=
  forall m, callbacks_effect H EPOCH_END m = set__model_state (Some MS_END) m.

(** A host like [Demo.host] whose callbacks stop the training at the end of
    the first epoch. *)
Definition stopping_host : Host :=
  let h := Demo.host false None in
  {| XLA_AVAILABLE := XLA_AVAILABLE h;
     LOCAL_RANK := LOCAL_RANK h;
     cpu_count := cpu_count h;
     cuda_device_count := cuda_device_count h;
     world_size := world_size h;
     host_raises := host_raises h;
     loader_batches := loader_batches h;
     param_device := param_device h;
     model_state_dict := model_state_dict h;
     optimizer_state_dict := optimizer_state_dict h;
     scheduler_state_dict := scheduler_state_dict h;
     files := files h;
     fetch_optimizer := fetch_optimizer h;
     fetch_scheduler := fetch_scheduler h;
     callbacks_effect := fun v m =>
       match v with
       | EPOCH_END => set__model_state (Some MS_END) m
       | _ => m
       end |}.

(** ** Single steps *)

(** Several GPUs in one process: [local_rank == -1] and [device_count > 1]. *)
Definition multi_gpu (m : Model) : bool :=
  ((local_rank m =? -1) &&
   match device_count m with
   | Some n => 1 <? n
   | None => false
   end)%bool.

(** [loss.mean()] when [multi_gpu] (lines 104-106, 142-144). *)
Definition reduced (m : Model) (l : Loss) : Loss :=
  if multi_gpu m then LossMean l else l.

(** The call that steps the optimizer (lines 121-128). *)
Definition stepper (m : Model) : Event :=
  if fp16 m then ScalerStep (optimizer m)
  else if using_tpu m then XmOptimizerStep (optimizer m)
  else OptimizerStep.

(** What a step needs on the object. *)
Definition step_ready (H : Host) (w : World) : Prop :=
  model (obj w) <> None /\
  (local_rank (obj w) = -1 -> device_count (obj w) <> None) /\
  (fp16 (obj w) = true -> scaler (obj w) <> None) /\
  optimizer (obj w) <> None /\
  (using_tpu (obj w) = true -> XLA_AVAILABLE H = true) /\
  accumulation_steps (obj w) <> 0.

Definition is_scheduler_step (e : Event) : bool :=
  match e with
  | SchedulerStep _ => true
  | _ => false
  end.

(** ** Checkpoints read back *)

(** What [load] hands to [load_state_dict] when the file holds [p] (lines
    303-306): the contents as they are with [weights_only=True], their entry
    "state_dict" otherwise; [None] when there is no such entry. *)
Definition handed_over (p : Payload) (weights_only : bool) : option Loaded :=
  if weights_only then
    Some (match p with
          | PWeights sd => LWeights sd
          | PRecord d => LRecord d
          end)
  else
    match p with
    | PRecord d => LEntry <$> d !! "state_dict"
    | PWeights sd => LTensor <$> sd !! "state_dict"
    end.

(** ** Whole epochs *)

(** Callbacks that leave the object alone on the events of single steps. *)
Definition callbacks_skip_steps (H : Host) : Prop :=
  forall v m, is_step_state v = true -> callbacks_effect H v m = m.

(** What the log gets from an assignment to [train_state]. *)
Definition train_state_events (m : Model) (v : TrainingState) : list Event :=
  Assign_train_state v ::
  match _callback_runner m with
  | Some _ => [RunCallbacks v]
  | None => []
  end.

(** The updates of the loss meter in [train_one_epoch] (line 176): for each
    batch the loss of the step times [accumulation_steps], weighted by the
    batch size of the loader. *)
Definition train_samples (H : Host) (m : Model) (ld : Loader) : list (Sample * Z) :=
  (fun data => (ItemTimes (LossDiv (reduced m (LossOf data)) (accumulation_steps m))
                  (accumulation_steps m),
                ld_batch_size ld)) <$> loader_batches H ld.

(** The object after [n >= 1] batches of [train_one_epoch]. *)
Definition after_train_batches (n : nat) (i : Z) (m : Model) : Model :=
  set_current_train_step (current_train_step m + Z.of_nat n)
    (set__train_state (Some TRAIN_STEP_END)
       (set_batch_index (i + Z.of_nat n - 1) m)).

(** What [train_one_epoch] needs besides [step_ready]. *)
Definition epoch_ready (H : Host) (w : World) : Prop :=
  step_ready H w /\
  step_scheduler_metric (obj w) = None /\
  (local_rank (obj w) <> -1 -> train_sampler (obj w) <> None) /\
  has_metric_keys w.

(** The loss that [validate_one_epoch] meters for a batch (lines 201-211):
    the loss of [validate_one_step], gathered over the processes when the
    run is distributed ([size] is what [get_world_size] answered). *)
Definition valid_loss (m : Model) (data : Batch) (size : Z) : Loss :=
  if local_rank m =? -1 then reduced m (reduced m (LossOf data))
  else LossGathered (reduced m (reduced m (LossOf data))) size.

Definition valid_samples (m : Model) (ld : Loader) (bs : list Batch) (sizes : list Z)
    : list (Sample * Z) :=
  zip_with (fun data size => (Item (valid_loss m data size), ld_batch_size ld)) bs sizes.

(** The object after [n >= 1] batches of [validate_one_epoch]. *)
Definition after_valid_batches (n : nat) (m : Model) : Model :=
  set_current_valid_step (current_valid_step m + Z.of_nat n)
    (set__train_state (Some VALID_STEP_END) m).

(** ** Where the model ends up *)

(** The device [fit] chooses (lines 394-409): the XLA device for "tpu"; for
    a name that starts with "cuda" that device, or the GPU of the local rank
    when the run is distributed; the CPU for every other name. *)
Definition fit_device (args : Args) (rank : Z) : Device :=
  if String.eqb (args_device args) "tpu" then XlaDevice
  else if String.prefix "cuda" (args_device args) then
    if rank =? -1 then TorchDevice (args_device args) None
    else TorchDevice "cuda" (Some rank)
  else TorchDevice "cpu" None.

(** The wrapper [_init_tez] puts around the model (lines 333-343). *)
Definition wrapped (rank dc : Z) (net : option Net) : option Net :=
  if rank =? -1 then
    if 1 <? dc then DataParallel <$> net else net
  else (fun n => DistributedDataParallel n rank) <$> net.

Definition Placed (net : option Net) (d : option Device) (rank : Z) (w : World) : Prop :=
  model (obj w) = net /\ device (obj w) = d /\ local_rank (obj w) = rank.

Definition callbacks_keep_placement (H : Host) : Prop :=
  forall v m, model (callbacks_effect H v m) = model m /\
              device (callbacks_effect H v m) = device m /\
              local_rank (callbacks_effect H v m) = local_rank m /\
              device_count (callbacks_effect H v m) = device_count m.

(** ** The order of the training states *)

(** The training states of the steps of an epoch: a start and an end for
    every batch. *)
Inductive step_pairs (s e : TrainingState) : list TrainingState -> Prop :=
| pairs_nil : step_pairs s e []
| pairs_cons l : step_pairs s e l -> step_pairs s e (s :: e :: l).

(** The training states of one pass of the epoch loop (lines 422-437): the
    train epoch, the validate epoch if there is one, the end of the epoch. *)
Definition train_part (l : list TrainingState) : Prop :=
  exists steps, l = [EPOCH_START; TRAIN_EPOCH_START] ++ steps ++ [TRAIN_EPOCH_END] /\
                step_pairs TRAIN_STEP_START TRAIN_STEP_END steps.

Definition valid_part (l : list TrainingState) : Prop :=
  l = [] \/
  exists steps, l = [VALID_EPOCH_START] ++ steps ++ [VALID_EPOCH_END] /\
                step_pairs VALID_STEP_START VALID_STEP_END steps.

Definition epoch_trace (l : list TrainingState) : Prop :=
  exists t v, l = t ++ v ++ [EPOCH_END] /\ train_part t /\ valid_part v.

(** At most [n] passes. *)
Inductive epochs_trace : nat -> list TrainingState -> Prop :=
| epochs_none n : epochs_trace n []
| epochs_more n l ls :
    epoch_trace l -> epochs_trace n ls -> epochs_trace (S n) (l ++ ls).

(** A whole run of [fit]. *)
Definition fit_trace (n : nat) (l : list TrainingState) : Prop :=
  exists ls, l = [TRAIN_START] ++ ls ++ [TRAIN_END] /\ epochs_trace n ls.

(** What an operation that returns has assigned to [train_state]. *)
Definition says (P : list TrainingState -> Prop) : LogProp :=
  fun _ ext r => r = None -> P (assigned ext).

(** ** Steps of the scheduler *)

(** Neither of the two values of [step_scheduler_after] that the code
    compares with (lines 130 and 431); [None], the value of the class body,
    is one such. *)
Definition scheduler_idle (w : World) : Prop :=
  step_scheduler_after (obj w) <> Some "batch" /\
  step_scheduler_after (obj w) <> Some "epoch".

Definition no_scheduler_steps : LogProp :=
  fun _ ext _ => Forall (fun e => is_scheduler_step e = false) ext.

(** ** Files *)



(** * Properties *)

Lemma always_bind {A B} P (L1 L2 L3 : LogProp) (m : M A) (k : A -> M B) Q1 Q :
  seq_ok L1 L2 L3 ->
  always P L1 m Q1 ->
  (forall a, always (Q1 a) L2 (k a) Q) ->
  always P L3 (bind m k) Q.
Proof.
  intros [Hseq Hfail] Hm Hk w HP. unfold bind.
  destruct (Hm w HP) as [(e1 & Hlog1 & HL1) HQ1].
  destruct (m w) as [[a|x] w1] eqn:Hmw; simpl in *.
  - destruct (Hk a w1 (HQ1 a eq_refl)) as [(e2 & Hlog2 & HL2) HQ2].
    split; [|exact HQ2].
    exists (e1 ++ e2). split.
    + rewrite Hlog2, Hlog1. by rewrite <- app_assoc.
    + apply Hseq; [done|]. by rewrite <- Hlog1.
  - split; [|discriminate].
    exists e1. split; [done|]. by apply Hfail.
Qed.

Lemma always_conseq {A} (P P' : World -> Prop) (L L' : LogProp) (m : M A)
    (Q Q' : A -> World -> Prop) :
  (forall w, P' w -> P w) ->
  (forall l e r, L l e r -> L' l e r) ->
  (forall a w, Q a w -> Q' a w) ->
  always P L m Q -> always P' L' m Q'.
Proof.
  intros HP HL HQ Hm w Hw.
  destruct (Hm w (HP w Hw)) as [(e & Hlog & He) Hq].
  split; [exists e; auto | intros a Ha; auto].
Qed.

Lemma always_false {A} (P : World -> Prop) L (m : M A) Q :
  (forall w, P w -> False) -> always P L m Q.
Proof. intros HF w Hw. destruct (HF w Hw). Qed.

Section Invariant.

Variable H : Host.
Variable I : World -> Prop.
Variable L : LogProp.
Hypothesis I_log : log_indep I.
Hypothesis L_closed : closed L.

Lemma inv_ret {A} (a : A) (R : A -> Prop) : R a -> inv I L (ret a) R.
Proof.
  intros HR w Hw. unfold ret; simpl. split.
  - exists []. rewrite app_nil_r. split; [done|]. apply L_closed.
  - intros ? [= <-]. done.
Qed.

Lemma inv_raise {A} (e : Exn) (R : A -> Prop) :
  (forall l, L l [] (Some e)) -> inv I L (raise e) R.
Proof.
  intros HL w Hw. unfold raise; simpl. split; [|discriminate].
  exists []. rewrite app_nil_r. auto.
Qed.

Lemma inv_bind {A B} (m : M A) (k : A -> M B) (R1 : A -> Prop) (R : B -> Prop) :
  inv I L m R1 ->
  (forall a, R1 a -> inv I L (k a) R) ->
  inv I L (bind m k) R.
Proof.
  intros Hm Hk. eapply always_bind; [apply L_closed | exact Hm |].
  intros a w [Hw Ha]. by apply Hk.
Qed.

Lemma inv_weaken {A} (m : M A) (R R' : A -> Prop) :
  (forall a, R a -> R' a) -> inv I L m R -> inv I L m R'.
Proof.
  intros HR Hm. eapply always_conseq; [| | |exact Hm]; auto.
  intros a w [? ?]; auto.
Qed.

Lemma inv_self_bind {A B} (f : Model -> A) (k : A -> M B) (R : B -> Prop) :
  (forall w, I w -> inv I L (k (f (obj w))) R) ->
  inv I L (bind (self f) k) R.
Proof. intros Hk w Hw. unfold bind, self. apply (Hk w Hw w Hw). Qed.

Lemma inv_get_metrics_bind {B} (k : gmap string (gmap string Avg) -> M B) (R : B -> Prop) :
  (forall w, I w -> inv I L (k (metrics w)) R) ->
  inv I L (bind get_metrics k) R.
Proof. intros Hk w Hw. unfold bind, get_metrics. apply (Hk w Hw w Hw). Qed.

Lemma inv_answer_bind {A B} (f : Host -> list Event -> A) (k : A -> M B) (R : B -> Prop) :
  (forall l, inv I L (k (f H l)) R) ->
  inv I L (bind (answer H f) k) R.
Proof. intros Hk w Hw. unfold bind, answer. apply (Hk _ w Hw). Qed.

Lemma inv_assign (f : Model -> Model) :
  (forall w, I w -> I (mkWorld (f (obj w)) (metrics w) (log w))) ->
  inv I L (assign f) (fun _ => True).
Proof.
  intros Hf w Hw. unfold assign; simpl. split.
  - exists []. rewrite app_nil_r. split; [done|]. apply L_closed.
  - intros ? _. split; auto.
Qed.

Lemma inv_put_metrics ms :
  (forall w, I w -> I (mkWorld (obj w) ms (log w))) ->
  inv I L (put_metrics ms) (fun _ => True).
Proof.
  intros Hf w Hw. unfold put_metrics; simpl. split.
  - exists []. rewrite app_nil_r. split; [done|]. apply L_closed.
  - intros ? _. split; auto.
Qed.

Lemma inv_emit (e : Event) :
  (forall l, L l [e] None) -> inv I L (emit e) (fun _ => True).
Proof.
  intros He w Hw. unfold emit; simpl. split.
  - exists [e]. auto.
  - intros ? _. split; [|done]. destruct w; eapply I_log, Hw.
Qed.

Lemma inv_call (e : Event) :
  (forall l, L l [e] (host_raises H l e)) -> inv I L (call H e) (fun _ => True).
Proof.
  intros He w Hw. unfold call. specialize (He (log w)).
  destruct (host_raises H (log w) e); simpl.
  - split; [|discriminate]. exists [e]. auto.
  - split; [exists [e]; auto|]. intros ? _. split; [|done].
    destruct w; eapply I_log, Hw.
Qed.

Lemma inv_switch {B} (I' : World -> Prop) (f : Model -> Model) (k : unit -> M B)
    (R : B -> Prop) :
  (forall w, I w -> I' (mkWorld (f (obj w)) (metrics w) (log w))) ->
  (forall w, I' w -> I w) ->
  inv I' L (k tt) R ->
  inv I L (bind (assign f) k) R.
Proof.
  intros Hf Hweak Hk w Hw. unfold bind, assign.
  destruct (Hk _ (Hf w Hw)) as [Hlog Hq]. simpl in *.
  split; [exact Hlog|].
  intros a Ha. destruct (Hq a Ha). auto.
Qed.

Lemma inv_deref {A} (name : string) (o : option A) :
  (o = None -> forall l, L l [] (Some (AttributeError name))) ->
  inv I L (deref name o) (fun a => o = Some a).
Proof.
  intros HN. destruct o; simpl.
  - by apply inv_ret.
  - apply inv_raise. auto.
Qed.

(** The same rules for the last operation of a block, with any postcondition. *)

Lemma always_ret {A} (a : A) Q : (forall w, I w -> Q a w) -> always I L (ret a) Q.
Proof.
  intros HQ w Hw. unfold ret; simpl. split.
  - exists []. rewrite app_nil_r. split; [done|]. apply L_closed.
  - intros ? [= <-]. auto.
Qed.

Lemma always_raise {A} (e : Exn) (Q : A -> World -> Prop) :
  (forall l, L l [] (Some e)) -> always I L (raise e) Q.
Proof.
  intros HL w Hw. unfold raise; simpl. split; [|discriminate].
  exists []. rewrite app_nil_r. auto.
Qed.

Lemma always_seq {A B} (m : M A) (k : A -> M B) (R1 : A -> Prop) Q :
  inv I L m R1 ->
  (forall a, R1 a -> always I L (k a) Q) ->
  always I L (bind m k) Q.
Proof.
  intros Hm Hk. eapply always_bind; [apply L_closed | exact Hm |].
  intros a w [Hw Ha]. by apply Hk.
Qed.

Lemma always_self_bind {A B} (f : Model -> A) (k : A -> M B) Q :
  (forall w, I w -> always I L (k (f (obj w))) Q) ->
  always I L (bind (self f) k) Q.
Proof. intros Hk w Hw. unfold bind, self. apply (Hk w Hw w Hw). Qed.

Lemma always_get_metrics_bind {B} (k : gmap string (gmap string Avg) -> M B) Q :
  (forall w, I w -> always I L (k (metrics w)) Q) ->
  always I L (bind get_metrics k) Q.
Proof. intros Hk w Hw. unfold bind, get_metrics. apply (Hk w Hw w Hw). Qed.

Lemma always_answer_bind {A B} (f : Host -> list Event -> A) (k : A -> M B) Q :
  (forall l, always I L (k (f H l)) Q) ->
  always I L (bind (answer H f) k) Q.
Proof. intros Hk w Hw. unfold bind, answer. apply (Hk _ w Hw). Qed.

Lemma always_assign (f : Model -> Model) Q :
  (forall w, I w -> Q tt (mkWorld (f (obj w)) (metrics w) (log w))) ->
  always I L (assign f) Q.
Proof.
  intros Hf w Hw. unfold assign; simpl. split.
  - exists []. rewrite app_nil_r. split; [done|]. apply L_closed.
  - intros [] _. auto.
Qed.

Lemma always_put_metrics ms Q :
  (forall w, I w -> Q tt (mkWorld (obj w) ms (log w))) ->
  always I L (put_metrics ms) Q.
Proof.
  intros Hf w Hw. unfold put_metrics; simpl. split.
  - exists []. rewrite app_nil_r. split; [done|]. apply L_closed.
  - intros [] _. auto.
Qed.

Lemma always_emit (e : Event) Q :
  (forall l, L l [e] None) ->
  (forall w, I w -> Q tt (mkWorld (obj w) (metrics w) (log w ++ [e]))) ->
  always I L (emit e) Q.
Proof.
  intros He HQ w Hw. unfold emit; simpl. split.
  - exists [e]. auto.
  - intros [] _. auto.
Qed.

Lemma always_call (e : Event) Q :
  (forall l, L l [e] (host_raises H l e)) ->
  (forall w, I w -> Q tt (mkWorld (obj w) (metrics w) (log w ++ [e]))) ->
  always I L (call H e) Q.
Proof.
  intros He HQ w Hw. unfold call. specialize (He (log w)).
  destruct (host_raises H (log w) e); simpl.
  - split; [|discriminate]. exists [e]. auto.
  - split; [exists [e]; auto|]. intros [] _. auto.
Qed.

Lemma always_switch {B} (I' : World -> Prop) (f : Model -> Model) (k : unit -> M B) Q :
  (forall w, I w -> I' (mkWorld (f (obj w)) (metrics w) (log w))) ->
  always I' L (k tt) Q ->
  always I L (bind (assign f) k) Q.
Proof.
  intros Hf Hk w Hw. unfold bind, assign. apply (Hk _ (Hf w Hw)).
Qed.

Lemma always_of_inv {A} (m : M A) (R : A -> Prop) Q :
  (forall a w, I w -> R a -> Q a w) -> inv I L m R -> always I L m Q.
Proof.
  intros HQ Hm. eapply always_conseq; [| | |exact Hm]; auto.
  intros a w [? ?]; auto.
Qed.

End Invariant.

(** Walking through harness code with the rules above.  [side] closes the
    side conditions on events and assignments; [known] proves the invariant
    for functions that have a lemma already. *)
Ltac head_of m :=
  lazymatch m with
  | ?f _ => head_of f
  | ?f => f
  end.

Ltac set_post :=
  lazymatch goal with
  | |- @inv ?A _ _ _ ?R => tryif is_evar R then unify R (fun _ : A => True) else idtac
  end.

Ltac inv_walk Ilog Lcl side known :=
  first [ solve [known] | inv_walk_step Ilog Lcl side known ]
with inv_walk_step Ilog Lcl side known :=
  cbn beta iota;
  lazymatch goal with
  | |- inv _ _ (bind (self _) _) _ =>
      apply (inv_self_bind _ _); intros ? ?; inv_walk Ilog Lcl side known
  | |- inv _ _ (bind get_metrics _) _ =>
      apply (inv_get_metrics_bind _ _); intros ? ?; inv_walk Ilog Lcl side known
  | |- inv _ _ (bind (answer _ _) _) _ =>
      apply (inv_answer_bind _ _ _); intros ?; inv_walk Ilog Lcl side known
  | |- inv _ _ (bind _ _) _ =>
      eapply (inv_bind _ _ Lcl);
      [ inv_walk Ilog Lcl side known | intros ? ?; inv_walk Ilog Lcl side known ]
  | |- @inv ?A _ _ (ret ?a) ?R =>
      tryif is_evar R
      then (unify R (fun x : A => x = a); apply (inv_ret _ _ Lcl); reflexivity)
      else (apply (inv_ret _ _ Lcl); try exact Logic.I; side)
  | |- inv _ _ (raise _) _ => apply (inv_raise _ _); side
  | |- inv _ _ (assign _) _ => apply (inv_assign _ _ Lcl); side
  | |- inv _ _ (put_metrics _) _ => apply (inv_put_metrics _ _ Lcl); side
  | |- inv _ _ (emit _) _ => apply (inv_emit _ _ Ilog); side
  | |- inv _ _ (call _ _) _ => apply (inv_call _ _ _ Ilog); side
  | |- inv _ _ (deref _ _) _ => apply (inv_deref _ _ Lcl); side
  | |- inv _ _ (if ?c then _ else _) _ =>
      set_post; destruct c eqn:?; inv_walk Ilog Lcl side known
  | |- inv _ _ (match ?o with _ => _ end) _ =>
      set_post; destruct o eqn:?; inv_walk Ilog Lcl side known
  | |- always _ _ (bind (self _) _) _ =>
      apply (always_self_bind _ _); intros ? ?; inv_walk Ilog Lcl side known
  | |- always _ _ (bind get_metrics _) _ =>
      apply (always_get_metrics_bind _ _); intros ? ?; inv_walk Ilog Lcl side known
  | |- always _ _ (bind (answer _ _) _) _ =>
      apply (always_answer_bind _ _ _); intros ?; inv_walk Ilog Lcl side known
  | |- always _ _ (bind _ _) _ =>
      eapply (always_seq _ _ Lcl);
      [ inv_walk Ilog Lcl side known | intros ? ?; inv_walk Ilog Lcl side known ]
  | |- always _ _ (ret _) _ => apply (always_ret _ _ Lcl); side
  | |- always _ _ (raise _) _ => apply (always_raise _ _); side
  | |- always _ _ (assign _) _ => apply (always_assign _ _ Lcl); side
  | |- always _ _ (put_metrics _) _ => apply (always_put_metrics _ _ Lcl); side
  | |- always _ _ (emit _) _ => apply (always_emit _ _); side
  | |- always _ _ (call _ _) _ => apply (always_call _ _ _); side
  | |- always _ _ (if ?c then _ else _) _ =>
      destruct c eqn:?; inv_walk Ilog Lcl side known
  | |- always _ _ (match ?o with _ => _ end) _ =>
      destruct o eqn:?; inv_walk Ilog Lcl side known
  | |- always _ _ ?m _ =>
      first [ eapply always_of_inv; [ | solve [known] ]; side
            | let h := head_of m in progress unfold h; inv_walk Ilog Lcl side known ]
  | |- inv _ _ _ _ =>
      first [ eapply inv_weaken; [ | solve [known] ]; intros; exact Logic.I
            | progress hnf_head; inv_walk Ilog Lcl side known ]
  end
with hnf_head :=
  lazymatch goal with
  | |- inv ?I ?L ?m ?R =>
      let h := head_of m in unfold h
  end.

Lemma wp_bind {A B} (m : M A) (k : A -> M B) Q w :
  wp m (fun r w' => match r with
                    | Ok a => wp (k a) Q w'
                    | Raise e => Q (Raise e) w'
                    end) w ->
  wp (bind m k) Q w.
Proof. unfold wp, bind. by destruct (m w) as [[a|e] w']. Qed.

Lemma wp_call H e Q w :
  (forall x, host_raises H (log w) e = Some x -> Q (Raise x) (logged w e)) ->
  (host_raises H (log w) e = None -> Q (Ok tt) (logged w e)) ->
  wp (call H e) Q w.
Proof.
  intros Hx Hn. unfold wp, call.
  destruct (host_raises H (log w) e); simpl; auto.
Qed.

Lemma wp_ret {A} (a : A) Q w : Q (Ok a) w -> wp (ret a) Q w.
Proof. done. Qed.

Lemma wp_raise {A} e (Q : Res A -> World -> Prop) w : Q (Raise e) w -> wp (raise e) Q w.
Proof. done. Qed.

Lemma wp_self {A} (f : Model -> A) Q w : Q (Ok (f (obj w))) w -> wp (self f) Q w.
Proof. done. Qed.

Lemma wp_answer {A} H (f : Host -> list Event -> A) Q w :
  Q (Ok (f H (log w))) w -> wp (answer H f) Q w.
Proof. done. Qed.

Lemma wp_get_metrics Q w : Q (Ok (metrics w)) w -> wp get_metrics Q w.
Proof. done. Qed.

Lemma wp_assign f Q w :
  Q (Ok tt) (mkWorld (f (obj w)) (metrics w) (log w)) -> wp (assign f) Q w.
Proof. done. Qed.

Lemma wp_put_metrics ms Q w :
  Q (Ok tt) (mkWorld (obj w) ms (log w)) -> wp (put_metrics ms) Q w.
Proof. done. Qed.

Lemma wp_emit e Q w : Q (Ok tt) (logged w e) -> wp (emit e) Q w.
Proof. done. Qed.

Lemma wp_call_quiet H e Q w :
  (forall l e, host_raises H l e = None) -> Q (Ok tt) (logged w e) -> wp (call H e) Q w.
Proof. intros Hq HQ. unfold wp, call. by rewrite Hq. Qed.

(** ** Facts about files *)

Lemma saved_at_app path l1 l2 :
  saved_at path (l1 ++ l2) =
    match saved_at path l2 with
    | Some p => Some p
    | None => saved_at path l1
    end.
Proof.
  unfold saved_at, written. rewrite omap_app, filter_app.
  destruct (filter _ (omap written_by l2)) as [|x xs] eqn:E using rev_ind.
  - by rewrite app_nil_r.
  - by rewrite app_assoc, !last_snoc.
Qed.

Lemma read_file_snoc H l e path :
  written_by e = None -> read_file H (l ++ [e]) path = read_file H l path.
Proof.
  intros He. unfold read_file. rewrite saved_at_app.
  unfold saved_at at 1, written. simpl. by rewrite He.
Qed.

Ltac wp_rewrite :=
  rewrite ?read_file_snoc by reflexivity;
  repeat match goal with
         | E : ?x = _ |- context [?x] =>
             lazymatch x with
             | context [match _ with _ => _ end] => fail
             | _ => rewrite E
             end
         end.

(** Reading an attribute after assignments. *)
Ltac obj_simpl :=
  cbn [obj metrics log fst snd
       model train_loader valid_loader optimizer scheduler
       step_scheduler_after step_scheduler_metric current_epoch
       current_train_step current_valid_step _model_state _train_state device
       _callback_runner fp16 scaler accumulation_steps batch_index
       clip_grad_norm using_tpu local_rank train_sampler valid_sampler
       device_count
       set_model set_train_loader set_valid_loader set_optimizer
       set_scheduler set_step_scheduler_after set_step_scheduler_metric
       set_current_epoch set_current_train_step set_current_valid_step
       set__model_state set__train_state set_device set__callback_runner
       set_fp16 set_scaler set_accumulation_steps set_batch_index
       set_clip_grad_norm set_using_tpu set_local_rank set_train_sampler
       set_valid_sampler set_device_count].

Ltac obj_simpl_all :=
  cbn [obj metrics log fst snd
       model train_loader valid_loader optimizer scheduler
       step_scheduler_after step_scheduler_metric current_epoch
       current_train_step current_valid_step _model_state _train_state device
       _callback_runner fp16 scaler accumulation_steps batch_index
       clip_grad_norm using_tpu local_rank train_sampler valid_sampler
       device_count
       set_model set_train_loader set_valid_loader set_optimizer
       set_scheduler set_step_scheduler_after set_step_scheduler_metric
       set_current_epoch set_current_train_step set_current_valid_step
       set__model_state set__train_state set_device set__callback_runner
       set_fp16 set_scaler set_accumulation_steps set_batch_index
       set_clip_grad_norm set_using_tpu set_local_rank set_train_sampler
       set_valid_sampler set_device_count] in *.

Ltac wp_simpl := unfold logged; obj_simpl; cbn beta iota.

(** [quiet] is a tactic that proves that the host never raises, or fails. *)
Ltac wp_run quiet :=
  wp_simpl;
  lazymatch goal with
  | |- wp (bind _ _) _ _ => apply wp_bind; wp_run quiet
  | |- wp (ret _) _ _ => apply wp_ret; wp_run quiet
  | |- wp (raise _) _ _ => apply wp_raise; wp_simpl
  | |- wp (self _) _ _ => apply wp_self; wp_run quiet
  | |- wp (answer _ _) _ _ => apply wp_answer; wp_run quiet
  | |- wp get_metrics _ _ => apply wp_get_metrics; wp_run quiet
  | |- wp (assign _) _ _ => apply wp_assign; wp_run quiet
  | |- wp (put_metrics _) _ _ => apply wp_put_metrics; wp_run quiet
  | |- wp (emit _) _ _ => apply wp_emit; wp_run quiet
  | |- wp (call _ _) _ _ =>
      first [ apply wp_call_quiet; [solve [quiet] | wp_run quiet]
            | apply wp_call; [ intros ? ?; wp_simpl | intros ?; wp_run quiet ] ]
  | |- wp (if ?c then _ else _) _ _ =>
      wp_rewrite;
      lazymatch goal with
      | |- wp (if ?c then _ else _) _ _ =>
          let c' := eval cbn in c in
          lazymatch c' with
          | true => change c with true; wp_run quiet
          | false => change c with false; wp_run quiet
          | _ => destruct c eqn:?; wp_run quiet
          end
      | |- _ => wp_run quiet
      end
  | |- wp (match ?o with _ => _ end) _ _ =>
      wp_rewrite;
      lazymatch goal with
      | |- wp (match ?o with _ => _ end) _ _ => destruct o eqn:?; wp_run quiet
      | |- _ => wp_run quiet
      end
  | |- wp ?m _ _ =>
      let h := head_of m in
      first [ progress unfold h; wp_run quiet | idtac ]
  | |- _ => idtac
  end.

(** * Mixed precision on a TPU *)

Lemma no_amp_closed : closed no_amp.
Proof.
  split; [intros; constructor|]. split.
  - intros l e1 e2 r H1 H2. apply Forall_app. done.
  - intros l e1 x H1. done.
Qed.

Lemma fp16_off_log : log_indep fp16_off.
Proof. intros o ms l l' Hw. exact Hw. Qed.

Lemma anywhere_log : log_indep anywhere.
Proof. done. Qed.

Ltac amp_side :=
  unfold no_amp, fp16_off, anywhere in *; simpl in *; intros;
  repeat match goal with Hx : fp16 _ = _ |- _ => rewrite Hx in * end;
  try solve [ done | repeat constructor | congruence ].

Ltac amp_walk known := inv_walk fp16_off_log no_amp_closed amp_side known.

Section MixedPrecision.

Variable H : Host.
Hypothesis callbacks_keep_fp16 : forall v m, fp16 (callbacks_effect H v m) = fp16 m.

Lemma amp_train_batches ld bs : forall i loc,
  inv fp16_off no_amp (train_batches H ld i bs loc) (fun _ => True).
Proof.
  induction bs as [|b bs IH]; intros i loc; simpl.
  - amp_walk fail.
  - amp_walk ltac:(apply IH).
Qed.

Lemma amp_valid_batches ld bs : forall i loc,
  inv fp16_off no_amp (valid_batches H ld i bs loc) (fun _ => True).
Proof.
  induction bs as [|b bs IH]; intros i loc; simpl.
  - amp_walk fail.
  - amp_walk ltac:(apply IH).
Qed.

Lemma amp_fit_epochs n : inv fp16_off no_amp (fit_epochs H n) (fun _ => True).
Proof.
  induction n as [|n IH]; simpl.
  - amp_walk fail.
  - amp_walk ltac:(first [apply IH | apply amp_train_batches | apply amp_valid_batches]).
Qed.

Lemma amp_select_device args :
  XLA_AVAILABLE H = true -> args_device args = "tpu" ->
  inv anywhere no_amp (select_device H args) (fun a => args_fp16 a = false).
Proof.
  intros Hx Hd. unfold select_device. rewrite Hd, Hx. simpl.
  inv_walk anywhere_log no_amp_closed amp_side fail.
Qed.

Lemma amp_init_tez args td vd ts vs cbs tc vc :
  args_fp16 args = false ->
  always anywhere no_amp (_init_tez H args td vd ts vs cbs tc vc) (fun _ w => fp16_off w).
Proof.
  intros Hfp.
  inv_walk anywhere_log no_amp_closed amp_side
    ltac:(idtac; lazymatch goal with
          | |- always _ _ (bind (assign (set_fp16 _)) _) _ =>
              apply (always_switch _ _ fp16_off); [amp_side | amp_walk fail]
          end).
Qed.

Lemma amp_fit td args vd ts vs cbs tc vc :
  XLA_AVAILABLE H = true -> args_device args = "tpu" ->
  always anywhere no_amp (fit H td args vd ts vs cbs tc vc)
    (fun a w => fp16_off w /\ args_fp16 a = false).
Proof.
  intros Hx Hd. unfold fit.
  eapply (always_seq _ _ no_amp_closed); [by apply amp_select_device|].
  intros a Ha.
  inv_walk anywhere_log no_amp_closed amp_side
    ltac:(idtac; lazymatch goal with
          | |- always _ _ (bind (_init_tez _ _ _ _ _ _ _ _ _) _) _ =>
              eapply always_bind; [apply no_amp_closed | by apply amp_init_tez | ];
              intros ?; amp_walk ltac:(apply amp_fit_epochs)
          end).
Qed.

End MixedPrecision.

(** C8.  When [fit] is asked for the device "tpu" and XLA is available, the
    run uses no mixed precision at all, whatever [args.fp16] says: no event of
    the run is an autocast forward pass, a scaled backward pass or a scaler
    call, and on return both [self.fp16] and [args.fp16] are [False].
    Callbacks are assumed not to touch the [fp16] attribute. *)
Theorem fit_tpu_forces_fp16_off (H : Host) td args vd ts vs cbs tc vc (w : World) :
  XLA_AVAILABLE H = true ->
  args_device args = "tpu" ->
  (forall v m, fp16 (callbacks_effect H v m) = fp16 m) ->
  let out := fit H td args vd ts vs cbs tc vc w in
  (exists ext, log out.2 = log w ++ ext /\ Forall (fun e => uses_amp e = false) ext) /\
  (forall a, out.1 = Ok a -> fp16 (obj out.2) = false /\ args_fp16 a = false).
Proof.
  intros Hx Hd Hcb. exact (amp_fit H Hcb td args vd ts vs cbs tc vc Hx Hd w Logic.I).
Qed.

Lemma fit_tpu_forces_fp16_off_witness :
  let h := Demo.host true None in
  let a := Demo.config 1 (-1) "tpu" 1 true in
  let out := fit h (Some 2%nat) a None None None None None None Demo.fresh in
  XLA_AVAILABLE h = true /\
  args_device a = "tpu" /\
  (forall v m, fp16 (callbacks_effect h v m) = fp16 m) /\
  (exists ext, log out.2 = log Demo.fresh ++ ext /\
               Forall (fun e => uses_amp e = false) ext) /\
  (forall r, out.1 = Ok r -> fp16 (obj out.2) = false /\ args_fp16 r = false).
Proof.
  intros h a out.
  split; [reflexivity|]. split; [reflexivity|]. split; [intros; reflexivity|].
  apply (fit_tpu_forces_fp16_off h); [reflexivity | reflexivity | intros; reflexivity].
Defined.

(** * Callback dispatch *)

Lemma paired_closed : closed paired.
Proof.
  split; [done|]. split.
  - intros l e1 e2 r H1 H2. unfold paired, dispatched, assigned in *.
    rewrite !omap_app. congruence.
  - intros l e1 x H1. done.
Qed.

Lemma has_runner_log : log_indep has_runner.
Proof. intros o ms l l' Hw. exact Hw. Qed.

Ltac cb_side :=
  unfold paired, has_runner, anywhere in *; simpl in *; intros;
  try solve [ done | congruence | auto ].

Section Dispatch.

Variable H : Host.

Lemma set_train_state_log v w :
  _callback_runner (obj w) <> None ->
  log (set_train_state H v w).2 = log w ++ [Assign_train_state v; RunCallbacks v].
Proof.
  intros Hr. unfold set_train_state, bind, emit, assign, self, call, ret. simpl.
  destruct (_callback_runner (obj w)); [|done]. simpl.
  destruct (host_raises H _ _); simpl; by rewrite <- app_assoc.
Qed.

Lemma set_train_state_obj v w a :
  (set_train_state H v w).1 = Ok a ->
  obj (set_train_state H v w).2 =
    match _callback_runner (obj w) with
    | Some _ => callbacks_effect H v (set__train_state (Some v) (obj w))
    | None => set__train_state (Some v) (obj w)
    end.
Proof.
  unfold set_train_state, bind, emit, assign, self, call, ret. simpl.
  destruct (_callback_runner (obj w)); [|done]. simpl.
  destruct (host_raises H _ _); simpl; [discriminate|done].
Qed.

Hypothesis callbacks_keep_runner :
  forall v m, _callback_runner m <> None -> _callback_runner (callbacks_effect H v m) <> None.

Lemma paired_set_train_state v :
  inv has_runner paired (set_train_state H v) (fun _ => True).
Proof.
  intros w Hw. split.
  - exists [Assign_train_state v; RunCallbacks v].
    split; [by apply set_train_state_log | done].
  - intros a Ha. split; [|done]. unfold has_runner.
    rewrite (set_train_state_obj v w a Ha).
    destruct (_callback_runner (obj w)) eqn:Hr; [|done].
    apply callbacks_keep_runner. simpl. by rewrite Hr.
Qed.

Ltac cb_walk known :=
  inv_walk has_runner_log paired_closed cb_side
    ltac:(first [apply paired_set_train_state | known]).

Lemma paired_train_batches ld bs : forall i loc,
  inv has_runner paired (train_batches H ld i bs loc) (fun _ => True).
Proof.
  induction bs as [|b bs IH]; intros i loc; simpl.
  - cb_walk fail.
  - cb_walk ltac:(apply IH).
Qed.

Lemma paired_valid_batches ld bs : forall i loc,
  inv has_runner paired (valid_batches H ld i bs loc) (fun _ => True).
Proof.
  induction bs as [|b bs IH]; intros i loc; simpl.
  - cb_walk fail.
  - cb_walk ltac:(apply IH).
Qed.

Lemma paired_fit_epochs n : inv has_runner paired (fit_epochs H n) (fun _ => True).
Proof.
  induction n as [|n IH]; simpl.
  - cb_walk fail.
  - cb_walk ltac:(first [apply IH | apply paired_train_batches
                         | apply paired_valid_batches]).
Qed.

Lemma paired_init_tez args td vd ts vs cbs tc vc :
  always anywhere paired (_init_tez H args td vd ts vs cbs tc vc)
    (fun _ w => has_runner w).
Proof.
  inv_walk anywhere_log paired_closed cb_side
    ltac:(idtac; lazymatch goal with
          | |- always _ _ (bind (assign (set__callback_runner _)) _) _ =>
              apply (always_switch _ _ has_runner); [cb_side | cb_walk fail]
          end).
Qed.

Lemma paired_fit td args vd ts vs cbs tc vc :
  always anywhere paired (fit H td args vd ts vs cbs tc vc) (fun _ _ => True).
Proof.
  unfold fit.
  inv_walk anywhere_log paired_closed cb_side
    ltac:(idtac; lazymatch goal with
          | |- always _ _ (bind (_init_tez _ _ _ _ _ _ _ _ _) _) _ =>
              eapply always_bind; [apply paired_closed | by apply paired_init_tez | ];
              intros ?; cb_walk ltac:(apply paired_fit_epochs)
          end).
Qed.

End Dispatch.

(** C5.  Once the callback runner is set, an assignment to [train_state]
    invokes it exactly once, with the value just assigned; an assignment to
    [model_state] invokes nothing; and during [fit] the runner is invoked
    for the training-state assignments and for nothing else: the values it
    is called with are the values assigned, in order.  Callbacks are assumed
    not to remove the runner from the object. *)
Theorem callbacks_follow_train_state (H : Host) :
  (forall v m, _callback_runner m <> None ->
               _callback_runner (callbacks_effect H v m) <> None) ->
  (forall v w, _callback_runner (obj w) <> None ->
     log (set_train_state H v w).2 = log w ++ [Assign_train_state v; RunCallbacks v]) /\
  (forall v w, (set_model_state v w).1 = Ok tt /\
     log (set_model_state v w).2 = log w ++ [Assign_model_state v]) /\
  (forall td args vd ts vs cbs tc vc w,
     exists ext, log (fit H td args vd ts vs cbs tc vc w).2 = log w ++ ext /\
                 dispatched ext = assigned ext).
Proof.
  intros Hcb. split; [|split].
  - intros v w Hr. by apply set_train_state_log.
  - intros v w. done.
  - intros td args vd ts vs cbs tc vc w.
    destruct (paired_fit H Hcb td args vd ts vs cbs tc vc w Logic.I) as [Hlog _].
    exact Hlog.
Qed.

Lemma callbacks_follow_train_state_witness :
  let h := Demo.host false None in
  (forall v m, _callback_runner m <> None ->
               _callback_runner (callbacks_effect h v m) <> None) /\
  (forall v w, _callback_runner (obj w) <> None ->
     log (set_train_state h v w).2 = log w ++ [Assign_train_state v; RunCallbacks v]) /\
  (forall v w, (set_model_state v w).1 = Ok tt /\
     log (set_model_state v w).2 = log w ++ [Assign_model_state v]) /\
  (forall td args vd ts vs cbs tc vc w,
     exists ext, log (fit h td args vd ts vs cbs tc vc w).2 = log w ++ ext /\
                 dispatched ext = assigned ext).
Proof.
  intros h. split; [intros v m Hm; exact Hm|].
  apply (callbacks_follow_train_state h). intros v m Hm. exact Hm.
Defined.

(** * Failures *)

Lemma propagated_closed H : closed (propagated H).
Proof.
  split; [|split].
  - intros l pre c post x Heq. by destruct pre.
  - intros l e1 e2 r H1 H2 pre c post x Heq Hc Hx.
    apply app_eq_app in Heq as [k [[-> Hk]|[-> Hk]]].
    + destruct k as [|c' k]; simpl in Hk.
      * subst e2. apply (H2 [] c post x); [done|done|].
        by rewrite !app_nil_r.
      * injection Hk as <- ->.
        destruct (H1 pre c k x eq_refl Hc Hx) as [_ ?]. done.
    + apply (H2 k c post x); [done|done|]. by rewrite <- app_assoc.
  - intros l e1 x H1. exact H1.
Qed.

Lemma propagated_call H l e : propagated H l [e] (host_raises H l e).
Proof.
  intros pre c post x Heq Hc Hx.
  destruct pre as [|c' pre]; simpl in Heq.
  - injection Heq as <- <-. rewrite app_nil_r in Hx. done.
  - injection Heq as _ Heq. by destruct pre.
Qed.

Lemma propagated_emit H l e r : is_call e = false -> propagated H l [e] r.
Proof.
  intros He pre c post x Heq Hc Hx.
  destruct pre as [|c' pre]; simpl in Heq.
  - injection Heq as <- <-. congruence.
  - injection Heq as _ Heq. by destruct pre.
Qed.

Lemma propagated_nil H l r : propagated H l [] r.
Proof. intros pre c post x Heq. by destruct pre. Qed.

Ltac fail_side :=
  unfold anywhere in *; intros;
  try solve [ done | apply propagated_call | apply propagated_nil
            | apply propagated_emit; reflexivity ].

Ltac fail_walk H known := inv_walk anywhere_log (propagated_closed H) fail_side known.

Section Failures.

Variable H : Host.

Lemma propagated_train_batches ld bs : forall i loc,
  inv anywhere (propagated H) (train_batches H ld i bs loc) (fun _ => True).
Proof.
  induction bs as [|b bs IH]; intros i loc; simpl.
  - fail_walk H fail.
  - fail_walk H ltac:(apply IH).
Qed.

Lemma propagated_valid_batches ld bs : forall i loc,
  inv anywhere (propagated H) (valid_batches H ld i bs loc) (fun _ => True).
Proof.
  induction bs as [|b bs IH]; intros i loc; simpl.
  - fail_walk H fail.
  - fail_walk H ltac:(apply IH).
Qed.

Lemma propagated_fit_epochs n :
  inv anywhere (propagated H) (fit_epochs H n) (fun _ => True).
Proof.
  induction n as [|n IH]; simpl.
  - fail_walk H fail.
  - fail_walk H ltac:(first [apply IH | apply propagated_train_batches
                             | apply propagated_valid_batches]).
Qed.

Lemma propagated_fit td args vd ts vs cbs tc vc :
  inv anywhere (propagated H) (fit H td args vd ts vs cbs tc vc) (fun _ => True).
Proof. fail_walk H ltac:(apply propagated_fit_epochs). Qed.

Lemma propagated_load path wo dev :
  inv anywhere (propagated H) (load H path wo dev) (fun _ => True).
Proof. fail_walk H fail. Qed.

End Failures.

Lemma fit_tpu_unavailable H td args vd ts vs cbs tc vc w rank :
  XLA_AVAILABLE H = false ->
  args_device args = "tpu" ->
  py_int (default "-1" (LOCAL_RANK H)) = Some rank ->
  fit H td args vd ts vs cbs tc vc w =
    (Raise (RuntimeError "XLA is not available"),
     mkWorld (set_local_rank rank (obj w)) (metrics w) (log w)).
Proof.
  intros Hx Hd Hr. unfold fit, select_device, bind, assign, raise, ret.
  rewrite Hr, Hd, Hx. reflexivity.
Qed.

Lemma load_tpu_unavailable H path wo w :
  XLA_AVAILABLE H = false ->
  load H path wo "tpu" w = (Raise (RuntimeError "XLA is not available"), w).
Proof.
  intros Hx. unfold load, bind, raise. simpl. rewrite Hx. reflexivity.
Qed.

(** C1, as the code has it.  With XLA unavailable, [load] with
    [device="tpu"] raises [RuntimeError] and leaves everything as it was; so
    does [fit] when [args.device] is "tpu", after it has stored the local rank
    read from the environment, which must be unset or hold an integer.  No
    call into the host has been made by then.  And neither operation ever
    catches or replaces a failure: a host call that fails is the last event
    of the operation and its exception is the outcome. *)
Theorem tpu_without_xla_raises (H : Host) td args vd ts vs cbs tc vc path wo
    (w : World) (rank : Z) :
  XLA_AVAILABLE H = false ->
  args_device args = "tpu" ->
  py_int (default "-1" (LOCAL_RANK H)) = Some rank ->
  fit H td args vd ts vs cbs tc vc w =
    (Raise (RuntimeError "XLA is not available"),
     mkWorld (set_local_rank rank (obj w)) (metrics w) (log w)) /\
  load H path wo "tpu" w = (Raise (RuntimeError "XLA is not available"), w) /\
  (forall td' args' w',
     exists ext, log (fit H td' args' vd ts vs cbs tc vc w').2 = log w' ++ ext /\
                 propagated H (log w') ext (exn_of (fit H td' args' vd ts vs cbs tc vc w').1)) /\
  (forall dev w',
     exists ext, log (load H path wo dev w').2 = log w' ++ ext /\
                 propagated H (log w') ext (exn_of (load H path wo dev w').1)).
Proof.
  intros Hx Hd Hr. split; [|split; [|split]].
  - by apply fit_tpu_unavailable.
  - by apply load_tpu_unavailable.
  - intros td' args' w'.
    exact (proj1 (propagated_fit H td' args' vd ts vs cbs tc vc w' Logic.I)).
  - intros dev w'. exact (proj1 (propagated_load H path wo dev w' Logic.I)).
Qed.

Lemma tpu_without_xla_raises_witness :
  let h := Demo.host false None in
  let a := Demo.config 1 (-1) "tpu" 1 false in
  XLA_AVAILABLE h = false /\
  args_device a = "tpu" /\
  py_int (default "-1" (LOCAL_RANK h)) = Some (-1) /\
  fit h (Some 2%nat) a None None None None None None Demo.fresh =
    (Raise (RuntimeError "XLA is not available"),
     mkWorld (set_local_rank (-1) (obj Demo.fresh)) (metrics Demo.fresh) (log Demo.fresh)) /\
  load h "model.bin" false "tpu" Demo.fresh =
    (Raise (RuntimeError "XLA is not available"), Demo.fresh).
Proof.
  intros h a.
  split; [reflexivity|]. split; [reflexivity|]. split; [reflexivity|].
  destruct (tpu_without_xla_raises h (Some 2%nat) a None None None None None None
              "model.bin" false Demo.fresh (-1) eq_refl eq_refl eq_refl)
    as (Hfit & Hload & _).
  split; [exact Hfit | exact Hload].
Defined.

(** C1 as stated fails: the local rank is read from the environment before the
    device is looked at, so a value of LOCAL_RANK that is not an integer ends
    [fit] with a [ValueError], not with the [RuntimeError]. *)
Lemma fit_tpu_bad_local_rank :
  let h := Demo.host false (Some "abc") in
  let a := Demo.config 1 (-1) "tpu" 1 false in
  let out := fit h (Some 2%nat) a None None None None None None Demo.fresh in
  XLA_AVAILABLE h = false /\
  args_device a = "tpu" /\
  out.1 = Raise (ValueError "invalid literal for int() with base 10") /\
  ~ (exists msg, out.1 = Raise (RuntimeError msg)).
Proof.
  intros h a out.
  split; [reflexivity|]. split; [reflexivity|].
  split; [reflexivity|]. intros [msg Hm]. discriminate Hm.
Qed.

(** * Saving and loading *)

Ltac ext_here :=
  rewrite <- ?app_assoc; eexists;
  (split; [first [reflexivity | symmetry; apply app_nil_r]|]).

Ltac use_eqns :=
  repeat match goal with
         | E : ?x = _ |- context [match ?x with _ => _ end] => rewrite E
         end.

Lemma save_full_layout H path w :
  wp (save H path false) (writes_only w path (is_checkpoint_of H w)) w.
Proof.
  unfold writes_only. wp_run fail.
  all: ext_here.
  all: cbn; split; [|first [discriminate | eauto]].
  all: intros q p Hin; try (by apply elem_of_nil in Hin).
  all: apply list_elem_of_singleton in Hin; injection Hin as -> ->.
  all: split; [done|]; eexists; split; [done|].
  all: use_eqns.
  all: split; [unfold checkpoint_keys; rewrite !dom_insert_L, dom_empty_L; set_solver|].
  all: repeat split; try done; eexists; done.
Qed.

Lemma save_raw_layout H path w :
  wp (save H path true)
     (writes_only w path (eq (PWeights (model_state_dict H (log w ++ [ModelStateDict]))))) w.
Proof.
  unfold writes_only. wp_run fail.
  all: ext_here.
  all: cbn; split; [|first [discriminate | eauto]].
  all: intros q p Hin; try (by apply elem_of_nil in Hin).
  all: apply list_elem_of_singleton in Hin; injection Hin as -> ->.
  all: done.
Qed.




Lemma read_after_save H path w0 w more :
  (save H path false w0).1 = Ok tt ->
  log w = log (save H path false w0).2 ++ more ->
  filter (fun qp => qp.1 = path) (written more) = [] ->
  exists p, read_file H (log w) path = Some p /\ is_checkpoint_of H w0 p.
Proof.
  intros Hok Hlog Hmore.
  destruct (save_full_layout H path w0) as (ext & Hext & Hgood & Hone).
  destruct (Hone Hok) as [p Hp].
  exists p. split.
  - unfold read_file. rewrite Hlog, Hext, !saved_at_app.
    unfold saved_at at 1. rewrite Hmore. simpl.
    unfold saved_at at 1. rewrite Hp.
    rewrite filter_cons_True by done. by rewrite filter_nil.
  - apply (Hgood path p). rewrite Hp. by apply list_elem_of_singleton.
Qed.

(** C9.  After [save] has written a full checkpoint to a path, and as long
    as nothing else is saved there, [load] with [weights_only=False] hands
    exactly the "state_dict" entry of that checkpoint to [load_state_dict].
    Its events concern the device, the file and the model weights only, and
    the optimizer, the scheduler, [current_epoch] and [fp16] of the object
    (and its metrics) are what they were before the call.  The call returns
    when the host fails no call and the model is set (and XLA is there when
    the device is "tpu"). *)
Theorem load_restores_weights_only (H : Host) (path dev : string)
    (w0 w : World) (more : list Event) :
  (save H path false w0).1 = Ok tt ->
  log w = log (save H path false w0).2 ++ more ->
  filter (fun qp => qp.1 = path) (written more) = [] ->
  let out := load H path false dev w in
  let sd := model_state_dict H (log w0 ++ [ModelStateDict]) in
  (exists ext, log out.2 = log w ++ ext /\
     Forall (fun e => load_event e = true) ext /\
     (forall v, v ∈ loads ext -> v = LEntry (EWeights sd)) /\
     (out.1 = Ok tt -> loads ext = [LEntry (EWeights sd)])) /\
  optimizer (obj out.2) = optimizer (obj w) /\
  scheduler (obj out.2) = scheduler (obj w) /\
  current_epoch (obj out.2) = current_epoch (obj w) /\
  fp16 (obj out.2) = fp16 (obj w) /\
  model (obj out.2) = model (obj w) /\
  metrics out.2 = metrics w /\
  (quiet H -> model (obj w) <> None ->
   (dev = "tpu" -> XLA_AVAILABLE H = true) -> out.1 = Ok tt).
Proof.
  intros Hok Hlog Hmore out sd.
  destruct (read_after_save H path w0 w more Hok Hlog Hmore)
    as (p & Hread & d & -> & _ & Hsd & _).
  subst out.
  change (wp (load H path false dev) (fun r w' =>
    (exists ext, log w' = log w ++ ext /\
       Forall (fun e => load_event e = true) ext /\
       (forall v, v ∈ loads ext -> v = LEntry (EWeights sd)) /\
       (r = Ok tt -> loads ext = [LEntry (EWeights sd)])) /\
    optimizer (obj w') = optimizer (obj w) /\
    scheduler (obj w') = scheduler (obj w) /\
    current_epoch (obj w') = current_epoch (obj w) /\
    fp16 (obj w') = fp16 (obj w) /\
    model (obj w') = model (obj w) /\
    metrics w' = metrics w /\
    (quiet H -> model (obj w) <> None ->
     (dev = "tpu" -> XLA_AVAILABLE H = true) -> r = Ok tt)) w).
  clear Hok Hlog Hmore.
  wp_run fail.
  all: split; [ext_here; split; [repeat constructor|]; cbn; split;
                 [ intros v Hv; first [ by apply elem_of_nil in Hv
                                      | by apply list_elem_of_singleton in Hv ]
                 | first [discriminate | done] ]|].
  all: repeat (split; [first [reflexivity | assumption]|]).
  all: intros Hq Hm Hx; try done.
  all: try match goal with
           | E : host_raises _ _ _ = Some _ |- _ => rewrite Hq in E; discriminate E
           end.
  all: match goal with
       | E : (_ =? "tpu")%string = true |- _ =>
           apply String.eqb_eq in E; rewrite (Hx E) in *; discriminate
       end.
Qed.

Lemma load_restores_weights_only_witness :
  let h := Demo.host false None in
  let w1 := (save h "model.bin" false Demo.fresh).2 in
  let out := load h "model.bin" false "cpu" w1 in
  (save h "model.bin" false Demo.fresh).1 = Ok tt /\
  log w1 = log w1 ++ [] /\
  filter (fun qp => qp.1 = "model.bin") (written []) = [] /\
  out.1 = Ok tt /\
  optimizer (obj out.2) = optimizer (obj w1) /\
  current_epoch (obj out.2) = current_epoch (obj w1).
Proof.
  intros h w1 out.
  assert (Hs : (save h "model.bin" false Demo.fresh).1 = Ok tt) by reflexivity.
  assert (Hl : log w1 = log w1 ++ []) by reflexivity.
  assert (Hf : filter (fun qp => qp.1 = "model.bin") (written []) = []) by reflexivity.
  destruct (load_restores_weights_only h "model.bin" "cpu" Demo.fresh w1 [] Hs Hl Hf)
    as (_ & Ho & _ & He & _ & _ & _ & Hret).
  assert (Hok : out.1 = Ok tt).
  { apply Hret; [intros l e; reflexivity | discriminate | discriminate]. }
  split; [exact Hs|]. split; [exact Hl|]. split; [exact Hf|].
  split; [exact Hok|]. split; [exact Ho | exact He].
Defined.


(** * Metrics *)

Lemma ModelState_value_key v : v <> MS_END -> ModelState_value v ∈ metric_keys.
Proof. destruct v; unfold metric_keys; simpl; set_solver. Qed.

Lemma metrics_init_keys : dom metrics_init = metric_keys.
Proof.
  unfold metrics_init, metric_keys. rewrite !dom_insert_L, dom_empty_L. set_solver.
Qed.

Lemma end_not_metric_key : "end" ∉ metric_keys.
Proof. unfold metric_keys. set_solver. Qed.

Lemma update_metrics_keys losses monitor w :
  has_metric_keys w -> has_metric_keys (update_metrics losses monitor w).2.
Proof.
  unfold has_metric_keys. intros Hk.
  change (wp (update_metrics losses monitor)
             (fun _ w' => dom (metrics w') = metric_keys) w).
  wp_run fail; try done.
  all: rewrite ?dom_insert_L.
  all: repeat match goal with
              | E : _ !! _ = Some _ |- _ => apply (elem_of_dom_2 (D := gset string)) in E
              end.
  all: rewrite ?dom_insert_L in *; set_solver.
Qed.

Lemma update_metrics_writes losses monitor w v :
  has_metric_keys w ->
  _model_state (obj w) = Some v ->
  v <> MS_END ->
  exists sub,
    metrics w !! ModelState_value v = Some sub /\
    update_metrics losses monitor w =
      (Ok tt,
       mkWorld (obj w)
         (<[ModelState_value v := <["loss" := AverageMeter_avg losses]> (monitor ∪ sub)]>
            (metrics w))
         (log w)).
Proof.
  intros Hk Hv Hne.
  assert (is_Some (metrics w !! ModelState_value v)) as [sub Hsub].
  { apply (elem_of_dom (D := gset string)). rewrite Hk. by apply ModelState_value_key. }
  exists sub. split; [done|].
  unfold update_metrics, metrics_item, bind, self, deref, get_metrics, put_metrics, ret.
  rewrite Hv. simpl. rewrite Hsub. simpl. rewrite Hv. simpl.
  rewrite lookup_insert_eq. simpl. by rewrite insert_insert_eq.
Qed.

Lemma update_metrics_end losses monitor w :
  has_metric_keys w ->
  _model_state (obj w) = Some MS_END ->
  update_metrics losses monitor w = (Raise (KeyError "end"), w).
Proof.
  intros Hk Hv.
  assert (metrics w !! "end" = None) as Hnone.
  { apply (not_elem_of_dom (D := gset string)). rewrite Hk. apply end_not_metric_key. }
  unfold update_metrics, metrics_item, bind, self, deref, get_metrics, raise, ret.
  rewrite Hv. simpl. by rewrite Hnone.
Qed.

(** C7, as the code has it.  The class body creates [metrics] with exactly
    the keys "train", "valid" and "test", and [update_metrics] keeps it that
    way.  Called while the model-lifecycle state is train, valid or test, it
    returns and changes only the sub-mapping of that state: "loss" now holds
    the running-average loss, every other name of the monitor holds the
    monitor's value, names outside the monitor keep theirs, and the other two
    sub-mappings are untouched.  Called in the state end, it raises
    [KeyError] and writes nothing. *)
Theorem update_metrics_three_way (losses : AverageMeter) (monitor : gmap string Avg)
    (w : World) (v : ModelState) :
  has_metric_keys w ->
  _model_state (obj w) = Some v ->
  let out := update_metrics losses monitor w in
  dom metrics_init = metric_keys /\
  has_metric_keys out.2 /\
  (v <> MS_END ->
   exists sub sub',
     metrics w !! ModelState_value v = Some sub /\
     out.1 = Ok tt /\
     metrics out.2 !! ModelState_value v = Some sub' /\
     sub' !! "loss" = Some (AverageMeter_avg losses) /\
     (forall name a, name <> "loss" -> monitor !! name = Some a -> sub' !! name = Some a) /\
     (forall name, name <> "loss" -> monitor !! name = None -> sub' !! name = sub !! name) /\
     (forall key, key <> ModelState_value v -> metrics out.2 !! key = metrics w !! key)) /\
  (v = MS_END -> out.1 = Raise (KeyError "end") /\ metrics out.2 = metrics w).
Proof.
  intros Hk Hv out. split; [|split; [|split]].
  - apply metrics_init_keys.
  - by apply update_metrics_keys.
  - intros Hne.
    destruct (update_metrics_writes losses monitor w v Hk Hv Hne) as (sub & Hsub & Hrun).
    exists sub, (<["loss" := AverageMeter_avg losses]> (monitor ∪ sub)).
    subst out. rewrite Hrun. simpl.
    split; [done|]. split; [done|].
    split; [by rewrite lookup_insert_eq|].
    split; [by rewrite lookup_insert_eq|].
    split; [|split].
    + intros name a Hn Hm. rewrite lookup_insert_ne by done.
      by apply lookup_union_Some_l.
    + intros name Hn Hm. rewrite lookup_insert_ne by done.
      by rewrite lookup_union_r.
    + intros key Hkey. by rewrite lookup_insert_ne.
  - intros ->. subst out. by rewrite update_metrics_end.
Qed.

Lemma update_metrics_three_way_witness :
  let w := mkWorld (set__model_state (Some MS_TRAIN) Model_init) metrics_init [] in
  let out := update_metrics AverageMeter_new ∅ w in
  has_metric_keys w /\
  _model_state (obj w) = Some MS_TRAIN /\
  MS_TRAIN <> MS_END /\
  has_metric_keys out.2 /\
  out.1 = Ok tt.
Proof.
  intros w out.
  assert (Hk : has_metric_keys w) by exact metrics_init_keys.
  assert (Hv : _model_state (obj w) = Some MS_TRAIN) by reflexivity.
  assert (Hne : MS_TRAIN <> MS_END) by discriminate.
  destruct (update_metrics_three_way AverageMeter_new ∅ w MS_TRAIN Hk Hv)
    as (_ & Hkeys & Hw & _).
  destruct (Hw Hne) as (sub & sub' & _ & Hok & _).
  split; [exact Hk|]. split; [exact Hv|]. split; [exact Hne|].
  split; [exact Hkeys | exact Hok].
Defined.

(** C7 as stated fails: in the state end there is no sub-mapping to write to.
    The call raises [KeyError] and records neither the loss nor anything
    else. *)
Lemma update_metrics_in_state_end :
  let w := mkWorld (set__model_state (Some MS_END) Model_init) metrics_init [] in
  let out := update_metrics (AverageMeter_update AverageMeter_new (Item (LossOf 0%nat)) 8)
               ∅ w in
  out.1 = Raise (KeyError "end") /\
  metrics out.2 = metrics w /\
  ~ (exists key sub, metrics out.2 !! key = Some sub /\ is_Some (sub !! "loss")).
Proof.
  intros w out. split; [reflexivity|]. split; [reflexivity|].
  intros (key & sub & Hkey & Hloss).
  change (metrics out.2) with metrics_init in Hkey. unfold metrics_init in Hkey.
  repeat (apply lookup_insert_Some in Hkey as [[_ <-]|[_ Hkey]];
          [rewrite lookup_empty in Hloss; by destruct Hloss|]).
  by rewrite lookup_empty in Hkey.
Qed.

(** * The worker count *)

(** With [n_jobs] other than -1 and no train loader built beforehand, the
    local [n_jobs] is read unbound: [_init_tez] raises before any loader is
    constructed. *)
Lemma init_tez_n_jobs_unbound H args td vd ts vs cbs tc vc w :
  quiet H ->
  n_jobs args <> -1 ->
  train_loader (obj w) = None ->
  (_init_tez H args td vd ts vs cbs tc vc w).1 = Raise (UnboundLocalError "n_jobs").
Proof.
  intros Hq Hn Hl.
  apply Z.eqb_neq in Hn.
  change (wp (_init_tez H args td vd ts vs cbs tc vc)
             (fun r _ => r = Raise (UnboundLocalError "n_jobs")) w).
  unfold _init_tez. rewrite Hn.
  wp_run ltac:(exact Hq); done.
Qed.

(** C6 fails on the code.  With [n_jobs = 4] and no loader built beforehand,
    [fit] ends with [UnboundLocalError] for the local [n_jobs] and constructs
    no loader; only [n_jobs = -1] reaches the loader, with the CPU count. *)
Theorem fit_n_jobs_unbound :
  let h := Demo.host false None in
  let run workers :=
    fit h (Some 2%nat) (Demo.config 0 workers "cpu" 1 false)
      None None None None None None Demo.fresh in
  (run 4).1 = Raise (UnboundLocalError "n_jobs") /\
  (forall l, NewDataLoader l ∉ log (run 4).2) /\
  (exists a, (run (-1)).1 = Ok a) /\
  NewDataLoader (DataLoader (Some 2%nat) 8 (cpu_count h) None false None) ∈ log (run (-1)).2.
Proof.
  intros h run. split; [vm_compute; reflexivity|]. split; [|split].
  - intros l Hin. vm_compute in Hin.
    repeat (apply elem_of_cons in Hin as [Hin|Hin]; [discriminate Hin|]).
    by apply elem_of_nil in Hin.
  - eexists. vm_compute. reflexivity.
  - vm_compute. repeat first [ apply list_elem_of_here | apply list_elem_of_further ].
Qed.

(** * Accumulation over zero steps *)

Lemma train_one_step_zero_fails H data w :
  accumulation_steps (obj w) = 0 ->
  exists e, (train_one_step H data w).1 = Raise e.
Proof.
  intros Hk.
  change (wp (train_one_step H data) (fun r _ => exists e, r = Raise e) w).
  wp_run fail.
  all: eexists; reflexivity.
Qed.

Lemma train_one_step_zero_division H data w :
  accumulation_steps (obj w) = 0 ->
  quiet H ->
  model (obj w) <> None ->
  (local_rank (obj w) = -1 -> device_count (obj w) <> None) ->
  (fp16 (obj w) = true -> scaler (obj w) <> None) ->
  (train_one_step H data w).1 = Raise ZeroDivisionError /\
  exists ext l, log (train_one_step H data w).2 = log w ++ ext /\
    Backward (LossDiv l 0) (fp16 (obj w)) ∈ ext /\
    Forall (fun e => is_step e = false) ext.
Proof.
  intros Hk Hq Hm Hdc Hsc.
  change (wp (train_one_step H data) (fun r w' =>
    r = Raise ZeroDivisionError /\
    exists ext l, log w' = log w ++ ext /\
      Backward (LossDiv l 0) (fp16 (obj w)) ∈ ext /\
      Forall (fun e => is_step e = false) ext) w).
  wp_run ltac:(exact Hq).
  all: try done.
  all: lazymatch goal with
       | |- Raise ZeroDivisionError = _ /\ _ =>
           split; [reflexivity|]; rewrite <- ?app_assoc; do 2 eexists;
           (split; [reflexivity|]); simpl;
           split; [ repeat first [ apply list_elem_of_here | apply list_elem_of_further ]
                  | repeat constructor ]
       | |- _ =>
           exfalso;
           first [ by apply (Hsc eq_refl)
                 | apply Hdc; [by apply (proj1 (Z.eqb_eq _ _)) | done] ]
       end.
Qed.

Lemma no_steps_closed : closed no_steps.
Proof.
  split; [intros; constructor|]. split.
  - intros l e1 e2 r H1 H2. apply Forall_app. done.
  - intros l e1 x H1. done.
Qed.

Lemma accumulates_zero_log : log_indep accumulates_zero.
Proof. intros o ms l l' Hw. exact Hw. Qed.

Ltac zero_side :=
  unfold no_steps, accumulates_zero, anywhere in *; simpl in *; intros;
  repeat match goal with Hx : accumulation_steps _ = _ |- _ => rewrite Hx in * end;
  try solve [ done | repeat constructor | congruence | discriminate ].

Ltac zero_walk known := inv_walk accumulates_zero_log no_steps_closed zero_side known.

Section ZeroAccumulation.

Variable H : Host.
Hypothesis callbacks_keep_steps :
  forall v m, accumulation_steps (callbacks_effect H v m) = accumulation_steps m.

Lemma zero_train_batches ld bs : forall i loc,
  inv accumulates_zero no_steps (train_batches H ld i bs loc) (fun _ => True).
Proof.
  induction bs as [|b bs IH]; intros i loc; simpl.
  - zero_walk fail.
  - zero_walk ltac:(apply IH).
Qed.

Lemma zero_valid_batches ld bs : forall i loc,
  inv accumulates_zero no_steps (valid_batches H ld i bs loc) (fun _ => True).
Proof.
  induction bs as [|b bs IH]; intros i loc; simpl.
  - zero_walk fail.
  - zero_walk ltac:(apply IH).
Qed.

Lemma zero_fit_epochs n : inv accumulates_zero no_steps (fit_epochs H n) (fun _ => True).
Proof.
  induction n as [|n IH]; simpl.
  - zero_walk fail.
  - zero_walk ltac:(first [apply IH | apply zero_train_batches | apply zero_valid_batches]).
Qed.

Lemma zero_select_device args :
  inv anywhere no_steps (select_device H args)
    (fun a => args_accumulation_steps a = args_accumulation_steps args).
Proof. inv_walk anywhere_log no_steps_closed zero_side fail. Qed.

Lemma zero_init_tez args td vd ts vs cbs tc vc :
  args_accumulation_steps args = 0 ->
  always anywhere no_steps (_init_tez H args td vd ts vs cbs tc vc)
    (fun _ w => accumulates_zero w).
Proof.
  intros Hk.
  inv_walk anywhere_log no_steps_closed zero_side
    ltac:(idtac; lazymatch goal with
          | |- always _ _ (bind (assign (set_accumulation_steps _)) _) _ =>
              apply (always_switch _ _ accumulates_zero); [zero_side | zero_walk fail]
          end).
Qed.

Lemma zero_fit td args vd ts vs cbs tc vc :
  args_accumulation_steps args = 0 ->
  always anywhere no_steps (fit H td args vd ts vs cbs tc vc) (fun _ _ => True).
Proof.
  intros Hk. unfold fit.
  eapply (always_seq _ _ no_steps_closed); [apply zero_select_device|].
  intros a Ha. rewrite Hk in Ha.
  inv_walk anywhere_log no_steps_closed zero_side
    ltac:(idtac; lazymatch goal with
          | |- always _ _ (bind (_init_tez _ _ _ _ _ _ _ _ _) _) _ =>
              eapply always_bind; [apply no_steps_closed | by apply zero_init_tez | ];
              intros ?; zero_walk ltac:(apply zero_fit_epochs)
          end).
Qed.

End ZeroAccumulation.

(** C10.  With [accumulation_steps = 0], the value the class body gives the
    field, [train_one_step] never returns: on every batch it ends with an
    exception.  When nothing fails before, the loss has been divided by zero
    and sent through the backward pass, and the modulus test then raises
    [ZeroDivisionError] before any optimizer step.  [fit] copies the value
    of the configuration as it is: with [args.accumulation_steps = 0] no
    optimizer step ever happens in a run (callbacks are assumed not to change
    the field). *)
Theorem zero_accumulation_fails_every_batch (H : Host) (data : Batch) (w : World) :
  accumulation_steps (obj w) = 0 ->
  let out := train_one_step H data w in
  accumulation_steps Model_init = 0 /\
  (exists e, out.1 = Raise e) /\
  (quiet H ->
   model (obj w) <> None ->
   (local_rank (obj w) = -1 -> device_count (obj w) <> None) ->
   (fp16 (obj w) = true -> scaler (obj w) <> None) ->
   out.1 = Raise ZeroDivisionError /\
   exists ext l, log out.2 = log w ++ ext /\
     Backward (LossDiv l 0) (fp16 (obj w)) ∈ ext /\
     Forall (fun e => is_step e = false) ext) /\
  ((forall v m, accumulation_steps (callbacks_effect H v m) = accumulation_steps m) ->
   forall td args vd ts vs cbs tc vc w',
     args_accumulation_steps args = 0 ->
     exists ext, log (fit H td args vd ts vs cbs tc vc w').2 = log w' ++ ext /\
                 Forall (fun e => is_step e = false) ext).
Proof.
  intros Hk out. split; [reflexivity|]. split; [|split].
  - by apply train_one_step_zero_fails.
  - intros Hq Hm Hdc Hsc. by apply train_one_step_zero_division.
  - intros Hcb td args vd ts vs cbs tc vc w' Hargs.
    exact (proj1 (zero_fit H Hcb td args vd ts vs cbs tc vc Hargs w' Logic.I)).
Qed.

Lemma zero_accumulation_fails_every_batch_witness :
  let h := Demo.host false None in
  let w := mkWorld (set_device_count (Some 1) (obj Demo.fresh)) metrics_init [] in
  let out := train_one_step h 0%nat w in
  accumulation_steps (obj w) = 0 /\
  quiet h /\
  model (obj w) <> None /\
  (local_rank (obj w) = -1 -> device_count (obj w) <> None) /\
  (fp16 (obj w) = true -> scaler (obj w) <> None) /\
  out.1 = Raise ZeroDivisionError.
Proof.
  intros h w out.
  assert (Hk : accumulation_steps (obj w) = 0) by reflexivity.
  assert (Hq : quiet h) by (intros l e; reflexivity).
  assert (Hm : model (obj w) <> None) by discriminate.
  assert (Hdc : local_rank (obj w) = -1 -> device_count (obj w) <> None)
    by (intros _; discriminate).
  assert (Hsc : fp16 (obj w) = true -> scaler (obj w) <> None) by discriminate.
  destruct (zero_accumulation_fails_every_batch h 0%nat w Hk) as (_ & _ & Hz & _).
  destruct (Hz Hq Hm Hdc Hsc) as [Hr _].
  repeat (split; [assumption|]). exact Hr.
Defined.

(** * Gradient accumulation *)

(** What holds of one step: the loss is divided by [accumulation_steps]
    before the backward pass, and the optimizer is stepped only on a batch
    whose index [i] has [(i + 1) mod k = 0], and then exactly once if the
    step returns. *)
Lemma train_one_step_steps_on_multiples H data w :
  accumulation_steps (obj w) <> 0 ->
  let k := accumulation_steps (obj w) in
  let i := batch_index (obj w) in
  let out := train_one_step H data w in
  exists ext, log out.2 = log w ++ ext /\
    Forall (divided_by k) ext /\
    (filter (fun e => is_step e = true) ext <> [] -> (i + 1) mod k = 0) /\
    (forall r, out.1 = Ok r ->
       length (filter (fun e => is_step e = true) ext) =
         if (i + 1) mod k =? 0 then 1%nat else 0%nat).
Proof.
  intros Hk k i out. subst k i out. apply Z.eqb_neq in Hk.
  change (wp (train_one_step H data) (fun r w' =>
    exists ext, log w' = log w ++ ext /\
      Forall (divided_by (accumulation_steps (obj w))) ext /\
      (filter (fun e => is_step e = true) ext <> [] ->
       (batch_index (obj w) + 1) mod accumulation_steps (obj w) = 0) /\
      (forall a, r = Ok a ->
         length (filter (fun e => is_step e = true) ext) =
           if (batch_index (obj w) + 1) mod accumulation_steps (obj w) =? 0
           then 1%nat else 0%nat)) w).
  wp_run fail.
  all: ext_here.
  all: split; [repeat constructor; simpl; eauto|].
  all: repeat match goal with
              | E : (_ =? _) = true |- _ => rewrite E
              | E : (_ =? _) = false |- _ => rewrite E
              end.
  all: split; [ first [ intros _; by apply Z.eqb_eq | intros Hf; by destruct Hf ]
              | first [ discriminate | intros; reflexivity ] ].
Qed.

(** C4 fails on the code for [accumulation_steps = 1].  The gradients are
    cleared before batch 0, and after a step only when [batch_index > 0]: the
    step at batch 1 is taken on the summed gradients of batches 0 and 1,
    where gradients should be summed over one batch.  For
    [accumulation_steps = 2] each step has the gradients of two consecutive
    batches. *)
Theorem single_step_accumulation_leaks :
  let h := Demo.host false None in
  let one := train_one_epoch h (Some (Demo.loader 3)) (Demo.ready 1) in
  let two := train_one_epoch h (Some (Demo.loader 4)) (Demo.ready 2) in
  (exists a, one.1 = Ok a) /\
  step_gradients (log one.2) =
    [ [LossDiv (LossOf 0%nat) 1];
      [LossDiv (LossOf 0%nat) 1; LossDiv (LossOf 1%nat) 1];
      [LossDiv (LossOf 2%nat) 1] ] /\
  step_gradients (log two.2) =
    [ [LossDiv (LossOf 0%nat) 2; LossDiv (LossOf 1%nat) 2];
      [LossDiv (LossOf 2%nat) 2; LossDiv (LossOf 3%nat) 2] ].
Proof.
  intros h one two. split; [|split].
  - eexists. vm_compute. reflexivity.
  - vm_compute. reflexivity.
  - vm_compute. reflexivity.
Qed.

(** * The epoch loop *)

Lemma counted_closed : closed (counted 0 0).
Proof.
  split; [done|]. split.
  - intros l e1 e2 r (_ & Ht1 & He1) (Hr & Ht2 & He2).
    unfold counted, count_train, count_eval in *.
    rewrite !filter_app, !length_app. split; [done|]. lia.
  - intros l e1 x [Hr _]. discriminate Hr.
Qed.

Lemma counted_seq a b c d : seq_ok (counted a b) (counted c d) (counted (a + c) (b + d)).
Proof.
  split.
  - intros l e1 e2 r (_ & Ht1 & He1) (Hr & Ht2 & He2).
    unfold counted, count_train, count_eval in *.
    rewrite !filter_app, !length_app. split; [done|]. lia.
  - intros l e1 x [Hr _]. discriminate Hr.
Qed.

Lemma ready_log H su e : log_indep (Ready H su e).
Proof. intros o ms l l' Hw. exact Hw. Qed.

Lemma ready_in_log H su e v : log_indep (Ready_in H su e v).
Proof. intros o ms l l' Hw. exact Hw. Qed.

Lemma ready_set_log H su e : log_indep (Ready_set H su e).
Proof. intros o ms l l' Hw. exact Hw. Qed.

Lemma always_seq_counted {A B} a b (I : World -> Prop) (m : M A) (k : A -> M B)
    (R1 : A -> Prop) Q :
  inv I (counted 0 0) m R1 ->
  (forall x, R1 x -> always I (counted a b) (k x) Q) ->
  always I (counted a b) (bind m k) Q.
Proof.
  intros Hm Hk.
  eapply (always_bind _ _ _ _ _ _ _ _ (counted_seq 0 0 a b)); [exact Hm|].
  intros x w [Hw Hx]. by apply Hk.
Qed.

Lemma always_then_counted {A B} a b c d n m (I I' : World -> Prop) (f : M A) (k : A -> M B)
    (R1 : A -> Prop) Q :
  (a + c = n)%nat -> (b + d = m)%nat ->
  always I (counted a b) f (fun x w => I' w /\ R1 x) ->
  (forall x, R1 x -> always I' (counted c d) (k x) Q) ->
  always I (counted n m) (bind f k) Q.
Proof.
  intros <- <- Hm Hk.
  eapply (always_bind _ _ _ _ _ _ _ _ (counted_seq a b c d)); [exact Hm|].
  intros x w [Hw Hx]. by apply Hk.
Qed.

Lemma always_call_counted H (I : World -> Prop) e a b Q :
  quiet H ->
  count_train [e] = a -> count_eval [e] = b ->
  (forall w, I w -> Q tt (logged w e)) ->
  always I (counted a b) (call H e) Q.
Proof.
  intros Hq Ha Hb HQ w Hw. unfold call. rewrite Hq. simpl. split.
  - exists [e]. done.
  - intros [] _. by apply HQ.
Qed.

Lemma always_run {A} (I : World -> Prop) a b (m : M A) Q w :
  always I (counted a b) m Q -> I w ->
  exists x w' ext, m w = (Ok x, w') /\ log w' = log w ++ ext /\
    count_train ext = a /\ count_eval ext = b /\ Q x w'.
Proof.
  intros Hm Hw. destruct (Hm w Hw) as [(ext & Hlog & Hr & Ha & Hb) HQ].
  destruct (m w) as [[x|?] w']; simpl in *; [|discriminate].
  exists x, w', ext. repeat split; auto.
Qed.

Lemma count_train_app l1 l2 : count_train (l1 ++ l2) = (count_train l1 + count_train l2)%nat.
Proof. unfold count_train. by rewrite filter_app, length_app. Qed.

Lemma count_eval_app l1 l2 : count_eval (l1 ++ l2) = (count_eval l1 + count_eval l2)%nat.
Proof. unfold count_eval. by rewrite filter_app, length_app. Qed.

Ltac ready_unfold :=
  unfold counted, count_train, count_eval, Ready_in, Ready_set, Ready,
         has_metric_keys in *.

Ltac ready_facts :=
  repeat match goal with
         | Hx : _ /\ _ |- _ => destruct Hx
         | Hx : (_ =? _) = true |- _ => apply Z.eqb_eq in Hx
         | Hx : (_ =? _) = false |- _ => apply Z.eqb_neq in Hx
         | Hx : negb _ = true |- _ => apply negb_true_iff in Hx
         | Hx : negb _ = false |- _ => apply negb_false_iff in Hx
         end.

Ltac ready_chain :=
  repeat match goal with
         | Hi : (?a = ?b -> _) |- _ =>
             let Ha := fresh in
             assert (Ha : a = b) by congruence; specialize (Hi Ha); clear Ha
         | Hi : (?a <> ?b -> _) |- _ =>
             let Ha := fresh in
             assert (Ha : a <> b) by congruence; specialize (Hi Ha); clear Ha
         end.

Ltac ready_side Hq :=
  ready_unfold; obj_simpl; intros; rewrite ?Hq;
  try solve
    [ done
    | repeat split; reflexivity
    | ready_facts; obj_simpl_all; repeat split; first [ assumption | congruence | done ]
    | exfalso; ready_facts; obj_simpl_all; ready_chain; congruence ].

Section Epochs.

Variable H : Host.
Hypothesis Hq : quiet H.
Hypothesis Hcb : callbacks_set_state_only H.
Variables (su : Setup) (e : Z).

Ltac ready_in I HI := 
  try match goal with
      | Hw : I _ |- _ => apply HI in Hw
      end.

Lemma ok_model_fn I data :
  (forall w, I w -> Ready H su e w) -> log_indep I ->
  inv I (counted 0 0) (model_fn H data) (fun r => r.2 = ∅).
Proof.
  intros HI Hlog.
  inv_walk Hlog counted_closed
    ltac:(repeat match goal with Hw : I _ |- _ => apply HI in Hw end; ready_side Hq) fail.
Qed.

Lemma ok_train_one_step I data :
  (forall w, I w -> Ready H su e w) -> log_indep I ->
  inv I (counted 0 0) (train_one_step H data) (fun r => r.2 = ∅).
Proof.
  intros HI Hlog. unfold train_one_step.
  inv_walk Hlog counted_closed
    ltac:(repeat match goal with Hw : I _ |- _ => apply HI in Hw end; ready_side Hq)
    ltac:(by apply ok_model_fn).
Qed.

Lemma ok_validate_one_step I data :
  (forall w, I w -> Ready H su e w) -> log_indep I ->
  inv I (counted 0 0) (validate_one_step H data) (fun r => r.2 = ∅).
Proof.
  intros HI Hlog. unfold validate_one_step.
  inv_walk Hlog counted_closed
    ltac:(repeat match goal with Hw : I _ |- _ => apply HI in Hw end; ready_side Hq)
    ltac:(by apply ok_model_fn).
Qed.

(** Assigning a training state: the callbacks leave the invariant alone. *)
Lemma ok_set_train_state I v :
  log_indep I ->
  (forall w, I w -> I (mkWorld (set__train_state (Some v) (obj w)) (metrics w) (log w))) ->
  (forall w, I w -> I (mkWorld (callbacks_effect H v (obj w)) (metrics w) (log w))) ->
  inv I (counted 0 0) (set_train_state H v) (fun _ => True).
Proof.
  intros Hlog Hset Hcall. unfold set_train_state.
  inv_walk Hlog counted_closed
    ltac:(first [ by apply Hset | by apply Hcall | ready_side Hq ]) fail.
Qed.

Lemma callbacks_on_step v m : is_step_state v = true -> callbacks_effect H v m = m.
Proof. apply Hcb. Qed.

Lemma ok_step_state_in v ms :
  is_step_state v = true ->
  inv (Ready_in H su e ms) (counted 0 0) (set_train_state H v) (fun _ => True).
Proof.
  intros Hv. apply ok_set_train_state; [apply ready_in_log | |].
  - intros w Hw. exact Hw.
  - intros w Hw. rewrite callbacks_on_step by done. destruct w. exact Hw.
Qed.

Lemma ready_callbacks v w :
  Ready H su e w ->
  Ready H su e (mkWorld (callbacks_effect H v (obj w)) (metrics w) (log w)) /\
  (_model_state (obj w) <> None ->
   _model_state (callbacks_effect H v (obj w)) <> None).
Proof.
  intros Hw. destruct (proj2 Hcb v (obj w)) as [-> | [ms ->]].
  - split; [by destruct w | done].
  - split; [exact Hw | done].
Qed.

Lemma ok_epoch_state v :
  inv (Ready H su e) (counted 0 0) (set_train_state H v) (fun _ => True).
Proof.
  apply ok_set_train_state; [apply ready_log | |].
  - intros w Hw. exact Hw.
  - intros w Hw. by destruct (ready_callbacks v w Hw).
Qed.

Lemma ok_epoch_state_set v :
  inv (Ready_set H su e) (counted 0 0) (set_train_state H v) (fun _ => True).
Proof.
  apply ok_set_train_state; [apply ready_set_log | |].
  - intros w Hw. exact Hw.
  - intros w [Hw Hs]. destruct (ready_callbacks v w Hw) as [Hr Hk].
    split; [exact Hr | by apply Hk].
Qed.

Lemma update_meters_empty i n loc :
  locals_ok i loc ->
  update_meters i ∅ n loc = ret (mkLocals (losses loc) (Some ∅) (Some ∅)).
Proof.
  intros Hloc. unfold update_meters.
  assert ((if i =? 0 then Some ((fun _ => AverageMeter_new) <$> (∅ : gmap string Sample))
           else metrics_meter loc) = Some ∅) as ->.
  { destruct (i =? 0) eqn:E.
    - by rewrite fmap_empty.
    - apply Z.eqb_neq in E. destruct Hloc as [?|[-> _]]; done. }
  rewrite dom_empty_L, difference_diag_L, elements_empty.
  by rewrite merge_empty, fmap_empty.
Qed.

Lemma ok_update_meters I i n loc :
  log_indep I ->
  locals_ok i loc ->
  inv I (counted 0 0) (update_meters i ∅ n loc)
    (fun loc' => metrics_meter loc' = Some ∅ /\ monitor loc' = Some ∅).
Proof.
  intros Hlog Hloc. rewrite update_meters_empty by done.
  apply (inv_ret _ _ counted_closed). done.
Qed.

Lemma ok_train_batch ld i data loc :
  locals_ok i loc ->
  inv (Ready_in H su e MS_TRAIN) (counted 0 0) (train_batch H ld i data loc)
    (fun loc' => metrics_meter loc' = Some ∅ /\ monitor loc' = Some ∅).
Proof.
  intros Hloc. unfold train_batch.
  inv_walk (ready_in_log H su e MS_TRAIN) counted_closed ltac:(ready_side Hq)
    ltac:(first [ by apply ok_step_state_in
                | apply ok_train_one_step; [by intros ? [? ?] | apply ready_in_log]
                | cbn [snd] in *; subst; by apply ok_update_meters; [apply ready_in_log|] ]).
Qed.

Lemma ok_train_batches ld bs : forall i loc,
  locals_ok i loc ->
  inv (Ready_in H su e MS_TRAIN) (counted 0 0) (train_batches H ld i bs loc)
    (fun loc' => bs <> [] \/ monitor loc = Some ∅ -> monitor loc' = Some ∅).
Proof.
  induction bs as [|b bs IH]; intros i loc Hloc; simpl.
  - apply (inv_ret _ _ counted_closed). by intros [?|?].
  - eapply (inv_bind _ _ counted_closed); [by apply ok_train_batch|].
    intros loc1 [Hm Hmon]. eapply inv_weaken; [|apply IH; by right].
    intros loc' Hloc' _. apply Hloc'. by right.
Qed.

Lemma ok_update_metrics v ls mon :
  v <> MS_END ->
  inv (Ready_in H su e v) (counted 0 0) (update_metrics ls mon) (fun _ => True).
Proof.
  intros Hv w [Hw Hs].
  assert (Hk : has_metric_keys w) by apply Hw.
  pose proof (update_metrics_keys ls mon w Hk) as Hkeys.
  destruct (update_metrics_writes ls mon w v Hk Hs Hv) as (sub & _ & Hrun).
  rewrite Hrun in *. simpl in *. split.
  - exists []. by rewrite app_nil_r.
  - intros _ _. split; [|done]. split; [|exact Hs].
    unfold Ready in *. obj_simpl. repeat (split; [apply Hw|]). exact Hkeys.
Qed.

Lemma ok_close_and_record v loc :
  v <> MS_END ->
  monitor loc = Some ∅ ->
  inv (Ready_in H su e v) (counted 0 0) (close_and_record H loc) (fun _ => True).
Proof.
  intros Hv Hmon. unfold close_and_record. rewrite Hmon.
  inv_walk (ready_in_log H su e v) counted_closed ltac:(ready_side Hq)
    ltac:(by apply ok_update_metrics).
Qed.

Lemma ok_open_loader I ld :
  log_indep I ->
  inv I (counted 0 0) (open_loader H (Some ld)) (fun bs => bs = loader_batches H ld).
Proof.
  intros Hlog. unfold open_loader.
  inv_walk Hlog counted_closed ltac:(ready_side Hq) fail.
Qed.

Lemma ok_set_model_state v :
  always (Ready H su e) (counted 0 0) (set_model_state v)
    (fun _ w => Ready_in H su e v w).
Proof.
  intros w Hw. unfold set_model_state, bind, emit, assign. simpl. split.
  - exists [Assign_model_state v]. done.
  - intros _ _. split; [exact Hw | done].
Qed.

Ltac ready_walk known :=
  inv_walk (ready_log H su e) counted_closed ltac:(ready_side Hq) known.

Ltac count_step walk :=
  lazymatch goal with
  | |- always _ _ (bind (self _) _) _ =>
      apply (always_self_bind _ _); intros ? ?
  | |- always _ (counted _ _) (bind _ _) _ =>
      eapply always_seq_counted; [ walk | intros ? ? ]
  end.

Lemma ok_train_one_epoch :
  always (Ready H su e) (counted 1 0) (train_one_epoch H (Some (su_train su)))
    (fun _ w => Ready_in H su e MS_TRAIN w).
Proof.
  unfold train_one_epoch.
  do 4 count_step ltac:(idtac; ready_walk fail).
  (* self.model.train() *)
  eapply (always_then_counted 1 0 0 0 _ _ _ (Ready H su e) _ _ (fun _ => True)); [lia | lia | |].
  { apply always_call_counted; [exact Hq | done | done |].
    intros w' Hw'. split; [exact Hw' | done]. }
  intros _ _.
  do 2 count_step ltac:(idtac; ready_walk fail).
  (* self.model_state = TRAIN *)
  eapply (always_then_counted 0 0 0 0 _ _ _ (Ready_in H su e MS_TRAIN) _ _ (fun _ => True)); [lia | lia | |].
  { eapply always_conseq; [ | | | apply ok_set_model_state ]; auto. }
  intros _ _.
  assert (Hne : loader_batches H (su_train su) <> []) by apply H0.
  do 2 count_step ltac:(idtac; inv_walk (ready_in_log H su e MS_TRAIN) counted_closed
                          ltac:(ready_side Hq) fail).
  eapply always_seq_counted; [apply ok_open_loader, ready_in_log|].
  intros bs ->.
  eapply always_seq_counted; [apply ok_train_batches; by left|].
  intros loc Hloc.
  eapply always_of_inv; [|apply (ok_close_and_record MS_TRAIN); [done | apply Hloc; by left]].
  by intros ? ? ? _.
Qed.

Lemma ok_valid_batch ld i data loc :
  locals_ok i loc ->
  inv (Ready_in H su e MS_VALID) (counted 0 0) (valid_batch H ld i data loc)
    (fun loc' => metrics_meter loc' = Some ∅ /\ monitor loc' = Some ∅).
Proof.
  intros Hloc. unfold valid_batch.
  inv_walk (ready_in_log H su e MS_VALID) counted_closed ltac:(ready_side Hq)
    ltac:(first [ by apply ok_step_state_in
                | apply ok_validate_one_step; [by intros ? [? ?] | apply ready_in_log]
                | cbn [snd] in *; subst; by apply ok_update_meters; [apply ready_in_log|] ]).
Qed.

Lemma ok_valid_batches ld bs : forall i loc,
  locals_ok i loc ->
  inv (Ready_in H su e MS_VALID) (counted 0 0) (valid_batches H ld i bs loc)
    (fun loc' => bs <> [] \/ monitor loc = Some ∅ -> monitor loc' = Some ∅).
Proof.
  induction bs as [|b bs IH]; intros i loc Hloc; simpl.
  - apply (inv_ret _ _ counted_closed). by intros [?|?].
  - eapply (inv_bind _ _ counted_closed); [by apply ok_valid_batch|].
    intros loc1 [Hm Hmon]. eapply inv_weaken; [|apply IH; by right].
    intros loc' Hloc' _. apply Hloc'. by right.
Qed.

Lemma ok_validate_one_epoch ld :
  loader_batches H ld <> [] ->
  always (Ready H su e) (counted 0 1) (validate_one_epoch H (Some ld))
    (fun _ w => Ready_in H su e MS_VALID w).
Proof.
  intros Hne. unfold validate_one_epoch.
  do 2 count_step ltac:(idtac; ready_walk fail).
  (* self.model.eval() *)
  eapply (always_then_counted 0 1 0 0 _ _ _ (Ready H su e) _ _ (fun _ => True)); [lia | lia | |].
  { apply always_call_counted; [exact Hq | done | done |].
    intros w' Hw'. split; [exact Hw' | done]. }
  intros _ _.
  (* self.model_state = VALID *)
  eapply (always_then_counted 0 0 0 0 _ _ _ (Ready_in H su e MS_VALID) _ _ (fun _ => True)); [lia | lia | |].
  { eapply always_conseq; [ | | | apply ok_set_model_state ]; auto. }
  intros _ _.
  eapply always_seq_counted; [apply ok_open_loader, ready_in_log|].
  intros bs ->.
  eapply always_seq_counted; [apply ok_valid_batches; by left|].
  intros loc Hloc.
  eapply always_of_inv; [|apply (ok_close_and_record MS_VALID); [done | apply Hloc; by left]].
  by intros ? ? ? _.
Qed.

Lemma ok_end_of_epoch :
  always (Ready_set H su e) (counted 0 0) end_of_epoch (epoch_done H su e).
Proof.
  intros w [Hw Hs]. unfold end_of_epoch, bind, self, deref, ret, assign.
  destruct (_model_state (obj w)) as [v|] eqn:E; [|done].
  destruct v; simpl.
  all: split; [exists []; by rewrite app_nil_r|].
  all: intros b [= <-]; split; [|simpl; rewrite ?E; split; congruence].
  all: unfold Ready in *; obj_simpl; rewrite ?Z.add_0_r.
  all: repeat (split; [apply Hw|]); first [apply Hw | lia | idtac].
  all: destruct Hw as (_&_&_&_&_&_&_&_&_&_&_&_&_&_&Hc&Hk); split; [lia | exact Hk].
Qed.

Ltac set_walk known :=
  inv_walk (ready_set_log H su e) counted_closed ltac:(ready_side Hq)
    ltac:(idtac; first [ apply ok_epoch_state_set | known ]).

Lemma ready_set_in v w : Ready_in H su e v w -> Ready_set H su e w.
Proof. intros [Hw Hs]. split; [exact Hw | congruence]. Qed.

(** The validation part of an epoch (lines 426-429). *)
Lemma ok_validation :
  always (Ready_set H su e) (counted 0 (valid_count H su))
    (if truthy_loader H (su_valid su)
     then set_train_state H VALID_EPOCH_START;;
          vl <- self valid_loader;;
          validate_one_epoch H vl;;
          set_train_state H VALID_EPOCH_END
     else ret tt)
    (fun _ w => Ready_set H su e w /\ True).
Proof.
  unfold valid_count. destruct (truthy_loader H (su_valid su)) eqn:Ht.
  - destruct (su_valid su) as [ld|] eqn:Hv; [|done].
    assert (Hne : loader_batches H ld <> []).
    { simpl in Ht. apply negb_true_iff, bool_decide_eq_false in Ht. exact Ht. }
    cbn iota.
    count_step ltac:(idtac; set_walk fail).
    apply (always_self_bind _ _). intros w [Hw Hs].
    assert (valid_loader (obj w) = Some ld) as -> by (rewrite <- Hv; apply Hw).
    eapply (always_then_counted 0 1 0 0 _ _ _ (Ready_set H su e) _ _ (fun _ => True)); [lia | lia | |].
    { eapply always_conseq; [ | | | apply (ok_validate_one_epoch ld Hne) ].
      - by intros ? [? ?].
      - auto.
      - intros a w' Hw'. split; [exact (ready_set_in _ _ Hw') | done]. }
    intros _ _. eapply always_of_inv; [|apply ok_epoch_state_set]. by intros.
  - eapply always_of_inv; [|apply (inv_ret _ _ counted_closed tt (fun _ => True) Logic.I)].
    by intros.
Qed.

Lemma ok_fit_epoch :
  always (Ready H su e) (counted 1 (valid_count H su)) (fit_epoch H) (epoch_done H su e).
Proof.
  unfold fit_epoch.
  do 2 count_step ltac:(idtac; ready_walk ltac:(apply ok_epoch_state)).
  apply (always_self_bind _ _). intros w Hw.
  assert (train_loader (obj w) = Some (su_train su)) as -> by apply Hw.
  eapply (always_then_counted 1 0 0 (valid_count H su) _ _ _ (Ready_set H su e) _ _ (fun _ => True)); [lia | lia | |].
  { eapply always_conseq; [ | | | apply ok_train_one_epoch ]; auto.
    intros a w' Hw'. split; [exact (ready_set_in _ _ Hw') | done]. }
  intros _ _.
  count_step ltac:(idtac; set_walk fail).
  apply (always_self_bind _ _). intros w1 [Hw1 Hs1].
  assert (valid_loader (obj w1) = su_valid su) as -> by apply Hw1.
  eapply (always_then_counted 0 (valid_count H su) 0 0 _ _ _ (Ready_set H su e) _ _ (fun _ => True)); [lia | lia | |].
  { apply ok_validation. }
  intros _ _.
  do 3 count_step ltac:(idtac; set_walk fail).
  apply ok_end_of_epoch.
Qed.
End Epochs.

(** The loop: [j] epochs are run; either all [n] of them, or the loop was left
    at the end of epoch [j] with the state "end" and without counting it. *)
Lemma fit_epochs_run H su n :
  quiet H -> callbacks_set_state_only H ->
  forall e w, Ready H su e w ->
  exists w' ext j,
    fit_epochs H n w = (Ok tt, w') /\
    log w' = log w ++ ext /\
    count_train ext = j /\
    count_eval ext = (j * valid_count H su)%nat /\
    ((n = 0%nat /\ j = 0%nat /\ w' = w) \/
     (n <> 0%nat /\ j = n /\ _model_state (obj w') <> Some MS_END /\
      Ready H su (e + Z.of_nat n) w') \/
     (n <> 0%nat /\ (1 <= j <= n)%nat /\ _model_state (obj w') = Some MS_END /\
      Ready H su (e + Z.of_nat j - 1) w')).
Proof.
  intros Hq Hcb. induction n as [|n IH]; intros e w Hw.
  - exists w, [], 0%nat. simpl. rewrite app_nil_r. repeat split; auto.
  - destruct (always_run _ _ _ _ _ w (ok_fit_epoch H Hq Hcb su e) Hw)
      as (b & w1 & ext1 & Hrun & Hlog1 & Ht1 & He1 & Hready & Hend).
    simpl. unfold bind at 1. rewrite Hrun. destruct b.
    + (* the loop goes on *)
      assert (Hnot : _model_state (obj w1) <> Some MS_END).
      { intros Hs. apply Hend in Hs. discriminate Hs. }
      destruct (IH (e + 1) w1 Hready) as (w' & ext2 & j & Hrest & Hlog2 & Ht2 & He2 & Hcase).
      exists w', (ext1 ++ ext2), (S j). rewrite Hrest.
      split; [done|]. split; [by rewrite Hlog2, Hlog1, app_assoc|].
      split; [rewrite count_train_app; lia|].
      split; [rewrite count_eval_app; lia|].
      right. destruct Hcase as [(-> & -> & ->) | [(Hn & -> & Hs & Hr) | (Hn & Hj & Hs & Hr)]].
      * left. split; [done|]. split; [done|]. split; [done|].
        replace (e + Z.of_nat 1) with (e + 1) by lia. exact Hready.
      * left. split; [done|]. split; [done|]. split; [done|].
        replace (e + Z.of_nat (S n)) with (e + 1 + Z.of_nat n) by lia. exact Hr.
      * right. split; [done|]. split; [lia|]. split; [done|].
        replace (e + Z.of_nat (S j) - 1) with (e + 1 + Z.of_nat j - 1) by lia. exact Hr.
    + (* the state was "end" *)
      exists w1, ext1, 1%nat. unfold ret.
      split; [done|]. split; [done|]. split; [done|]. split; [lia|].
      right. right. split; [done|]. split; [lia|]. split; [by apply Hend|].
      replace (e + Z.of_nat 1 - 1) with (e + 0) by lia. exact Hready.
Qed.

(** * Getting ready: [fit] up to the epoch loop *)

Lemma prep_log pl n : log_indep (Prep pl n).
Proof. intros o ms l l' Hw. exact Hw. Qed.

Ltac prep_guards :=
  repeat match goal with
         | Hg : (_ < _)%nat -> _ |- _ =>
             first [ specialize (Hg ltac:(lia)) | clear Hg ]
         | Hg : (_ <= _)%nat -> _ |- _ =>
             first [ specialize (Hg ltac:(lia)) | clear Hg ]
         | Hg : (_ <= _ < _)%nat -> _ |- _ =>
             first [ specialize (Hg ltac:(lia)) | clear Hg ]
         end.

Ltac prep_side Hq :=
  unfold counted, count_train, count_eval, Prep, has_metric_keys in *;
  obj_simpl; intros; rewrite ?Hq;
  try solve
    [ done
    | repeat split; reflexivity
    | ready_facts; prep_guards; obj_simpl_all;
      repeat match goal with
             | |- context [_ <$> ?o] =>
                 destruct o eqn:?; cbn [fmap option_fmap option_map] in *
             end;
      repeat split; intros; try lia; prep_guards;
      first [ assumption | congruence | done | (ready_chain; congruence) ]
    | exfalso; ready_facts; prep_guards; obj_simpl_all; ready_chain; congruence ].

Section Prelude.

Variable H : Host.
Hypothesis Hq : quiet H.
Hypothesis Hcb : callbacks_set_state_only H.
Variable pl : Plan.
Variables (args : Args) (td vd : option Dataset) (vs : option Sampler)
          (cbs : option (list Callback)) (tc vc : option Collate).

Hypothesis Hsteps : pl_steps pl = args_accumulation_steps args.
Hypothesis Hamp : su_fp16 (pl_setup pl) = args_fp16 args.
Hypothesis Hjobs :
  n_jobs args = -1 \/
  (pl_train0 pl <> None /\ (pl_valid0 pl <> None \/ vd = None)).
Hypothesis Htrain :
  su_train (pl_setup pl) =
    match pl_train0 pl with
    | Some l => l
    | None => DataLoader td (train_batch_size args) (cpu_count H) (pl_sampler pl)
                (fit_shuffle args (pl_sampler pl)) tc
    end.
Hypothesis Hvalid :
  su_valid (pl_setup pl) =
    match pl_valid0 pl, vd with
    | Some l, _ => Some l
    | None, Some _ => Some (DataLoader vd (valid_batch_size args) (cpu_count H) vs
                              (fit_shuffle args (pl_sampler pl)) vc)
    | None, None => None
    end.
Hypothesis Hopt : pl_optimizer0 pl <> None \/ forall l, fetch_optimizer H l <> None.

Ltac init_side := unfold fit_shuffle in *; prep_side Hq.

Ltac init_walk n :=
  inv_walk (prep_log pl n) counted_closed ltac:(init_side) ltac:(idtac; fail).

Ltac init_step n :=
  eapply (always_seq _ _ counted_closed); [ init_walk n | intros ? ? ].

Ltac init_switch n :=
  apply (always_switch _ _ (Prep pl n)); [init_side|].

Ltac init_join n m :=
  eapply (always_then_counted 0 0 0 0 0 0 (Prep pl n) (Prep pl m) _ _ (fun _ => True));
  [ lia | lia | | intros ? _ ].

Lemma prep_callbacks n v w :
  Prep pl n w -> Prep pl n (mkWorld (callbacks_effect H v (obj w)) (metrics w) (log w)).
Proof.
  intros Hw. destruct (proj2 Hcb v (obj w)) as [-> | [ms ->]].
  - by destruct w.
  - exact Hw.
Qed.

Lemma prep_set_train_state n v :
  inv (Prep pl n) (counted 0 0) (set_train_state H v) (fun _ => True).
Proof.
  apply ok_set_train_state; [exact Hq | apply prep_log | |].
  - intros w Hw. exact Hw.
  - intros w Hw. by apply prep_callbacks.
Qed.

Lemma ok_init_tez_from l0 :
  (n_jobs args = -1 -> l0 = Some (cpu_count H)) ->
  always (Prep pl 2) (counted 0 0)
    (assign (set_accumulation_steps (args_accumulation_steps args));;
     assign (set_clip_grad_norm (args_clip_grad_norm args));;
     call H CudaDeviceCount;;
     dc <- answer H cuda_device_count;;
     assign (set_device_count (Some dc));;
     lr <- self local_rank;;
     (if lr =? -1 then
        if 1 <? dc then
          net <- self model;;
          call H WrapDataParallel;;
          assign (set_model (DataParallel <$> net))
        else ret tt
      else
        call H InitProcessGroup;;
        net <- self model;;
        call H (WrapDistributedDataParallel lr);;
        assign (set_model ((fun n => DistributedDataParallel n lr) <$> net));;
        sm <- self train_sampler;;
        match sm with
        | None =>
            call H (NewDistributedSampler td (train_shuffle args));;
            assign (set_train_sampler
                      (Some (DistributedSampler td (train_shuffle args))))
        | Some _ => ret tt
        end);;
     tl <- self train_loader;;
     match tl with
     | None =>
         workers <- read_n_jobs l0;;
         let l := DataLoader td (train_batch_size args) workers
                    (pl_sampler pl) (fit_shuffle args (pl_sampler pl)) tc in
         call H (NewDataLoader l);;
         assign (set_train_loader (Some l))
     | Some _ => ret tt
     end;;
     vl <- self valid_loader;;
     match vl, vd with
     | None, Some _ =>
         workers <- read_n_jobs l0;;
         let l := DataLoader vd (valid_batch_size args) workers
                    vs (fit_shuffle args (pl_sampler pl)) vc in
         call H (NewDataLoader l);;
         assign (set_valid_loader (Some l))
     | _, _ => ret tt
     end;;
     o <- self optimizer;;
     match o with
     | None => call H FetchOptimizer;;
               r <- answer H fetch_optimizer;; assign (set_optimizer r)
     | Some _ => ret tt
     end;;
     sch <- self scheduler;;
     match sch with
     | None => call H FetchScheduler;;
               r <- answer H fetch_scheduler;; assign (set_scheduler r)
     | Some _ => ret tt
     end;;
     assign (set_fp16 (args_fp16 args));;
     fp <- self fp16;;
     (if fp then call H NewGradScaler;; assign (set_scaler (Some GradScaler)) else ret tt);;
     call H (NewCallbackRunner (match cbs with Some c => c | None => [] end));;
     assign (set__callback_runner
               (Some (mkCallbackRunner (match cbs with Some c => c | None => [] end))));;
     set_train_state H TRAIN_START)
    (fun _ w => Prep pl 10 w).
Proof.
  intros Hl0.
  init_switch 3%nat.
  init_step 3%nat.
  init_step 3%nat.
  eapply always_answer_bind; intros l.
  init_switch 4%nat.
  eapply always_self_bind; intros w4 Hw4.
  init_join 4%nat 5%nat.
  { init_walk 4%nat. }
  eapply always_self_bind; intros w5 Hw5.
  init_join 5%nat 6%nat.
  { assert (Et : train_loader (obj w5) = pl_train0 pl) by (apply Hw5; lia).
    rewrite Et. destruct (pl_train0 pl) eqn:Ep.
    - init_walk 5%nat.
    - destruct Hjobs as [Hj | [? _]]; [|done].
      rewrite (Hl0 Hj). init_step 5%nat. cbn zeta. init_walk 5%nat. }
  eapply always_self_bind; intros w6 Hw6.
  init_join 6%nat 7%nat.
  { assert (Et : valid_loader (obj w6) = pl_valid0 pl) by (apply Hw6; lia).
    rewrite Et. destruct (pl_valid0 pl) eqn:Ep.
    - init_walk 6%nat.
    - destruct vd eqn:Ed.
      + destruct Hjobs as [Hj | [_ [?|?]]]; [|done|done].
        rewrite (Hl0 Hj). init_step 6%nat. cbn zeta. init_walk 6%nat.
      + init_walk 6%nat. }
  eapply always_self_bind; intros w7 Hw7.
  init_join 7%nat 8%nat.
  { assert (Et : optimizer (obj w7) = pl_optimizer0 pl) by (apply Hw7; lia).
    rewrite Et. destruct (pl_optimizer0 pl) eqn:Ep.
    - init_walk 7%nat.
    - destruct Hopt as [?|Ho]; [done|].
      init_step 7%nat.
      eapply always_answer_bind; intros l'. pose proof (Ho l').
      init_walk 7%nat. }
  eapply always_self_bind; intros w8 Hw8.
  init_step 8%nat.
  init_switch 9%nat.
  eapply always_self_bind; intros w9 Hw9.
  init_join 9%nat 10%nat.
  { init_walk 9%nat. }
  init_step 10%nat.
  init_step 10%nat.
  eapply always_of_inv; [|apply prep_set_train_state].
  intros ? w Hw _. exact Hw.
Qed.

Lemma ok_init_tez :
  always (Prep pl 1) (counted 0 0)
    (_init_tez H args td vd (pl_sampler pl) vs cbs tc vc)
    (fun _ w => Prep pl 10 w).
Proof.
  unfold _init_tez.
  init_switch 2%nat.
  init_step 2%nat.
  destruct (n_jobs args =? -1) eqn:Ej.
  - init_step 2%nat. subst. apply ok_init_tez_from. done.
  - init_step 2%nat. subst. apply ok_init_tez_from.
    intros Hj. rewrite Hj in Ej. done.
Qed.

End Prelude.

Section Device.

Variable H : Host.
Hypothesis Hq : quiet H.
Variable pl : Plan.
Variable args : Args.
Hypothesis Hrank : py_int (default "-1" (LOCAL_RANK H)) = Some (su_rank (pl_setup pl)).
Hypothesis Htpu :
  su_tpu (pl_setup pl) = (String.eqb (args_device args) "tpu" || pl_tpu0 pl)%bool.
Hypothesis Hxla : String.eqb (args_device args) "tpu" = true -> XLA_AVAILABLE H = true.

Local Abbreviation Ranked :=
  (fun w : World => Prep pl 0 w /\ local_rank (obj w) = su_rank (pl_setup pl)).

Lemma ranked_log : log_indep Ranked.
Proof. intros o ms l l' Hw. exact Hw. Qed.

Lemma ok_select_device :
  always (Prep pl 0) (counted 0 0) (select_device H args)
    (fun a w => Prep pl 1 w /\ a = chosen args).
Proof.
  unfold select_device, chosen. rewrite Hrank.
  eapply (always_seq _ _ counted_closed);
    [inv_walk (prep_log pl 0) counted_closed ltac:(prep_side Hq) fail|].
  intros r ->.
  apply (always_switch _ _ Ranked); [prep_side Hq|].
  destruct (String.eqb (args_device args) "tpu") eqn:Etpu.
  - rewrite (Hxla eq_refl). cbn [negb orb] in *.
    apply (always_switch _ _ (Prep pl 1)); [prep_side Hq|].
    inv_walk (prep_log pl 1) counted_closed ltac:(prep_side Hq) fail.
  - cbn [orb] in Htpu.
    inv_walk ranked_log counted_closed ltac:(prep_side Hq) fail.
Qed.

End Device.

(** * Early stopping *)

Lemma unconstrained_closed : closed unconstrained.
Proof. split; [done|]. split; done. Qed.

Lemma live_log : log_indep Live.
Proof. intros o ms l l' Hw. exact Hw. Qed.

Section NoEarlyStop.

Variable H : Host.
Hypothesis Hlive : never_ends H.

Ltac live_side :=
  unfold Live, anywhere, unconstrained in *; simpl in *; intros;
  try solve [ done | congruence
            | (let E := fresh in intros E; apply Hlive in E; done) ].

Ltac live_walk known := inv_walk live_log unconstrained_closed live_side known.

Lemma live_train_batches ld bs : forall i loc,
  inv Live unconstrained (train_batches H ld i bs loc) (fun _ => True).
Proof.
  induction bs as [|b bs IH]; intros i loc; simpl.
  - live_walk fail.
  - live_walk ltac:(apply IH).
Qed.

Lemma live_valid_batches ld bs : forall i loc,
  inv Live unconstrained (valid_batches H ld i bs loc) (fun _ => True).
Proof.
  induction bs as [|b bs IH]; intros i loc; simpl.
  - live_walk fail.
  - live_walk ltac:(apply IH).
Qed.

Lemma live_set_model_state v :
  v <> MS_END ->
  always anywhere unconstrained (set_model_state v) (fun _ w => Live w).
Proof.
  intros Hv w _. unfold set_model_state, bind, emit, assign. simpl. split.
  - by exists [Assign_model_state v].
  - intros _ _. unfold Live. simpl. congruence.
Qed.

Lemma live_train_one_epoch ld :
  always anywhere unconstrained (train_one_epoch H ld) (fun _ w => Live w).
Proof.
  unfold train_one_epoch.
  inv_walk anywhere_log unconstrained_closed live_side
    ltac:(idtac; lazymatch goal with
          | |- always _ _ (bind (set_model_state MS_TRAIN) _) _ =>
              eapply always_bind;
              [ apply unconstrained_closed | by apply live_set_model_state | ];
              intros ?; live_walk ltac:(apply live_train_batches)
          end).
Qed.

Lemma live_fit_epoch :
  always anywhere unconstrained (fit_epoch H) (fun _ w => Live w).
Proof.
  unfold fit_epoch.
  inv_walk anywhere_log unconstrained_closed live_side
    ltac:(idtac; lazymatch goal with
          | |- always _ _ (bind (train_one_epoch _ _) _) _ =>
              eapply always_bind;
              [ apply unconstrained_closed | by apply live_train_one_epoch | ];
              intros ?; live_walk ltac:(apply live_valid_batches)
          end).
Qed.

Lemma live_fit_epochs n :
  always anywhere unconstrained (fit_epochs H (S n)) (fun _ w => Live w).
Proof.
  induction n as [|n IH].
  - simpl. eapply always_bind; [apply unconstrained_closed | apply live_fit_epoch |].
    intros b. live_walk fail.
  - change (fit_epochs H (S (S n)))
      with (continue <- fit_epoch H;; if continue then fit_epochs H (S n) else ret tt).
    eapply always_bind; [apply unconstrained_closed | apply live_fit_epoch |].
    intros [|].
    + eapply always_conseq; [ | | | exact IH]; done.
    + live_walk fail.
Qed.

End NoEarlyStop.

Lemma ended_log : log_indep Ended.
Proof. intros o ms l l' Hw. exact Hw. Qed.

Lemma keeps_runner H :
  callbacks_set_state_only H ->
  forall v m, _callback_runner m <> None -> _callback_runner (callbacks_effect H v m) <> None.
Proof.
  intros Hcb v m Hm. by destruct (proj2 Hcb v m) as [-> | [ms ->]].
Qed.

Section EarlyStop.

Variable H : Host.
Hypothesis Hcb : callbacks_set_state_only H.
Hypothesis Hstop : stops_at_epoch_end H.

Lemma stop_set_train_state :
  always has_runner paired (set_train_state H EPOCH_END) (fun _ w => Ended w).
Proof.
  intros w Hw. split.
  - exists [Assign_train_state EPOCH_END; RunCallbacks EPOCH_END].
    split; [by apply set_train_state_log | done].
  - intros a Ha. unfold Ended.
    rewrite (set_train_state_obj H EPOCH_END w a Ha).
    unfold has_runner in Hw.
    destruct (_callback_runner (obj w)) eqn:Hr; [|done].
    rewrite Hstop. simpl. by rewrite Hr.
Qed.

Ltac stop_side :=
  unfold paired, has_runner, Ended, anywhere in *; simpl in *; intros;
  try solve [ done | congruence | auto ].

Lemma stop_end_of_epoch :
  always Ended paired end_of_epoch (fun _ w => _model_state (obj w) = Some MS_END).
Proof.
  intros w [Hs Hr]. unfold end_of_epoch, bind, self, deref, ret. rewrite Hs. simpl.
  split; [|done]. exists []. by rewrite app_nil_r.
Qed.

Lemma stop_fit_epoch :
  always has_runner paired (fit_epoch H)
    (fun _ w => _model_state (obj w) = Some MS_END).
Proof.
  unfold fit_epoch.
  inv_walk has_runner_log paired_closed stop_side
    ltac:(idtac; lazymatch goal with
          | |- always _ _ (bind (set_train_state _ EPOCH_END) _) _ =>
              eapply always_bind;
              [ apply paired_closed | apply stop_set_train_state
              | intros ?; apply stop_end_of_epoch ]
          | |- _ =>
              first [ apply (paired_set_train_state H (keeps_runner H Hcb))
                    | apply (paired_train_batches H (keeps_runner H Hcb))
                    | apply (paired_valid_batches H (keeps_runner H Hcb)) ]
          end).
Qed.

End EarlyStop.

(** ** The whole of [fit] *)

Lemma run_bind {A B} (m : M A) (k : A -> M B) w a w1 :
  m w = (Ok a, w1) -> bind m k w = k a w1.
Proof. intros E. unfold bind. by rewrite E. Qed.

Lemma run_call H e w : quiet H -> call H e w = (Ok tt, logged w e).
Proof. intros Hq. unfold call. by rewrite Hq. Qed.

Lemma chosen_fields args :
  epochs (chosen args) = epochs args /\
  train_batch_size (chosen args) = train_batch_size args /\
  valid_batch_size (chosen args) = valid_batch_size args /\
  n_jobs (chosen args) = n_jobs args /\
  args_accumulation_steps (chosen args) = args_accumulation_steps args /\
  train_shuffle (chosen args) = train_shuffle args.
Proof. unfold chosen. by destruct (String.eqb _ _). Qed.

Lemma prep_ready H pl w :
  loader_batches H (su_train (pl_setup pl)) <> [] ->
  pl_steps pl <> 0 ->
  (su_tpu (pl_setup pl) = true -> XLA_AVAILABLE H = true) ->
  Prep pl 10 w -> Ready H (pl_setup pl) (pl_epoch pl) w.
Proof.
  intros Hb Hk Hx Hw. unfold Prep, Ready in *. ready_facts. prep_guards.
  repeat split; first [assumption | congruence].
Qed.

Lemma plan_start H args td vd ts vs tc vc rank w :
  fit_can_start H args td vd ts tc rank w ->
  Prep (plan_of H args td vd ts vs tc vc rank w) 0 w.
Proof.
  intros (_ & _ & Hm & _ & _ & _ & _ & Hs & Hk).
  unfold Prep. cbn [plan_of pl_epoch pl_train0 pl_valid0 pl_optimizer0 pl_tpu0].
  repeat split; first [assumption | reflexivity | lia].
Qed.

(** Up to the loop: the device, [self.model.to], [_init_tez]. *)
Lemma fit_prepares H args td vd ts vs cbs tc vc rank w :
  quiet H -> callbacks_set_state_only H ->
  fit_can_start H args td vd ts tc rank w ->
  let su := pl_setup (plan_of H args td vd ts vs tc vc rank w) in
  exists w3 ext,
    fit H td args vd ts vs cbs tc vc w =
      (fit_epochs H (Z.to_nat (epochs args));;
       set_train_state H TRAIN_END;; ret (chosen args)) w3 /\
    log w3 = log w ++ ext /\
    count_train ext = 0%nat /\ count_eval ext = 0%nat /\
    Ready H su (current_epoch (obj w)) w3 /\ has_runner w3.
Proof.
  intros Hq Hcb Hstart su.
  pose proof (plan_start H args td vd ts vs tc vc rank w Hstart) as Hp0.
  destruct Hstart as (Hrank & Hxla & Hm & Hjobs & Hne & Hk & Hopt & Hs & Hkeys).
  pose proof (chosen_fields args) as (Ce & Ctb & Cvb & Cj & Ck & Csh).
  set (pl := plan_of H args td vd ts vs tc vc rank w) in *.
  (* the device *)
  destruct (always_run _ _ _ _ _ w
              (ok_select_device H Hq pl args Hrank eq_refl (fun E => Hxla (or_introl E))) Hp0)
    as (a & w1 & ext1 & Hrun1 & Hlog1 & Ht1 & He1 & Hp1 & ->).
  unfold fit. rewrite (run_bind _ _ _ _ _ Hrun1).
  (* self.model.to(self.device) *)
  destruct (model (obj w1)) as [net|] eqn:Em; [|by destruct Hp1 as [? _]].
  erewrite run_bind by reflexivity. rewrite Em.
  erewrite run_bind by reflexivity.
  erewrite run_bind by reflexivity.
  erewrite run_bind by (by apply run_call).
  (* _init_tez *)
  assert (Hp2 : Prep pl 1 (logged w1 (ModelTo (device (obj w1))))) by exact Hp1.
  assert (Hinit : always (Prep pl 1) (counted 0 0)
            (_init_tez H (chosen args) td vd ts vs cbs tc vc) (fun _ w => Prep pl 10 w)).
  { apply (ok_init_tez H Hq Hcb pl (chosen args) td vd vs cbs tc vc).
    - by rewrite Ck.
    - reflexivity.
    - by rewrite Cj.
    - unfold fit_shuffle. by rewrite Ctb, Csh.
    - unfold fit_shuffle. by rewrite Cvb, Csh.
    - exact Hopt. }
  destruct (always_run _ _ _ _ _ _ Hinit Hp2)
    as ([] & w3 & ext3 & Hrun3 & Hlog3 & Ht3 & He3 & Hp3).
  rewrite (run_bind _ _ _ _ _ Hrun3). rewrite Ce.
  exists w3, (ext1 ++ [ModelTo (device (obj w1))] ++ ext3).
  split; [reflexivity|].
  split.
  { rewrite Hlog3. cbn [logged log]. rewrite Hlog1. by rewrite <- !app_assoc. }
  rewrite !count_train_app, !count_eval_app, Ht1, He1, Ht3, He3.
  split; [done|]. split; [done|]. split.
  - apply (prep_ready H pl w3); [exact Hne | exact Hk | | exact Hp3].
    cbn. intros Hx. apply Hxla. apply orb_true_iff in Hx.
    destruct Hx as [Hx|Hx]; [by left | by right].
  - destruct (paired_init_tez H (keeps_runner H Hcb) (chosen args) td vd ts vs cbs tc vc
                (logged w1 (ModelTo (device (obj w1)))) Logic.I) as [_ Hr].
    rewrite Hrun3 in Hr. by apply (Hr tt).
Qed.

(** After the loop: the last event. *)
Lemma fit_finishes H su e (a : Args) w :
  quiet H -> callbacks_set_state_only H ->
  Ready H su e w ->
  exists w' ext,
    (set_train_state H TRAIN_END;; ret a) w = (Ok a, w') /\
    log w' = log w ++ ext /\
    count_train ext = 0%nat /\ count_eval ext = 0%nat /\
    Ready H su e w'.
Proof.
  intros Hq Hcb Hw.
  destruct (always_run _ _ _ _ _ w (ok_epoch_state H Hq Hcb su e TRAIN_END) Hw)
    as ([] & w5 & ext5 & Hrun5 & Hlog5 & Ht5 & He5 & Hr5 & _).
  exists w5, ext5. rewrite (run_bind _ _ _ _ _ Hrun5). done.
Qed.

(** [fit] around any account of the loop. *)
Lemma fit_through H args td vd ts vs cbs tc vc rank w (P : nat -> Z -> Prop) :
  quiet H -> callbacks_set_state_only H ->
  fit_can_start H args td vd ts tc rank w ->
  let su := pl_setup (plan_of H args td vd ts vs tc vc rank w) in
  (forall w3, Ready H su (current_epoch (obj w)) w3 -> has_runner w3 ->
     exists w4 ext j e,
       fit_epochs H (Z.to_nat (epochs args)) w3 = (Ok tt, w4) /\
       log w4 = log w3 ++ ext /\
       count_train ext = j /\ count_eval ext = (j * valid_count H su)%nat /\
       Ready H su e w4 /\ P j e) ->
  exists w' ext j e,
    fit H td args vd ts vs cbs tc vc w = (Ok (chosen args), w') /\
    log w' = log w ++ ext /\
    count_train ext = j /\ count_eval ext = (j * valid_count H su)%nat /\
    Ready H su e w' /\ P j e.
Proof.
  intros Hq Hcb Hstart su Hloop.
  destruct (fit_prepares H args td vd ts vs cbs tc vc rank w Hq Hcb Hstart)
    as (w3 & ext3 & Hfit & Hlog3 & Ht3 & He3 & Hr3 & Hrun3).
  destruct (Hloop w3 Hr3 Hrun3) as (w4 & ext4 & j & e & Hrun4 & Hlog4 & Ht4 & He4 & Hr4 & HP).
  destruct (fit_finishes H su e (chosen args) w4 Hq Hcb Hr4)
    as (w5 & ext5 & Hrun5 & Hlog5 & Ht5 & He5 & Hr5).
  exists w5, (ext3 ++ ext4 ++ ext5), j, e.
  split; [by rewrite Hfit, (run_bind _ _ _ _ _ Hrun4)|].
  split; [by rewrite Hlog5, Hlog4, Hlog3, <- !app_assoc|].
  rewrite !count_train_app, !count_eval_app, Ht3, He3, Ht4, He4, Ht5, He5.
  split; [lia|]. split; [lia|]. done.
Qed.

(** The loop when nothing stops it, and when the callbacks stop it at once. *)
Lemma fit_epochs_all H su n :
  quiet H -> callbacks_set_state_only H -> never_ends H ->
  forall e w, Ready H su e w ->
  exists w' ext,
    fit_epochs H n w = (Ok tt, w') /\ log w' = log w ++ ext /\
    count_train ext = n /\ count_eval ext = (n * valid_count H su)%nat /\
    Ready H su (e + Z.of_nat n) w'.
Proof.
  intros Hq Hcb Hlive e w Hw.
  destruct (fit_epochs_run H su n Hq Hcb e w Hw)
    as (w' & ext & j & Hrun & Hlog & Ht & He & Hcase).
  exists w', ext. split; [exact Hrun|]. split; [exact Hlog|].
  destruct Hcase as [(-> & -> & ->) | [(Hn & -> & _ & Hr) | (Hn & Hj & Hs & Hr)]].
  - split; [done|]. split; [done|]. by rewrite Z.add_0_r.
  - done.
  - exfalso. destruct n as [|n]; [done|].
    destruct (live_fit_epochs H Hlive n w Logic.I) as [_ Hl].
    rewrite Hrun in Hl. by apply (Hl tt).
Qed.

Lemma fit_epochs_stop H su n :
  quiet H -> callbacks_set_state_only H -> stops_at_epoch_end H ->
  forall e w, Ready H su e w -> has_runner w ->
  exists w' ext,
    fit_epochs H (S n) w = (Ok tt, w') /\ log w' = log w ++ ext /\
    count_train ext = 1%nat /\ count_eval ext = valid_count H su /\
    Ready H su e w'.
Proof.
  intros Hq Hcb Hstop e w Hw Hr.
  destruct (always_run _ _ _ _ _ w (ok_fit_epoch H Hq Hcb su e) Hw)
    as (b & w1 & ext1 & Hrun & Hlog1 & Ht1 & He1 & Hready & Hend).
  destruct (stop_fit_epoch H Hcb Hstop w Hr) as [_ Hs].
  rewrite Hrun in Hs. specialize (Hs b eq_refl). simpl in Hs.
  apply Hend in Hs. subst b.
  exists w1, ext1. simpl. rewrite (run_bind _ _ _ _ _ Hrun).
  rewrite Z.add_0_r in Hready. done.
Qed.

(** X1.  A call of [fit] that can start returns the configuration, having run
    the train epoch [j] times and the validate epoch after each of them
    exactly when the valid loader is truthy (set and not empty).  Either all
    [N = max(epochs, 0)] epochs were run and [current_epoch] has grown by [N],
    or the loop was left in epoch [j] and [current_epoch] has grown by
    [j - 1]: the epoch that ends in the state "end" is not counted.  The host
    is assumed to fail no call; callbacks leave the object alone on step
    events and otherwise set at most the model-lifecycle state. *)
Theorem fit_runs_epochs (H : Host) (args : Args) (td vd : option Dataset)
    (ts vs : option Sampler) (cbs : option (list Callback)) (tc vc : option Collate)
    (rank : Z) (w : World) :
  quiet H -> callbacks_set_state_only H ->
  fit_can_start H args td vd ts tc rank w ->
  let N := Z.to_nat (epochs args) in
  let v := if truthy_loader H (fit_valid_loader H args vd ts vs vc w) then 1%nat else 0%nat in
  exists w' ext j,
    fit H td args vd ts vs cbs tc vc w = (Ok (chosen args), w') /\
    log w' = log w ++ ext /\
    count_train ext = j /\ count_eval ext = (j * v)%nat /\
    ((j = N /\ current_epoch (obj w') = current_epoch (obj w) + Z.of_nat N) \/
     ((1 <= j <= N)%nat /\
      current_epoch (obj w') = current_epoch (obj w) + Z.of_nat j - 1)).
Proof.
  intros Hq Hcb Hstart N v.
  destruct (fit_through H args td vd ts vs cbs tc vc rank w
              (fun j e => (j = N /\ e = current_epoch (obj w) + Z.of_nat N) \/
                          ((1 <= j <= N)%nat /\ e = current_epoch (obj w) + Z.of_nat j - 1))
              Hq Hcb Hstart)
    as (w' & ext & j & e & Hrun & Hlog & Ht & He & Hr & HP).
  { intros w3 Hr3 _.
    destruct (fit_epochs_run H _ N Hq Hcb _ w3 Hr3)
      as (w4 & ext4 & j & Hrun4 & Hlog4 & Ht4 & He4 & Hcase).
    destruct Hcase as [(HN & -> & ->) | [(HN & -> & _ & Hr) | (HN & Hj & _ & Hr)]].
    - exists w3, ext4, 0%nat, (current_epoch (obj w)).
      do 4 (split; [done|]). split; [exact Hr3|]. left. split; [done | lia].
    - exists w4, ext4, N. eexists.
      do 4 (split; [done|]). split; [exact Hr|]. by left.
    - exists w4, ext4, j. eexists.
      do 4 (split; [done|]). split; [exact Hr|]. by right. }
  exists w', ext, j. do 4 (split; [assumption|]).
  assert (Hc : current_epoch (obj w') = e) by apply Hr.
  rewrite Hc. exact HP.
Qed.

Lemma fit_runs_epochs_witness :
  let h := Demo.host false None in
  let args := Demo.config 2 (-1) "cpu" 1 false in
  let w := Demo.fresh in
  quiet h /\ callbacks_set_state_only h /\
  fit_can_start h args (Some 3%nat) (Some 2%nat) None None (-1) w /\
  exists w' ext j,
    fit h (Some 3%nat) args (Some 2%nat) None None None None None w = (Ok (chosen args), w') /\
    log w' = log w ++ ext /\
    count_train ext = j /\ count_eval ext = (j * 1)%nat /\
    ((j = 2%nat /\ current_epoch (obj w') = 0 + 2) \/
     ((1 <= j <= 2)%nat /\ current_epoch (obj w') = 0 + Z.of_nat j - 1)).
Proof.
  intros h args w.
  assert (Hq : quiet h) by (intros l e; reflexivity).
  assert (Hcb : callbacks_set_state_only h)
    by (split; [intros v m _; reflexivity | intros v m; left; reflexivity]).
  assert (Hs : fit_can_start h args (Some 3%nat) (Some 2%nat) None None (-1) w).
  { unfold fit_can_start.
    split; [reflexivity|].
    split; [intros [E|E]; discriminate E|].
    split; [discriminate|].
    split; [by left|].
    split; [discriminate|].
    split; [discriminate|].
    split; [right; intros l; discriminate|].
    split; [reflexivity | exact metrics_init_keys]. }
  split; [exact Hq|]. split; [exact Hcb|]. split; [exact Hs|].
  exact (fit_runs_epochs h args (Some 3%nat) (Some 2%nat) None None None None None (-1) w
           Hq Hcb Hs).
Defined.

(** X2.  When no callback ever puts the model in the state "end", a call of
    [fit] that can start runs all [N = max(epochs, 0)] epochs: the train epoch
    exactly [N] times, the validate epoch [N] times if the valid loader is
    truthy and never otherwise, and [current_epoch] ends [N] higher than it
    started (so a second call of [fit] goes on counting where the first one
    stopped). *)
Theorem fit_runs_all_epochs (H : Host) (args : Args) (td vd : option Dataset)
    (ts vs : option Sampler) (cbs : option (list Callback)) (tc vc : option Collate)
    (rank : Z) (w : World) :
  quiet H -> callbacks_set_state_only H -> never_ends H ->
  fit_can_start H args td vd ts tc rank w ->
  let N := Z.to_nat (epochs args) in
  let v := if truthy_loader H (fit_valid_loader H args vd ts vs vc w) then 1%nat else 0%nat in
  exists w' ext,
    fit H td args vd ts vs cbs tc vc w = (Ok (chosen args), w') /\
    log w' = log w ++ ext /\
    count_train ext = N /\ count_eval ext = (N * v)%nat /\
    current_epoch (obj w') = current_epoch (obj w) + Z.of_nat N.
Proof.
  intros Hq Hcb Hlive Hstart N v.
  destruct (fit_through H args td vd ts vs cbs tc vc rank w
              (fun j e => j = N /\ e = current_epoch (obj w) + Z.of_nat N)
              Hq Hcb Hstart)
    as (w' & ext & j & e & Hrun & Hlog & Ht & He & Hr & -> & ->).
  { intros w3 Hr3 _.
    destruct (fit_epochs_all H _ N Hq Hcb Hlive _ w3 Hr3)
      as (w4 & ext4 & Hrun4 & Hlog4 & Ht4 & He4 & Hr4).
    exists w4, ext4, N. eexists. do 4 (split; [done|]). split; [exact Hr4 | done]. }
  exists w', ext. do 4 (split; [assumption|]). apply Hr.
Qed.

Lemma fit_runs_all_epochs_witness :
  let h := Demo.host false None in
  let args := Demo.config 3 (-1) "cpu" 2 false in
  let w := Demo.fresh in
  quiet h /\ callbacks_set_state_only h /\ never_ends h /\
  fit_can_start h args (Some 4%nat) None None None (-1) w /\
  exists w' ext,
    fit h (Some 4%nat) args None None None None None None w = (Ok (chosen args), w') /\
    log w' = log w ++ ext /\
    count_train ext = 3%nat /\ count_eval ext = (3 * 0)%nat /\
    current_epoch (obj w') = 0 + 3.
Proof.
  intros h args w.
  assert (Hq : quiet h) by (intros l e; reflexivity).
  assert (Hcb : callbacks_set_state_only h)
    by (split; [intros v m _; reflexivity | intros v m; left; reflexivity]).
  assert (Hl : never_ends h) by (intros v m E; exact E).
  assert (Hs : fit_can_start h args (Some 4%nat) None None None (-1) w).
  { unfold fit_can_start.
    split; [reflexivity|].
    split; [intros [E|E]; discriminate E|].
    split; [discriminate|].
    split; [by left|].
    split; [discriminate|].
    split; [discriminate|].
    split; [right; intros l; discriminate|].
    split; [reflexivity | exact metrics_init_keys]. }
  split; [exact Hq|]. split; [exact Hcb|]. split; [exact Hl|]. split; [exact Hs|].
  exact (fit_runs_all_epochs h args (Some 4%nat) None None None None None None (-1) w
           Hq Hcb Hl Hs).
Defined.

(** X3.  Early stopping: when the callbacks put the model in the state "end"
    at the end of an epoch, a call of [fit] with [epochs >= 1] runs one train
    epoch (and one validate epoch if the valid loader is truthy), leaves the
    loop and returns; [current_epoch] is what it was before the call. *)
Theorem fit_stops_after_first_epoch (H : Host) (args : Args) (td vd : option Dataset)
    (ts vs : option Sampler) (cbs : option (list Callback)) (tc vc : option Collate)
    (rank : Z) (w : World) :
  quiet H -> callbacks_set_state_only H -> stops_at_epoch_end H ->
  fit_can_start H args td vd ts tc rank w ->
  1 <= epochs args ->
  let v := if truthy_loader H (fit_valid_loader H args vd ts vs vc w) then 1%nat else 0%nat in
  exists w' ext,
    fit H td args vd ts vs cbs tc vc w = (Ok (chosen args), w') /\
    log w' = log w ++ ext /\
    count_train ext = 1%nat /\ count_eval ext = v /\
    current_epoch (obj w') = current_epoch (obj w).
Proof.
  intros Hq Hcb Hstop Hstart HN v.
  destruct (fit_through H args td vd ts vs cbs tc vc rank w
              (fun j e => j = 1%nat /\ e = current_epoch (obj w))
              Hq Hcb Hstart)
    as (w' & ext & j & e & Hrun & Hlog & Ht & He & Hr & -> & ->).
  { intros w3 Hr3 Hrunner.
    destruct (Z.to_nat (epochs args)) as [|n] eqn:En; [lia|].
    destruct (fit_epochs_stop H _ n Hq Hcb Hstop _ w3 Hr3 Hrunner)
      as (w4 & ext4 & Hrun4 & Hlog4 & Ht4 & He4 & Hr4).
    exists w4, ext4, 1%nat. eexists. do 3 (split; [done|]).
    split; [by rewrite Nat.mul_1_l|]. split; [exact Hr4 | done]. }
  exists w', ext. do 3 (split; [assumption|]).
  split; [by rewrite Nat.mul_1_l in He | apply Hr].
Qed.

Lemma fit_stops_after_first_epoch_witness :
  let h := stopping_host in
  let args := Demo.config 5 (-1) "cpu" 1 false in
  let w := Demo.fresh in
  quiet h /\ callbacks_set_state_only h /\ stops_at_epoch_end h /\
  fit_can_start h args (Some 3%nat) (Some 2%nat) None None (-1) w /\
  1 <= epochs args /\
  exists w' ext,
    fit h (Some 3%nat) args (Some 2%nat) None None None None None w = (Ok (chosen args), w') /\
    log w' = log w ++ ext /\
    count_train ext = 1%nat /\ count_eval ext = 1%nat /\
    current_epoch (obj w') = 0.
Proof.
  intros h args w.
  assert (Hq : quiet h) by (intros l e; reflexivity).
  assert (Hcb : callbacks_set_state_only h).
  { split.
    - intros v m Hv. by destruct v.
    - intros v m. destruct v; first [by left | right; by exists MS_END]. }
  assert (Hstop : stops_at_epoch_end h) by (intros m; reflexivity).
  assert (Hs : fit_can_start h args (Some 3%nat) (Some 2%nat) None None (-1) w).
  { unfold fit_can_start.
    split; [reflexivity|].
    split; [intros [E|E]; discriminate E|].
    split; [discriminate|].
    split; [by left|].
    split; [discriminate|].
    split; [discriminate|].
    split; [right; intros l; discriminate|].
    split; [reflexivity | exact metrics_init_keys]. }
  assert (HN : 1 <= epochs args) by (simpl; lia).
  split; [exact Hq|]. split; [exact Hcb|]. split; [exact Hstop|]. split; [exact Hs|].
  split; [exact HN|].
  exact (fit_stops_after_first_epoch h args (Some 3%nat) (Some 2%nat) None None None None None
           (-1) w Hq Hcb Hstop Hs HN).
Defined.

(** X4.  What [fit] leaves on the object: a loader that was set before the
    call is still there, a missing train loader (and a missing valid loader
    when a valid dataset is given) has been built over the dataset with
    [cpu_count] workers; [fp16] is [args.fp16], and [False] on a TPU;
    [local_rank] is the integer of the environment variable; an optimizer is
    set. *)
Theorem fit_keeps_loaders (H : Host) (args : Args) (td vd : option Dataset)
    (ts vs : option Sampler) (cbs : option (list Callback)) (tc vc : option Collate)
    (rank : Z) (w : World) :
  quiet H -> callbacks_set_state_only H ->
  fit_can_start H args td vd ts tc rank w ->
  let after := obj (fit H td args vd ts vs cbs tc vc w).2 in
  train_loader after = Some (fit_train_loader H args td ts tc w) /\
  valid_loader after = fit_valid_loader H args vd ts vs vc w /\
  (forall l, train_loader (obj w) = Some l -> train_loader after = Some l) /\
  (forall l, valid_loader (obj w) = Some l -> valid_loader after = Some l) /\
  fp16 after = (if String.eqb (args_device args) "tpu" then false else args_fp16 args) /\
  local_rank after = rank /\
  optimizer after <> None.
Proof.
  intros Hq Hcb Hstart after.
  destruct (fit_through H args td vd ts vs cbs tc vc rank w (fun _ _ => True)
              Hq Hcb Hstart)
    as (w' & ext & j & e & Hrun & _ & _ & _ & Hr & _).
  { intros w3 Hr3 _.
    destruct (fit_epochs_run H _ (Z.to_nat (epochs args)) Hq Hcb _ w3 Hr3)
      as (w4 & ext4 & j & Hrun4 & Hlog4 & Ht4 & He4 & Hcase).
    exists w4, ext4, j.
    destruct Hcase as [(HN & -> & ->) | [(HN & -> & _ & Hr) | (HN & Hj & _ & Hr)]];
      eexists; do 4 (split; [done|]); (split; [eassumption | done]). }
  subst after. rewrite Hrun. cbn [snd].
  destruct Hr as (_ & Htl & _ & Hvl & Ho & _ & Hfp & _ & _ & _ & Hlr & _).
  cbn [plan_of pl_setup su_train su_valid su_fp16 su_rank] in *.
  split; [exact Htl|]. split; [exact Hvl|].
  split. { intros l Hl. rewrite Htl. unfold fit_train_loader. by rewrite Hl. }
  split. { intros l Hl. rewrite Hvl. unfold fit_valid_loader. by rewrite Hl. }
  split. { rewrite Hfp. unfold chosen. by destruct (String.eqb _ _). }
  split; [exact Hlr | exact Ho].
Qed.

Lemma fit_keeps_loaders_witness :
  let h := Demo.host false None in
  let args := Demo.config 1 7 "cpu" 1 true in
  let w := mkWorld (set_valid_loader (Some (Demo.loader 0))
                      (set_train_loader (Some (Demo.loader 2)) (obj Demo.fresh)))
             metrics_init [] in
  quiet h /\ callbacks_set_state_only h /\
  fit_can_start h args None None None None (-1) w /\
  let after := obj (fit h None args None None None None None None w).2 in
  train_loader after = Some (Demo.loader 2) /\
  valid_loader after = Some (Demo.loader 0) /\
  (forall l, train_loader (obj w) = Some l -> train_loader after = Some l) /\
  (forall l, valid_loader (obj w) = Some l -> valid_loader after = Some l) /\
  fp16 after = true /\
  local_rank after = -1 /\
  optimizer after <> None.
Proof.
  intros h args w.
  assert (Hq : quiet h) by (intros l e; reflexivity).
  assert (Hcb : callbacks_set_state_only h)
    by (split; [intros v m _; reflexivity | intros v m; left; reflexivity]).
  assert (Hs : fit_can_start h args None None None None (-1) w).
  { unfold fit_can_start.
    split; [reflexivity|].
    split; [intros [E|E]; discriminate E|].
    split; [discriminate|].
    split; [right; split; [discriminate | left; discriminate]|].
    split; [discriminate|].
    split; [discriminate|].
    split; [right; intros l; discriminate|].
    split; [reflexivity | exact metrics_init_keys]. }
  split; [exact Hq|]. split; [exact Hcb|]. split; [exact Hs|].
  exact (fit_keeps_loaders h args None None None None None None None (-1) w Hq Hcb Hs).
Defined.

(** * Epochs over an empty loader *)

Lemma train_one_epoch_empty_raises H ld w :
  loader_batches H ld = [] ->
  exists e, (train_one_epoch H (Some ld) w).1 = Raise e.
Proof.
  intros He.
  change (wp (train_one_epoch H (Some ld)) (fun r _ => exists e, r = Raise e) w).
  unfold train_one_epoch, open_loader. rewrite He.
  wp_run fail.
  all: try match goal with E : monitor _ = Some _ |- _ => discriminate E end.
  all: by eexists.
Qed.

Lemma validate_one_epoch_empty_raises H ld w :
  loader_batches H ld = [] ->
  exists e, (validate_one_epoch H (Some ld) w).1 = Raise e.
Proof.
  intros He.
  change (wp (validate_one_epoch H (Some ld)) (fun r _ => exists e, r = Raise e) w).
  unfold validate_one_epoch, open_loader. rewrite He.
  wp_run fail.
  all: try match goal with E : monitor _ = Some _ |- _ => discriminate E end.
  all: by eexists.
Qed.

Lemma train_one_epoch_empty_unbound H ld w :
  loader_batches H ld = [] ->
  quiet H ->
  model (obj w) <> None ->
  local_rank (obj w) = -1 ->
  (1 < accumulation_steps (obj w) -> optimizer (obj w) <> None) ->
  let out := train_one_epoch H (Some ld) w in
  out.1 = Raise (UnboundLocalError "monitor") /\
  _model_state (obj out.2) = Some MS_TRAIN /\
  metrics out.2 = metrics w /\
  (exists ext, log out.2 = log w ++ ext /\ count_train ext = 1%nat).
Proof.
  intros He Hq Hm Hr Ho out. subst out.
  change (wp (train_one_epoch H (Some ld)) (fun r w' =>
    r = Raise (UnboundLocalError "monitor") /\
    _model_state (obj w') = Some MS_TRAIN /\
    metrics w' = metrics w /\
    (exists ext, log w' = log w ++ ext /\ count_train ext = 1%nat)) w).
  unfold train_one_epoch, open_loader. rewrite He.
  wp_run ltac:(exact Hq).
  all: try match goal with E : monitor _ = Some _ |- _ => discriminate E end.
  all: try done.
  all: try (exfalso; apply Ho; [by apply Z.ltb_lt | done]).
  all: repeat split; rewrite <- ?app_assoc; by eexists.
Qed.

Lemma validate_one_epoch_empty_unbound H ld w :
  loader_batches H ld = [] ->
  quiet H ->
  model (obj w) <> None ->
  let out := validate_one_epoch H (Some ld) w in
  out.1 = Raise (UnboundLocalError "monitor") /\
  _model_state (obj out.2) = Some MS_VALID /\
  metrics out.2 = metrics w /\
  (exists ext, log out.2 = log w ++ ext /\ count_eval ext = 1%nat).
Proof.
  intros He Hq Hm out. subst out.
  change (wp (validate_one_epoch H (Some ld)) (fun r w' =>
    r = Raise (UnboundLocalError "monitor") /\
    _model_state (obj w') = Some MS_VALID /\
    metrics w' = metrics w /\
    (exists ext, log w' = log w ++ ext /\ count_eval ext = 1%nat)) w).
  unfold validate_one_epoch, open_loader. rewrite He.
  wp_run ltac:(exact Hq).
  all: try match goal with E : monitor _ = Some _ |- _ => discriminate E end.
  all: try done.
  all: repeat split; rewrite <- ?app_assoc; by eexists.
Qed.

(** X5.  An epoch over an empty loader never returns, whatever the host does:
    [train_one_epoch] and [validate_one_epoch] read the local [monitor] after
    the loop, and only the loop binds it.  When the host fails no call the
    exception is [UnboundLocalError]: the model has been put in training (or
    evaluation) mode once and the model-lifecycle state has been set, and the
    metrics are what they were. *)
Theorem epoch_over_empty_loader_fails (H : Host) (ld : Loader) (w : World) :
  loader_batches H ld = [] ->
  let train := train_one_epoch H (Some ld) w in
  let valid := validate_one_epoch H (Some ld) w in
  (exists e, train.1 = Raise e) /\
  (exists e, valid.1 = Raise e) /\
  (quiet H -> model (obj w) <> None ->
   valid.1 = Raise (UnboundLocalError "monitor") /\
   _model_state (obj valid.2) = Some MS_VALID /\
   metrics valid.2 = metrics w /\
   (exists ext, log valid.2 = log w ++ ext /\ count_eval ext = 1%nat)) /\
  (quiet H -> model (obj w) <> None -> local_rank (obj w) = -1 ->
   (1 < accumulation_steps (obj w) -> optimizer (obj w) <> None) ->
   train.1 = Raise (UnboundLocalError "monitor") /\
   _model_state (obj train.2) = Some MS_TRAIN /\
   metrics train.2 = metrics w /\
   (exists ext, log train.2 = log w ++ ext /\ count_train ext = 1%nat)).
Proof.
  intros He train valid.
  split; [by apply train_one_epoch_empty_raises|].
  split; [by apply validate_one_epoch_empty_raises|].
  split.
  - intros Hq Hm. by apply validate_one_epoch_empty_unbound.
  - intros Hq Hm Hr Ho. by apply train_one_epoch_empty_unbound.
Qed.

Lemma epoch_over_empty_loader_fails_witness :
  let h := Demo.host false None in
  let ld := Demo.loader 0 in
  let train := train_one_epoch h (Some ld) (Demo.ready 1) in
  loader_batches h ld = [] /\
  train.1 = Raise (UnboundLocalError "monitor") /\
  _model_state (obj train.2) = Some MS_TRAIN.
Proof.
  intros h ld train.
  assert (He : loader_batches h ld = []) by reflexivity.
  destruct (epoch_over_empty_loader_fails h ld (Demo.ready 1) He) as (_ & _ & _ & Ht).
  destruct Ht as (Hr & Hs & _).
  - intros l e. reflexivity.
  - discriminate.
  - reflexivity.
  - intros _. discriminate.
  - split; [exact He|]. split; [exact Hr | exact Hs].
Defined.

(** * Single steps *)

Lemma surjective_pairing_eq {A B} (p : A * B) a b : p.1 = a /\ p.2 = b -> p = (a, b).
Proof. destruct p. simpl. by intros [-> ->]. Qed.

Lemma model_fn_needs_device_count H data w :
  quiet H -> model (obj w) <> None ->
  local_rank (obj w) = -1 -> device_count (obj w) = None ->
  model_fn H data w =
    (Raise (AttributeError "device_count"),
     mkWorld (obj w) (metrics w)
       (log w ++ [BatchTo data (device (obj w)); Forward data (fp16 (obj w))])).
Proof.
  intros Hq Hm Hr Hd.
  apply (surjective_pairing_eq (model_fn H data w)).
  change (wp (model_fn H data) (fun r w' =>
    r = Raise (AttributeError "device_count") /\
    w' = mkWorld (obj w) (metrics w)
           (log w ++ [BatchTo data (device (obj w)); Forward data (fp16 (obj w))])) w).
  wp_run ltac:(exact Hq).
  all: try done.
  all: by rewrite <- ?app_assoc.
Qed.

Lemma validate_one_step_needs_device_count H data w :
  quiet H -> model (obj w) <> None ->
  local_rank (obj w) = -1 -> device_count (obj w) = None ->
  (validate_one_step H data w).1 = Raise (AttributeError "device_count").
Proof.
  intros Hq Hm Hr Hd. unfold validate_one_step, bind at 1.
  by rewrite model_fn_needs_device_count.
Qed.

Lemma train_one_step_needs_device_count H data w :
  quiet H -> model (obj w) <> None ->
  local_rank (obj w) = -1 -> device_count (obj w) = None ->
  let out := train_one_step H data w in
  out.1 = Raise (AttributeError "device_count") /\
  exists ext, log out.2 = log w ++ ext /\
    Forall (fun e => match e with Backward _ _ => False | _ => is_step e = false end) ext.
Proof.
  intros Hq Hm Hr Hd out. subst out.
  change (wp (train_one_step H data) (fun r w' =>
    r = Raise (AttributeError "device_count") /\
    exists ext, log w' = log w ++ ext /\
      Forall (fun e => match e with Backward _ _ => False | _ => is_step e = false end) ext) w).
  wp_run ltac:(exact Hq).
  all: try done.
  all: split; [reflexivity|]; rewrite <- ?app_assoc; eexists; (split; [reflexivity|]);
       repeat constructor.
Qed.

Lemma model_fn_returns H data w :
  quiet H -> model (obj w) <> None ->
  (local_rank (obj w) = -1 -> device_count (obj w) <> None) ->
  model_fn H data w =
    (Ok (reduced (obj w) (LossOf data), ∅),
     mkWorld (obj w) (metrics w)
       (log w ++ [BatchTo data (device (obj w)); Forward data (fp16 (obj w))])).
Proof.
  intros Hq Hm Hd.
  apply (surjective_pairing_eq (model_fn H data w)).
  change (wp (model_fn H data) (fun r w' =>
    r = Ok (reduced (obj w) (LossOf data), ∅) /\
    w' = mkWorld (obj w) (metrics w)
           (log w ++ [BatchTo data (device (obj w)); Forward data (fp16 (obj w))])) w).
  unfold reduced, multi_gpu.
  wp_run ltac:(exact Hq).
  all: try done.
  all: try (exfalso; apply Hd; [by apply Z.eqb_eq | done]).
  all: rewrite <- ?app_assoc.
  all: repeat match goal with E : _ = _ |- _ => rewrite E end.
  all: done.
Qed.

Lemma validate_one_step_returns H data w :
  quiet H -> model (obj w) <> None ->
  (local_rank (obj w) = -1 -> device_count (obj w) <> None) ->
  validate_one_step H data w =
    (Ok (reduced (obj w) (reduced (obj w) (LossOf data)), ∅),
     mkWorld (obj w) (metrics w)
       (log w ++ [BatchTo data (device (obj w)); Forward data (fp16 (obj w))])).
Proof.
  intros Hq Hm Hd.
  apply (surjective_pairing_eq (validate_one_step H data w)).
  change (wp (validate_one_step H data) (fun r w' =>
    r = Ok (reduced (obj w) (reduced (obj w) (LossOf data)), ∅) /\
    w' = mkWorld (obj w) (metrics w)
           (log w ++ [BatchTo data (device (obj w)); Forward data (fp16 (obj w))])) w).
  unfold reduced, multi_gpu.
  wp_run ltac:(exact Hq).
  all: try done.
  all: try (exfalso; apply Hd; [by apply Z.eqb_eq | done]).
  all: rewrite <- ?app_assoc.
  all: repeat match goal with E : _ = _ |- _ => rewrite E in * end.
  all: try done.
  all: congruence.
Qed.

Lemma train_one_step_returns H data w :
  quiet H -> step_ready H w -> step_scheduler_metric (obj w) = None ->
  let k := accumulation_steps (obj w) in
  let i := batch_index (obj w) in
  let loss := LossDiv (reduced (obj w) (LossOf data)) k in
  exists ext,
    train_one_step H data w =
      (Ok (loss, ∅), mkWorld (obj w) (metrics w) (log w ++ ext)) /\
    filter (fun e => is_step e = true) ext =
      (if (i + 1) mod k =? 0 then [stepper (obj w)] else []) /\
    filter (fun e => is_scheduler_step e = true) ext =
      (if ((i + 1) mod k =? 0) && bool_decide (scheduler (obj w) <> None) &&
          bool_decide (step_scheduler_after (obj w) = Some "batch")
       then [SchedulerStep None] else []) /\
    Backward loss (fp16 (obj w)) ∈ ext.
Proof.
  intros Hq (Hm & Hd & Hsc & Ho & Hx & Hk) Hmetric k i loss. subst k i loss.
  cut (wp (train_one_step H data) (fun r w' =>
    exists ext,
      r = Ok (LossDiv (reduced (obj w) (LossOf data)) (accumulation_steps (obj w)), ∅) /\
      w' = mkWorld (obj w) (metrics w) (log w ++ ext) /\
      filter (fun e => is_step e = true) ext =
        (if (batch_index (obj w) + 1) mod accumulation_steps (obj w) =? 0
         then [stepper (obj w)] else []) /\
      filter (fun e => is_scheduler_step e = true) ext =
        (if ((batch_index (obj w) + 1) mod accumulation_steps (obj w) =? 0) &&
            bool_decide (scheduler (obj w) <> None) &&
            bool_decide (step_scheduler_after (obj w) = Some "batch")
         then [SchedulerStep None] else []) /\
      Backward (LossDiv (reduced (obj w) (LossOf data)) (accumulation_steps (obj w)))
        (fp16 (obj w)) ∈ ext) w).
  { unfold wp. intros (ext & Hr & Hw & Hrest). exists ext. split; [|exact Hrest].
    apply surjective_pairing_eq. done. }
  unfold reduced, multi_gpu, stepper.
  wp_run ltac:(exact Hq).
  all: try done.
  all: try (exfalso; apply Hk; by apply Z.eqb_eq).
  all: try (exfalso; apply Hd; [by apply Z.eqb_eq | done]).
  all: try (exfalso; by apply Hsc).
  all: try (exfalso; specialize (Hx eq_refl); congruence).
  all: rewrite <- ?app_assoc; eexists; (split; [reflexivity|]); (split; [reflexivity|]).
  all: try (split; [reflexivity|]; split; [reflexivity|];
            repeat first [apply list_elem_of_here | apply list_elem_of_further]).
Qed.

(** X6.  A step needs what [_init_tez] creates: the class body has no
    attribute [device_count].  On an object with [local_rank = -1] on which
    [device_count] was never assigned (the model is set, the host fails no
    call), [model_fn] moves the batch, runs the forward pass and then ends in
    [AttributeError]; so do [validate_one_step] and [train_one_step], the
    latter before any backward pass or optimizer step. *)
Theorem step_before_fit_fails (H : Host) (data : Batch) (w : World) :
  quiet H -> model (obj w) <> None ->
  local_rank (obj w) = -1 -> device_count (obj w) = None ->
  model_fn H data w =
    (Raise (AttributeError "device_count"),
     mkWorld (obj w) (metrics w)
       (log w ++ [BatchTo data (device (obj w)); Forward data (fp16 (obj w))])) /\
  (validate_one_step H data w).1 = Raise (AttributeError "device_count") /\
  (train_one_step H data w).1 = Raise (AttributeError "device_count") /\
  exists ext, log (train_one_step H data w).2 = log w ++ ext /\
    Forall (fun e => match e with Backward _ _ => False | _ => is_step e = false end) ext.
Proof.
  intros Hq Hm Hr Hd.
  split; [by apply model_fn_needs_device_count|].
  split; [by apply validate_one_step_needs_device_count|].
  by apply train_one_step_needs_device_count.
Qed.

Lemma step_before_fit_fails_witness :
  let h := Demo.host false None in
  quiet h /\ model (obj Demo.fresh) <> None /\
  local_rank (obj Demo.fresh) = -1 /\ device_count (obj Demo.fresh) = None /\
  (validate_one_step h 0%nat Demo.fresh).1 = Raise (AttributeError "device_count") /\
  (train_one_step h 0%nat Demo.fresh).1 = Raise (AttributeError "device_count").
Proof.
  intros h.
  assert (Hq : quiet h) by (intros l e; reflexivity).
  assert (Hm : model (obj Demo.fresh) <> None) by discriminate.
  assert (Hr : local_rank (obj Demo.fresh) = -1) by reflexivity.
  assert (Hd : device_count (obj Demo.fresh) = None) by reflexivity.
  destruct (step_before_fit_fails h 0%nat Demo.fresh Hq Hm Hr Hd) as (_ & Hv & Ht & _).
  repeat (split; [assumption|]). exact Ht.
Defined.

(** X7.  On an object that is set up, with a host that fails no call,
    [model_fn] and [validate_one_step] return, change nothing on the object
    or in the metrics, and call the host exactly twice: to move the batch to
    the device and for the forward pass (under autocast exactly when [fp16]
    is set).  The metrics they return are empty.  [model_fn] averages the
    loss when several GPUs are used by one process; [validate_one_step]
    then averages that loss a second time. *)
Theorem validation_loss_is_reduced_twice (H : Host) (data : Batch) (w : World) :
  quiet H -> model (obj w) <> None ->
  (local_rank (obj w) = -1 -> device_count (obj w) <> None) ->
  let after := mkWorld (obj w) (metrics w)
                 (log w ++ [BatchTo data (device (obj w)); Forward data (fp16 (obj w))]) in
  model_fn H data w = (Ok (reduced (obj w) (LossOf data), ∅), after) /\
  validate_one_step H data w =
    (Ok (reduced (obj w) (reduced (obj w) (LossOf data)), ∅), after).
Proof.
  intros Hq Hm Hd after. split.
  - by apply model_fn_returns.
  - by apply validate_one_step_returns.
Qed.

Lemma validation_loss_is_reduced_twice_witness :
  let h := Demo.host false None in
  let w := mkWorld (set_device_count (Some 2) (obj Demo.fresh)) metrics_init [] in
  quiet h /\ model (obj w) <> None /\
  (local_rank (obj w) = -1 -> device_count (obj w) <> None) /\
  (model_fn h 5%nat w).1 = Ok (LossMean (LossOf 5%nat), ∅) /\
  (validate_one_step h 5%nat w).1 = Ok (LossMean (LossMean (LossOf 5%nat)), ∅).
Proof.
  intros h w.
  assert (Hq : quiet h) by (intros l e; reflexivity).
  assert (Hm : model (obj w) <> None) by discriminate.
  assert (Hd : local_rank (obj w) = -1 -> device_count (obj w) <> None)
    by (intros _; discriminate).
  destruct (validation_loss_is_reduced_twice h 5%nat w Hq Hm Hd) as [Hf Hv].
  repeat (split; [assumption|]).
  split; [by rewrite Hf | by rewrite Hv].
Defined.

(** X8.  One training step on an object that is set up ([step_ready]), with
    a host that fails no call and no metric for the scheduler: the step
    returns the loss of [model_fn] divided by [accumulation_steps] and empty
    metrics, and changes neither the object nor the metrics.  That loss went
    through the backward pass (scaled exactly when [fp16] is set).  The
    optimizer is stepped exactly when [(batch_index + 1) mod
    accumulation_steps = 0], once, and through the gradient scaler when
    [fp16] is set, else through [xm.optimizer_step] on a TPU, else directly.
    The scheduler is stepped, without a metric, exactly when the optimizer
    is, a scheduler is set and [step_scheduler_after] is "batch". *)
Theorem train_one_step_stepper (H : Host) (data : Batch) (w : World) :
  quiet H -> step_ready H w -> step_scheduler_metric (obj w) = None ->
  let k := accumulation_steps (obj w) in
  let i := batch_index (obj w) in
  let loss := LossDiv (reduced (obj w) (LossOf data)) k in
  exists ext,
    train_one_step H data w =
      (Ok (loss, ∅), mkWorld (obj w) (metrics w) (log w ++ ext)) /\
    filter (fun e => is_step e = true) ext =
      (if (i + 1) mod k =? 0 then [stepper (obj w)] else []) /\
    filter (fun e => is_scheduler_step e = true) ext =
      (if ((i + 1) mod k =? 0) && bool_decide (scheduler (obj w) <> None) &&
          bool_decide (step_scheduler_after (obj w) = Some "batch")
       then [SchedulerStep None] else []) /\
    Backward loss (fp16 (obj w)) ∈ ext.
Proof. exact (train_one_step_returns H data w). Qed.

Lemma train_one_step_stepper_witness :
  let h := Demo.host false None in
  let w := mkWorld (set_batch_index 1 (obj (Demo.ready 2))) metrics_init [] in
  quiet h /\ step_ready h w /\ step_scheduler_metric (obj w) = None /\
  exists ext,
    train_one_step h 7%nat w =
      (Ok (LossDiv (LossOf 7%nat) 2, ∅), mkWorld (obj w) (metrics w) (log w ++ ext)) /\
    filter (fun e => is_step e = true) ext = [OptimizerStep] /\
    filter (fun e => is_scheduler_step e = true) ext = [] /\
    Backward (LossDiv (LossOf 7%nat) 2) false ∈ ext.
Proof.
  intros h w.
  assert (Hq : quiet h) by (intros l e; reflexivity).
  assert (Hs : step_ready h w).
  { unfold step_ready.
    split; [discriminate|]. split; [intros _; discriminate|].
    split; [discriminate|]. split; [discriminate|].
    split; [discriminate | discriminate]. }
  assert (Hm : step_scheduler_metric (obj w) = None) by reflexivity.
  split; [exact Hq|]. split; [exact Hs|]. split; [exact Hm|].
  exact (train_one_step_stepper h 7%nat w Hq Hs Hm).
Defined.

(** * Looking metrics up *)

Lemma split_state_name v k :
  split_underscore (ModelState_value v ++ "_" ++ k)%string = (ModelState_value v, k).
Proof. by destruct v. Qed.

Lemma state_name_not_epoch v k :
  String.eqb (ModelState_value v ++ "_" ++ k)%string "current_epoch" = false.
Proof. by destruct v. Qed.

Lemma name_to_metric_found v k sub a w :
  metrics w !! ModelState_value v = Some sub -> sub !! k = Some a ->
  name_to_metric (ModelState_value v ++ "_" ++ k)%string w = (Ok (MetricAvg a), w).
Proof.
  intros Hsub Hk. unfold name_to_metric.
  rewrite state_name_not_epoch, split_state_name.
  unfold bind, get_metrics, ret. by rewrite Hsub, Hk.
Qed.

Lemma name_to_metric_nothing name w :
  String.eqb name "current_epoch" = false ->
  (forall g sub, metrics w !! g = Some sub -> sub = ∅) ->
  exists key, name_to_metric name w = (Raise (KeyError key), w).
Proof.
  intros Hn Hempty. unfold name_to_metric. rewrite Hn.
  destruct (split_underscore name) as [g k].
  unfold bind, get_metrics, raise.
  destruct (metrics w !! g) as [sub|] eqn:Hg.
  - rewrite (Hempty g sub Hg), lookup_empty. by eexists.
  - by eexists.
Qed.

(** X9.  What [update_metrics] records is what [name_to_metric] finds.
    After a call of [update_metrics] in the state train, valid or test, the
    name made of the state's value, an underscore and "loss" gives the
    running average of the losses, and the state's value, an underscore and
    any other name of the monitor (underscores included) gives the monitor's
    value; the lookup changes nothing.  A scheduler whose metric is that
    loss is stepped with it. *)
Theorem recorded_metrics_are_found (H : Host) (losses : AverageMeter)
    (monitor : gmap string Avg) (w : World) (v : ModelState) :
  has_metric_keys w ->
  _model_state (obj w) = Some v ->
  v <> MS_END ->
  let w' := (update_metrics losses monitor w).2 in
  let loss_name := (ModelState_value v ++ "_loss")%string in
  name_to_metric loss_name w' = (Ok (MetricAvg (AverageMeter_avg losses)), w') /\
  (forall k a, k <> "loss" -> monitor !! k = Some a ->
     name_to_metric (ModelState_value v ++ "_" ++ k)%string w' = (Ok (MetricAvg a), w')) /\
  (step_scheduler_metric (obj w) = Some loss_name ->
   scheduler_step H w' =
     call H (SchedulerStep (Some (MetricAvg (AverageMeter_avg losses)))) w').
Proof.
  intros Hk Hv Hne w' loss_name. subst w' loss_name.
  destruct (update_metrics_writes losses monitor w v Hk Hv Hne) as (sub & Hsub & ->).
  cbn [snd].
  set (w' := mkWorld _ _ _).
  assert (Hw' : metrics w' !! ModelState_value v =
                Some (<["loss" := AverageMeter_avg losses]> (monitor ∪ sub)))
    by (subst w'; cbn; by rewrite lookup_insert_eq).
  assert (Hloss : name_to_metric (ModelState_value v ++ "_loss")%string w' =
                  (Ok (MetricAvg (AverageMeter_avg losses)), w')).
  { apply (name_to_metric_found v "loss" _ _ w' Hw'). by rewrite lookup_insert_eq. }
  split; [exact Hloss|]. split.
  - intros k a Hkl Hmon.
    apply (name_to_metric_found v k _ _ w' Hw').
    rewrite lookup_insert_ne by done.
    by apply lookup_union_Some_l.
  - intros Hname. unfold scheduler_step.
    erewrite run_bind by reflexivity. cbn [obj]. subst w'. cbn [obj]. rewrite Hname.
    by rewrite (run_bind _ _ _ _ _ Hloss).
Qed.

Lemma recorded_metrics_are_found_witness :
  let h := Demo.host false None in
  let w := mkWorld (set__model_state (Some MS_VALID) (obj Demo.fresh)) metrics_init [] in
  let losses := AverageMeter_update AverageMeter_new (Item (LossOf 0%nat)) 8 in
  let w' := (update_metrics losses ∅ w).2 in
  has_metric_keys w /\ _model_state (obj w) = Some MS_VALID /\ MS_VALID <> MS_END /\
  name_to_metric "valid_loss" w' = (Ok (MetricAvg (AverageMeter_avg losses)), w').
Proof.
  intros h w losses w'.
  assert (Hk : has_metric_keys w) by exact metrics_init_keys.
  assert (Hv : _model_state (obj w) = Some MS_VALID) by reflexivity.
  assert (Hne : MS_VALID <> MS_END) by discriminate.
  destruct (recorded_metrics_are_found h losses ∅ w MS_VALID Hk Hv Hne) as [Hl _].
  repeat (split; [assumption|]). exact Hl.
Defined.

(** X10.  Nothing can be looked up before something was recorded: as long as
    the sub-mappings of the metrics are empty, as they are from the class
    body until the first epoch has ended, [name_to_metric] raises [KeyError]
    for every name other than "current_epoch" and leaves the world alone,
    and a scheduler with such a metric is not stepped: [scheduler_step] ends
    with the same [KeyError] before it calls the scheduler.  For the name
    "current_epoch" the epoch counter is the metric. *)
Theorem unrecorded_metric_raises (H : Host) (name : string) (w : World) :
  (forall g sub, metrics w !! g = Some sub -> sub = ∅) ->
  step_scheduler_metric (obj w) = Some name ->
  if String.eqb name "current_epoch" then
    name_to_metric name w = (Ok (MetricEpoch (current_epoch (obj w))), w) /\
    scheduler_step H w =
      call H (SchedulerStep (Some (MetricEpoch (current_epoch (obj w))))) w
  else
    exists key,
      name_to_metric name w = (Raise (KeyError key), w) /\
      scheduler_step H w = (Raise (KeyError key), w).
Proof.
  intros Hempty Hname.
  destruct (String.eqb name "current_epoch") eqn:Hn.
  - assert (Hm : name_to_metric name w = (Ok (MetricEpoch (current_epoch (obj w))), w)).
    { unfold name_to_metric. by rewrite Hn. }
    split; [exact Hm|]. unfold scheduler_step.
    erewrite run_bind by reflexivity. rewrite Hname.
    by rewrite (run_bind _ _ _ _ _ Hm).
  - destruct (name_to_metric_nothing name w Hn Hempty) as [key Hkey].
    exists key. split; [exact Hkey|]. unfold scheduler_step.
    erewrite run_bind by reflexivity. rewrite Hname.
    unfold bind. by rewrite Hkey.
Qed.

Lemma metrics_init_empty g sub : metrics_init !! g = Some sub -> sub = ∅.
Proof.
  unfold metrics_init. intros Hg.
  repeat (apply lookup_insert_Some in Hg; destruct Hg as [[_ <-] | [_ Hg]]; [done|]).
  by rewrite lookup_empty in Hg.
Qed.

Lemma unrecorded_metric_raises_witness :
  let h := Demo.host false None in
  let w := mkWorld (set_step_scheduler_metric (Some "valid_loss") (obj Demo.fresh))
             metrics_init [] in
  (forall g sub, metrics w !! g = Some sub -> sub = ∅) /\
  step_scheduler_metric (obj w) = Some "valid_loss" /\
  exists key,
    name_to_metric "valid_loss" w = (Raise (KeyError key), w) /\
    scheduler_step h w = (Raise (KeyError key), w).
Proof.
  intros h w.
  assert (He : forall g sub, metrics w !! g = Some sub -> sub = ∅)
    by exact metrics_init_empty.
  assert (Hn : step_scheduler_metric (obj w) = Some "valid_loss") by reflexivity.
  split; [exact He|]. split; [exact Hn|].
  exact (unrecorded_metric_raises h "valid_loss" w He Hn).
Defined.

(** * Checkpoints read back *)

Lemma read_after_raw_save H path w0 w more :
  (save H path true w0).1 = Ok tt ->
  log w = log (save H path true w0).2 ++ more ->
  filter (fun qp => qp.1 = path) (written more) = [] ->
  read_file H (log w) path =
    Some (PWeights (model_state_dict H (log w0 ++ [ModelStateDict]))).
Proof.
  intros Hok Hlog Hmore.
  destruct (save_raw_layout H path w0) as (ext & Hext & Hgood & Hone).
  destruct (Hone Hok) as [p Hp].
  assert (Hpp : PWeights (model_state_dict H (log w0 ++ [ModelStateDict])) = p).
  { apply (Hgood path p). rewrite Hp. by apply list_elem_of_singleton. }
  unfold read_file. rewrite Hlog, Hext, !saved_at_app.
  unfold saved_at at 1. rewrite Hmore. simpl.
  unfold saved_at at 1. rewrite Hp.
  rewrite filter_cons_True by done. rewrite filter_nil. simpl. by rewrite Hpp.
Qed.

Lemma load_hands_over H path wo dev w p :
  read_file H (log w) path = Some p ->
  let out := load H path wo dev w in
  (exists ext, log out.2 = log w ++ ext /\
     (forall v, v ∈ loads ext -> handed_over p wo = Some v) /\
     (out.1 = Ok tt -> exists v, handed_over p wo = Some v /\ loads ext = [v])) /\
  (quiet H -> model (obj w) <> None ->
   (dev = "tpu" -> XLA_AVAILABLE H = true) ->
   out.1 = match handed_over p wo with
           | Some _ => Ok tt
           | None => Raise (KeyError "state_dict")
           end).
Proof.
  intros Hread out. subst out.
  change (wp (load H path wo dev) (fun r w' =>
    (exists ext, log w' = log w ++ ext /\
       (forall v, v ∈ loads ext -> handed_over p wo = Some v) /\
       (r = Ok tt -> exists v, handed_over p wo = Some v /\ loads ext = [v])) /\
    (quiet H -> model (obj w) <> None ->
     (dev = "tpu" -> XLA_AVAILABLE H = true) ->
     r = match handed_over p wo with
         | Some _ => Ok tt
         | None => Raise (KeyError "state_dict")
         end)) w).
  unfold handed_over.
  destruct wo, p as [sd|d];
    try destruct (sd !! "state_dict") as [t|] eqn:Et;
    try destruct (d !! "state_dict") as [en|] eqn:Een.
  all: cbn [fmap option_fmap option_map].
  all: wp_run fail.
  all: split;
    [ ext_here; cbn; split;
      [ intros v Hv; first [ by apply elem_of_nil in Hv
                           | apply list_elem_of_singleton in Hv; by subst ]
      | first [ discriminate | intros _; eexists; done ] ]
    | intros Hq Hm Hx; try done ].
  all: try match goal with
           | E : host_raises _ _ _ = Some _ |- _ => rewrite Hq in E; discriminate E
           end.
  all: try match goal with
       | E : (_ =? "tpu")%string = true |- _ =>
           apply String.eqb_eq in E; rewrite (Hx E) in *; discriminate
       end.
Qed.

(** X11.  Weights saved alone come back alone: after [save] with
    [weights_only=True] has written to a path, and as long as nothing else
    is saved there, [load] with [weights_only=True] hands exactly the saved
    weight mapping to [load_state_dict], and to nothing else; the call
    returns when the host fails no call and the model is set (and XLA is
    there when the device is "tpu"). *)
Theorem weights_round_trip (H : Host) (path dev : string) (w0 w : World)
    (more : list Event) :
  (save H path true w0).1 = Ok tt ->
  log w = log (save H path true w0).2 ++ more ->
  filter (fun qp => qp.1 = path) (written more) = [] ->
  let out := load H path true dev w in
  let sd := model_state_dict H (log w0 ++ [ModelStateDict]) in
  (exists ext, log out.2 = log w ++ ext /\
     (forall v, v ∈ loads ext -> v = LWeights sd) /\
     (out.1 = Ok tt -> loads ext = [LWeights sd])) /\
  (quiet H -> model (obj w) <> None ->
   (dev = "tpu" -> XLA_AVAILABLE H = true) -> out.1 = Ok tt).
Proof.
  intros Hok Hlog Hmore out sd.
  pose proof (read_after_raw_save H path w0 w more Hok Hlog Hmore) as Hread.
  destruct (load_hands_over H path true dev w _ Hread) as [(ext & Hext & Hall & Hone) Hret].
  split; [|exact Hret].
  exists ext. split; [exact Hext|]. split.
  - intros v Hv. specialize (Hall v Hv). by injection Hall.
  - intros Hr. destruct (Hone Hr) as (v & Hv & ->). by injection Hv as <-.
Qed.

Lemma weights_round_trip_witness :
  let h := Demo.host false None in
  let w1 := (save h "weights.bin" true Demo.fresh).2 in
  let out := load h "weights.bin" true "cpu" w1 in
  (save h "weights.bin" true Demo.fresh).1 = Ok tt /\
  log w1 = log w1 ++ [] /\
  filter (fun qp => qp.1 = "weights.bin") (written []) = [] /\
  out.1 = Ok tt.
Proof.
  intros h w1 out.
  assert (Hs : (save h "weights.bin" true Demo.fresh).1 = Ok tt) by reflexivity.
  assert (Hl : log w1 = log w1 ++ []) by reflexivity.
  assert (Hf : filter (fun qp => qp.1 = "weights.bin") (written []) = []) by reflexivity.
  destruct (weights_round_trip h "weights.bin" "cpu" Demo.fresh w1 [] Hs Hl Hf) as [_ Hret].
  assert (Hok : out.1 = Ok tt).
  { apply Hret; [intros l e; reflexivity | discriminate | discriminate]. }
  split; [exact Hs|]. split; [exact Hl|]. split; [exact Hf | exact Hok].
Defined.

(** X12.  The flag of [load] has to be the flag of [save]; the code does not
    check it.  A file written with [weights_only=True] and read with
    [weights_only=False] is indexed with "state_dict": unless the model has
    a parameter of that name, [load] ends in [KeyError] and
    [load_state_dict] is never called (the device of the object has been
    set by then).  A file written with [weights_only=False] and read with
    [weights_only=True] is handed to [load_state_dict] as it is: the whole
    checkpoint dictionary, not the weights. *)
Theorem load_with_the_other_flag (H : Host) (path dev : string) (w0 w : World)
    (more : list Event) (raw : bool) :
  (save H path raw w0).1 = Ok tt ->
  log w = log (save H path raw w0).2 ++ more ->
  filter (fun qp => qp.1 = path) (written more) = [] ->
  quiet H -> model (obj w) <> None ->
  (dev = "tpu" -> XLA_AVAILABLE H = true) ->
  let out := load H path (negb raw) dev w in
  let sd := model_state_dict H (log w0 ++ [ModelStateDict]) in
  exists ext, log out.2 = log w ++ ext /\
    if raw then
      sd !! "state_dict" = None ->
      out.1 = Raise (KeyError "state_dict") /\ loads ext = [] /\
      device (obj out.2) =
        Some (if String.eqb dev "tpu" then XlaDevice else DeviceName dev)
    else
      out.1 = Ok tt /\
      exists d, is_checkpoint_of H w0 (PRecord d) /\ loads ext = [LRecord d].
Proof.
  intros Hok Hlog Hmore Hq Hm Hx out sd. destruct raw.
  - pose proof (read_after_raw_save H path w0 w more Hok Hlog Hmore) as Hread.
    destruct (load_hands_over H path false dev w _ Hread)
      as [(ext & Hext & Hall & Hone) Hret].
    exists ext. split; [exact Hext|]. intros Hnone.
    specialize (Hret Hq Hm Hx). cbn [handed_over] in *. fold sd in Hall, Hret.
    rewrite Hnone in *. cbn in Hret, Hall.
    split; [exact Hret|]. split.
    + destruct (loads ext) as [|v vs] eqn:El; [done|].
      by specialize (Hall v (list_elem_of_here _ _)).
    + subst out.
      change (wp (load H path false dev) (fun _ w' =>
        device (obj w') =
          Some (if String.eqb dev "tpu" then XlaDevice else DeviceName dev)) w).
      assert (Hr : read_file H (log w) path = Some (PWeights sd)) by exact Hread.
      clear Hread Hall Hone Hret Hok Hlog Hmore Hext.
      wp_run ltac:(exact Hq); try done.
      all: match goal with
           | E : (_ =? "tpu")%string = true |- _ =>
               apply String.eqb_eq in E; rewrite (Hx E) in *; discriminate
           end.
  - destruct (read_after_save H path w0 w more Hok Hlog Hmore)
      as (p & Hread & d & -> & Hd).
    destruct (load_hands_over H path true dev w _ Hread)
      as [(ext & Hext & Hall & Hone) Hret].
    exists ext. split; [exact Hext|].
    specialize (Hret Hq Hm Hx). cbn [handed_over negb] in *.
    split; [exact Hret|]. exists d. split.
    + exists d. split; [done | exact Hd].
    + destruct (Hone Hret) as (v & Hv & ->). by injection Hv as <-.
Qed.

Lemma load_with_the_other_flag_witness :
  let h := Demo.host false None in
  let w1 := (save h "model.bin" true Demo.fresh).2 in
  let out := load h "model.bin" false "cpu" w1 in
  (save h "model.bin" true Demo.fresh).1 = Ok tt /\
  log w1 = log w1 ++ [] /\
  filter (fun qp => qp.1 = "model.bin") (written []) = [] /\
  quiet h /\ model (obj w1) <> None /\
  ("cpu" = "tpu" -> XLA_AVAILABLE h = true) /\
  out.1 = Raise (KeyError "state_dict").
Proof.
  intros h w1 out.
  assert (Hs : (save h "model.bin" true Demo.fresh).1 = Ok tt) by reflexivity.
  assert (Hl : log w1 = log w1 ++ []) by reflexivity.
  assert (Hf : filter (fun qp => qp.1 = "model.bin") (written []) = []) by reflexivity.
  assert (Hq : quiet h) by (intros l e; reflexivity).
  assert (Hm : model (obj w1) <> None) by discriminate.
  assert (Hx : "cpu" = "tpu" -> XLA_AVAILABLE h = true) by discriminate.
  destruct (load_with_the_other_flag h "model.bin" "cpu" Demo.fresh w1 [] true
              Hs Hl Hf Hq Hm Hx) as (ext & _ & Hraw).
  destruct Hraw as (Hr & _); [reflexivity|].
  repeat (split; [assumption|]). exact Hr.
Defined.

(** * Whole epochs *)

Lemma set_train_state_on_step H v w :
  quiet H -> callbacks_skip_steps H -> is_step_state v = true ->
  set_train_state H v w =
    (Ok tt, mkWorld (set__train_state (Some v) (obj w)) (metrics w)
              (log w ++ train_state_events (obj w) v)).
Proof.
  intros Hq Hcb Hv.
  unfold set_train_state, train_state_events, bind, emit, assign, self, call, ret. simpl.
  destruct (_callback_runner (obj w)); simpl.
  - rewrite Hq. simpl. rewrite (Hcb v _ Hv). by rewrite <- app_assoc.
  - done.
Qed.

Lemma step_ready_indep H w m l :
  step_ready H w ->
  model m = model (obj w) -> local_rank m = local_rank (obj w) ->
  device_count m = device_count (obj w) -> fp16 m = fp16 (obj w) ->
  scaler m = scaler (obj w) -> optimizer m = optimizer (obj w) ->
  using_tpu m = using_tpu (obj w) -> accumulation_steps m = accumulation_steps (obj w) ->
  step_ready H (mkWorld m (metrics w) l).
Proof.
  unfold step_ready. cbn [obj]. intros Hs -> -> -> -> -> -> -> ->. exact Hs.
Qed.

Lemma train_batch_exact H ld i data loc w :
  quiet H -> callbacks_skip_steps H ->
  step_ready H w -> step_scheduler_metric (obj w) = None ->
  locals_ok i loc ->
  exists ext,
    train_batch H ld i data loc w =
      (Ok (mkLocals
             (AverageMeter_update (losses loc)
                (ItemTimes (LossDiv (reduced (obj w) (LossOf data))
                              (accumulation_steps (obj w)))
                   (accumulation_steps (obj w)))
                (batch_size_of ld))
             (Some ∅) (Some ∅)),
       mkWorld (after_train_batches 1 i (obj w)) (metrics w) (log w ++ ext)).
Proof.
  intros Hq Hcb Hs Hm Hloc. unfold train_batch.
  erewrite run_bind by reflexivity.
  rewrite (run_bind _ _ _ _ _ (set_train_state_on_step H TRAIN_STEP_START _ Hq Hcb eq_refl)).
  set (w1 := mkWorld _ _ _).
  assert (Hs1 : step_ready H w1) by (by apply step_ready_indep).
  assert (Hm1 : step_scheduler_metric (obj w1) = None) by exact Hm.
  destruct (train_one_step_returns H data w1 Hq Hs1 Hm1) as (ext1 & Hrun & _).
  rewrite (run_bind _ _ _ _ _ Hrun). cbn beta iota.
  rewrite (run_bind _ _ _ _ _ (set_train_state_on_step H TRAIN_STEP_END _ Hq Hcb eq_refl)).
  erewrite run_bind by reflexivity.
  rewrite update_meters_empty by exact Hloc.
  erewrite run_bind by reflexivity.
  erewrite run_bind by reflexivity.
  erewrite run_bind by reflexivity.
  erewrite run_bind by reflexivity.
  subst w1. obj_simpl. unfold after_train_batches.
  replace (i + Z.of_nat 1 - 1) with i by lia.
  change (Z.of_nat 1) with 1.
  destruct (using_tpu (obj w)) eqn:Et; cbn [negb].
  - erewrite run_bind by reflexivity.
    erewrite run_bind by reflexivity. cbn [using_tpu obj set_current_train_step
      set__train_state set_batch_index]. rewrite Et.
    erewrite run_bind by (erewrite run_bind by reflexivity; by apply run_call).
    unfold ret, logged. cbn [obj metrics log]. rewrite <- !app_assoc.
    eexists. reflexivity.
  - erewrite run_bind by (by apply run_call).
    erewrite run_bind by reflexivity. cbn [using_tpu obj set_current_train_step
      set__train_state set_batch_index logged]. rewrite Et.
    erewrite run_bind by reflexivity.
    unfold ret, logged. cbn [obj metrics log]. rewrite <- !app_assoc.
    eexists. reflexivity.
Qed.

Lemma after_train_batches_more n i m :
  after_train_batches (S n) (i + 1) (after_train_batches 1 i m) =
  after_train_batches (S (S n)) i m.
Proof.
  unfold after_train_batches. obj_simpl.
  replace (current_train_step m + Z.of_nat 1 + Z.of_nat (S n))
    with (current_train_step m + Z.of_nat (S (S n))) by lia.
  replace (i + 1 + Z.of_nat (S n) - 1) with (i + Z.of_nat (S (S n)) - 1) by lia.
  reflexivity.
Qed.

Lemma train_batches_exact H ld bs : forall i loc w,
  quiet H -> callbacks_skip_steps H ->
  step_ready H w -> step_scheduler_metric (obj w) = None ->
  locals_ok i loc ->
  let samples :=
    (fun data => (ItemTimes (LossDiv (reduced (obj w) (LossOf data))
                               (accumulation_steps (obj w)))
                    (accumulation_steps (obj w)),
                  batch_size_of ld)) <$> bs in
  exists ext,
    train_batches H ld i bs loc w =
      (Ok (match bs with
           | [] => loc
           | _ => mkLocals (mkMeter (am_updates (losses loc) ++ samples)) (Some ∅) (Some ∅)
           end),
       mkWorld (match bs with
                | [] => obj w
                | _ => after_train_batches (length bs) i (obj w)
                end)
         (metrics w) (log w ++ ext)).
Proof.
  induction bs as [|b rest IH]; intros i loc w Hq Hcb Hs Hm Hloc samples.
  - exists []. simpl. unfold ret. rewrite app_nil_r. by destruct w.
  - destruct (train_batch_exact H ld i b loc w Hq Hcb Hs Hm Hloc) as (ext1 & Hrun1).
    simpl train_batches. rewrite (run_bind _ _ _ _ _ Hrun1).
    set (w1 := mkWorld _ _ _). set (loc1 := mkLocals _ _ _).
    assert (Hs1 : step_ready H w1) by (by apply step_ready_indep).
    assert (Hm1 : step_scheduler_metric (obj w1) = None) by exact Hm.
    assert (Hloc1 : locals_ok (i + 1) loc1) by (by right).
    destruct (IH (i + 1) loc1 w1 Hq Hcb Hs1 Hm1 Hloc1) as (ext2 & Hrun2).
    rewrite Hrun2. exists (ext1 ++ ext2).
    subst samples. cbn [fmap list_fmap length].
    destruct rest as [|b2 rest].
    + subst w1 loc1. cbn [obj metrics log fmap list_fmap]. rewrite app_assoc.
      unfold AverageMeter_update. cbn [losses am_updates]. reflexivity.
    + subst w1 loc1. cbn [obj metrics log length]. rewrite app_assoc.
      rewrite after_train_batches_more.
      unfold AverageMeter_update. cbn [losses am_updates].
      rewrite <- app_assoc. reflexivity.
Qed.

Lemma close_and_record_exact H v ls w :
  quiet H -> has_metric_keys w ->
  _model_state (obj w) = Some v -> v <> MS_END ->
  exists sub ext,
    metrics w !! ModelState_value v = Some sub /\
    close_and_record H (mkLocals ls (Some ∅) (Some ∅)) w =
      (Ok (AverageMeter_avg ls),
       mkWorld (obj w)
         (<[ModelState_value v := <["loss" := AverageMeter_avg ls]> sub]> (metrics w))
         (log w ++ ext)).
Proof.
  intros Hq Hk Hv Hne. unfold close_and_record. cbn [monitor losses].
  erewrite run_bind by reflexivity.
  destruct (using_tpu (obj w)) eqn:Et; cbn [negb].
  - erewrite run_bind by reflexivity.
    destruct (update_metrics_writes ls ∅ w v Hk Hv Hne) as (sub & Hsub & Hrun).
    rewrite (run_bind _ _ _ _ _ Hrun). exists sub, [].
    split; [exact Hsub|]. unfold ret. cbn [log]. by rewrite app_nil_r, (left_id_L ∅ (∪)).
  - erewrite run_bind by (by apply run_call).
    destruct (update_metrics_writes ls ∅ (logged w TqdmClose) v Hk Hv Hne)
      as (sub & Hsub & Hrun).
    rewrite (run_bind _ _ _ _ _ Hrun). exists sub, [TqdmClose].
    split; [exact Hsub|]. unfold ret, logged. cbn [log obj metrics].
    by rewrite (left_id_L ∅ (∪)).
Qed.

(** X13.  A train epoch over a loader that is not empty, on an object that
    is set up ([epoch_ready]), with a host that fails no call and callbacks
    that leave the object alone on step events.  [train_one_epoch] returns
    the running average of the losses of the steps, each multiplied by
    [accumulation_steps] again and weighted by the batch size of the loader.
    On the object it has set the model-lifecycle state to train, the training
    state to that of the last step end, [batch_index] to the index of the last
    batch, and it has advanced [current_train_step] by the number of batches;
    every other attribute is what it was.  In the metrics it has written the
    returned average under "loss" of "train", and nothing else. *)
Theorem train_one_epoch_records (H : Host) (ld : Loader) (w : World) :
  quiet H -> callbacks_skip_steps H -> epoch_ready H w ->
  loader_batches H ld <> [] ->
  let n := length (loader_batches H ld) in
  let a := AvgOf (train_samples H (obj w) ld) in
  exists sub ext,
    metrics w !! "train" = Some sub /\
    train_one_epoch H (Some ld) w =
      (Ok a,
       mkWorld (after_train_batches n 0 (set__model_state (Some MS_TRAIN) (obj w)))
         (<["train" := <["loss" := a]> sub]> (metrics w))
         (log w ++ ext)).
Proof.
  intros Hq Hcb (Hs & Hm & Hsm & Hk) Hne n a.
  unfold train_one_epoch.
  match goal with
  | |- context [bind (open_loader _ _) ?k] => set (K := k)
  end.
  (* the batches and the bookkeeping after them *)
  assert (HK : forall l, exists sub ext,
    metrics w !! "train" = Some sub /\
    K (loader_batches H ld)
      (mkWorld (set__model_state (Some MS_TRAIN) (obj w)) (metrics w) l) =
    (Ok a,
     mkWorld (after_train_batches n 0 (set__model_state (Some MS_TRAIN) (obj w)))
       (<["train" := <["loss" := a]> sub]> (metrics w))
       (l ++ ext))).
  { intros l. subst K. cbn beta.
    set (w1 := mkWorld (set__model_state (Some MS_TRAIN) (obj w)) (metrics w) l).
    assert (Hs1 : step_ready H w1) by (by apply step_ready_indep).
    destruct (train_batches_exact H (Some ld) (loader_batches H ld) 0
                (mkLocals AverageMeter_new None None) w1 Hq Hcb Hs1 Hm (or_introl eq_refl))
      as (ext1 & Hrun1).
    rewrite (run_bind _ _ _ _ _ Hrun1).
    subst n a. unfold train_samples.
    destruct (loader_batches H ld) as [|b rest] eqn:Ebs; [done|].
    set (w2 := mkWorld _ _ _).
    destruct (close_and_record_exact H MS_TRAIN
                (mkMeter (am_updates (losses (mkLocals AverageMeter_new None None)) ++
                   ((fun data => (ItemTimes (LossDiv (reduced (obj w1) (LossOf data))
                                               (accumulation_steps (obj w1)))
                                    (accumulation_steps (obj w1)),
                                  batch_size_of (Some ld))) <$> b :: rest)))
                w2 Hq Hk eq_refl ltac:(discriminate))
      as (sub & ext2 & Hsub & Hrun2).
    exists sub, (ext1 ++ ext2). split; [exact Hsub|].
    rewrite Hrun2. subst w2 w1. cbn [obj metrics log]. by rewrite app_assoc. }
  clearbody K.
  (* up to the loop *)
  destruct (HK []) as (sub & _ & Hsub & _). exists sub.
  match goal with
  | |- context [@eq (Res Avg * World) (?m w)] =>
      cut (wp m (fun r w' => exists ext, r = Ok a /\
             w' = mkWorld (after_train_batches n 0 (set__model_state (Some MS_TRAIN) (obj w)))
                    (<["train" := <["loss" := a]> sub]> (metrics w)) (log w ++ ext)) w)
  end.
  { unfold wp. intros (ext & Hr & Hw). exists ext. split; [exact Hsub|].
    by apply surjective_pairing_eq. }
  destruct Hs as (Hmod & _ & _ & Ho & _ & _).
  wp_run ltac:(exact Hq).
  all: try done.
  all: try (exfalso; apply Hsm; [|done]; intros Hr;
            match goal with E : negb _ = true |- _ => rewrite Hr in E; discriminate E end).
  all: match goal with
       | |- wp _ _ ?wa => destruct (HK (log wa)) as (sub' & ext & Hsub' & Hrun)
       end;
       unfold wp; cbn [log] in Hrun; rewrite Hrun; cbn [fst snd];
       assert (sub' = sub) by congruence; subst sub';
       eexists; (split; [reflexivity|]); rewrite <- ?app_assoc; reflexivity.
Qed.

Lemma valid_batch_exact H ld i data loc w :
  quiet H -> callbacks_skip_steps H ->
  model (obj w) <> None ->
  (local_rank (obj w) = -1 -> device_count (obj w) <> None) ->
  locals_ok i loc ->
  exists size ext,
    valid_batch H (Some ld) i data loc w =
      (Ok (mkLocals
             (AverageMeter_update (losses loc) (Item (valid_loss (obj w) data size))
                (ld_batch_size ld))
             (Some ∅) (Some ∅)),
       mkWorld (after_valid_batches 1 (obj w)) (metrics w) (log w ++ ext)).
Proof.
  intros Hq Hcb Hmod Hdc Hloc. unfold valid_batch.
  rewrite (run_bind _ _ _ _ _ (set_train_state_on_step H VALID_STEP_START _ Hq Hcb eq_refl)).
  set (w1 := mkWorld _ _ _).
  rewrite (run_bind _ _ _ _ _ (validate_one_step_returns H data w1 Hq Hmod Hdc)).
  cbn beta iota. erewrite run_bind by reflexivity.
  subst w1. obj_simpl. unfold valid_loss, after_valid_batches.
  change (reduced (set__train_state (Some VALID_STEP_START) (obj w)))
    with (reduced (obj w)).
  destruct (local_rank (obj w) =? -1) eqn:Er; cbn [negb].
  - erewrite run_bind by reflexivity.
    rewrite (run_bind _ _ _ _ _ (set_train_state_on_step H VALID_STEP_END _ Hq Hcb eq_refl)).
    rewrite update_meters_empty by exact Hloc.
    erewrite run_bind by reflexivity.
    erewrite run_bind by reflexivity. obj_simpl.
    exists 0.
    destruct (using_tpu (obj w)) eqn:Et; cbn [negb].
    + erewrite run_bind by reflexivity.
      erewrite run_bind by reflexivity.
      erewrite run_bind by reflexivity.
      unfold ret. cbn [obj metrics log batch_size_of]. rewrite <- !app_assoc.
      eexists. reflexivity.
    + erewrite run_bind by (by apply run_call).
      erewrite run_bind by reflexivity.
      erewrite run_bind by reflexivity.
      unfold ret, logged. cbn [obj metrics log batch_size_of]. rewrite <- !app_assoc.
      eexists. reflexivity.
  - erewrite run_bind
      by (erewrite run_bind by (by apply run_call);
          erewrite run_bind by (by apply run_call);
          erewrite run_bind by reflexivity;
          erewrite run_bind by (by apply run_call);
          reflexivity).
    rewrite (run_bind _ _ _ _ _ (set_train_state_on_step H VALID_STEP_END _ Hq Hcb eq_refl)).
    rewrite update_meters_empty by exact Hloc.
    erewrite run_bind by reflexivity.
    erewrite run_bind by reflexivity. unfold logged. obj_simpl.
    eexists.
    destruct (using_tpu (obj w)) eqn:Et; cbn [negb].
    + erewrite run_bind by reflexivity.
      erewrite run_bind by reflexivity.
      erewrite run_bind by reflexivity.
      unfold ret, logged. cbn [obj metrics log batch_size_of]. rewrite <- !app_assoc.
      eexists. reflexivity.
    + erewrite run_bind by (by apply run_call).
      erewrite run_bind by reflexivity.
      erewrite run_bind by reflexivity.
      unfold ret, logged. cbn [obj metrics log batch_size_of]. rewrite <- !app_assoc.
      eexists. reflexivity.
Qed.

Lemma after_valid_batches_more n m :
  after_valid_batches (S n) (after_valid_batches 1 m) = after_valid_batches (S (S n)) m.
Proof.
  unfold after_valid_batches. obj_simpl.
  replace (current_valid_step m + Z.of_nat 1 + Z.of_nat (S n))
    with (current_valid_step m + Z.of_nat (S (S n))) by lia.
  reflexivity.
Qed.

Lemma valid_batches_exact H ld bs : forall i loc w,
  quiet H -> callbacks_skip_steps H ->
  model (obj w) <> None ->
  (local_rank (obj w) = -1 -> device_count (obj w) <> None) ->
  locals_ok i loc ->
  exists sizes ext,
    length sizes = length bs /\
    valid_batches H (Some ld) i bs loc w =
      (Ok (match bs with
           | [] => loc
           | _ => mkLocals (mkMeter (am_updates (losses loc) ++
                                       valid_samples (obj w) ld bs sizes))
                    (Some ∅) (Some ∅)
           end),
       mkWorld (match bs with
                | [] => obj w
                | _ => after_valid_batches (length bs) (obj w)
                end)
         (metrics w) (log w ++ ext)).
Proof.
  induction bs as [|b rest IH]; intros i loc w Hq Hcb Hmod Hdc Hloc.
  - exists [], []. split; [done|]. simpl. unfold ret. rewrite app_nil_r. by destruct w.
  - destruct (valid_batch_exact H ld i b loc w Hq Hcb Hmod Hdc Hloc)
      as (size & ext1 & Hrun1).
    simpl valid_batches. rewrite (run_bind _ _ _ _ _ Hrun1).
    set (w1 := mkWorld _ _ _). set (loc1 := mkLocals _ _ _).
    assert (Hloc1 : locals_ok (i + 1) loc1) by (by right).
    destruct (IH (i + 1) loc1 w1 Hq Hcb Hmod Hdc Hloc1) as (sizes & ext2 & Hlen & Hrun2).
    rewrite Hrun2. exists (size :: sizes), (ext1 ++ ext2).
    split; [simpl; by rewrite Hlen|].
    unfold valid_samples. cbn [zip_with length].
    destruct rest as [|b2 rest].
    + subst w1 loc1. cbn [obj metrics log zip_with]. rewrite app_assoc.
      unfold AverageMeter_update. cbn [losses am_updates].
      by destruct sizes.
    + subst w1 loc1. cbn [obj metrics log length]. rewrite app_assoc.
      rewrite after_valid_batches_more.
      unfold AverageMeter_update. cbn [losses am_updates].
      rewrite <- app_assoc. reflexivity.
Qed.

(** X14.  A validate epoch over a loader that is not empty, with a host that
    fails no call and callbacks that leave the object alone on step events.
    [validate_one_epoch] returns the running average of the losses of the
    steps (gathered over the processes when the run is distributed),
    weighted by the batch size of the loader.  On the object it has set the
    model-lifecycle state to valid and the training state to that of the last
    step end, and it has advanced [current_valid_step] by the number of
    batches; every other attribute is what it was.  In the metrics it has
    written the returned average under "loss" of "valid", and nothing
    else. *)
Theorem validate_one_epoch_records (H : Host) (ld : Loader) (w : World) :
  quiet H -> callbacks_skip_steps H ->
  model (obj w) <> None ->
  (local_rank (obj w) = -1 -> device_count (obj w) <> None) ->
  has_metric_keys w ->
  loader_batches H ld <> [] ->
  let n := length (loader_batches H ld) in
  exists sizes sub ext,
    length sizes = n /\
    metrics w !! "valid" = Some sub /\
    let a := AvgOf (valid_samples (obj w) ld (loader_batches H ld) sizes) in
    validate_one_epoch H (Some ld) w =
      (Ok a,
       mkWorld (after_valid_batches n (set__model_state (Some MS_VALID) (obj w)))
         (<["valid" := <["loss" := a]> sub]> (metrics w))
         (log w ++ ext)).
Proof.
  intros Hq Hcb Hmod Hdc Hk Hne n.
  unfold validate_one_epoch.
  match goal with
  | |- context [bind (open_loader _ _) ?k] => set (K := k)
  end.
  assert (HK : forall l, exists sizes sub ext,
    length sizes = n /\
    metrics w !! "valid" = Some sub /\
    K (loader_batches H ld)
      (mkWorld (set__model_state (Some MS_VALID) (obj w)) (metrics w) l) =
    (Ok (AvgOf (valid_samples (obj w) ld (loader_batches H ld) sizes)),
     mkWorld (after_valid_batches n (set__model_state (Some MS_VALID) (obj w)))
       (<["valid" := <["loss" := AvgOf (valid_samples (obj w) ld (loader_batches H ld) sizes)]>
                       sub]> (metrics w))
       (l ++ ext))).
  { intros l. subst K. cbn beta.
    set (w1 := mkWorld (set__model_state (Some MS_VALID) (obj w)) (metrics w) l).
    destruct (valid_batches_exact H ld (loader_batches H ld) 0
                (mkLocals AverageMeter_new None None) w1 Hq Hcb Hmod Hdc (or_introl eq_refl))
      as (sizes & ext1 & Hlen & Hrun1).
    rewrite (run_bind _ _ _ _ _ Hrun1).
    subst n.
    destruct (loader_batches H ld) as [|b rest] eqn:Ebs; [done|].
    set (w2 := mkWorld _ _ _).
    destruct (close_and_record_exact H MS_VALID
                (mkMeter (am_updates (losses (mkLocals AverageMeter_new None None)) ++
                            valid_samples (obj w1) ld (b :: rest) sizes))
                w2 Hq Hk eq_refl ltac:(discriminate))
      as (sub & ext2 & Hsub & Hrun2).
    exists sizes, sub, (ext1 ++ ext2). split; [exact Hlen|]. split; [exact Hsub|].
    rewrite Hrun2. subst w2 w1. cbn [obj metrics log]. by rewrite app_assoc. }
  clearbody K.
  match goal with
  | |- context [@eq (Res Avg * World) (?m w)] =>
      cut (wp m (fun r w' => exists sizes sub ext,
             length sizes = n /\
             metrics w !! "valid" = Some sub /\
             r = Ok (AvgOf (valid_samples (obj w) ld (loader_batches H ld) sizes)) /\
             w' = mkWorld (after_valid_batches n (set__model_state (Some MS_VALID) (obj w)))
                    (<["valid" :=
                        <["loss" := AvgOf (valid_samples (obj w) ld (loader_batches H ld)
                                             sizes)]> sub]> (metrics w))
                    (log w ++ ext)) w)
  end.
  { unfold wp. intros (sizes & sub & ext & Hlen & Hsub & Hr & Hw).
    exists sizes, sub, ext. split; [exact Hlen|]. split; [exact Hsub|].
    by apply surjective_pairing_eq. }
  wp_run ltac:(exact Hq).
  all: try done.
  all: match goal with
       | |- wp _ _ ?wa => destruct (HK (log wa)) as (sizes & sub & ext & Hlen & Hsub & Hrun)
       end;
       unfold wp; cbn [log] in Hrun; rewrite Hrun; cbn [fst snd];
       exists sizes, sub; eexists; (split; [exact Hlen|]); (split; [exact Hsub|]);
       (split; [reflexivity|]); rewrite <- ?app_assoc; reflexivity.
Qed.

Lemma train_one_epoch_records_witness :
  let h := Demo.host false None in
  let ld := Demo.loader 3 in
  let w := Demo.ready 2 in
  quiet h /\ callbacks_skip_steps h /\ epoch_ready h w /\ loader_batches h ld <> [] /\
  exists sub ext,
    metrics w !! "train" = Some sub /\
    train_one_epoch h (Some ld) w =
      (Ok (AvgOf (train_samples h (obj w) ld)),
       mkWorld (after_train_batches 3 0 (set__model_state (Some MS_TRAIN) (obj w)))
         (<["train" := <["loss" := AvgOf (train_samples h (obj w) ld)]> sub]> (metrics w))
         (log w ++ ext)).
Proof.
  intros h ld w.
  assert (Hq : quiet h) by (intros l e; reflexivity).
  assert (Hcb : callbacks_skip_steps h) by (intros v m _; reflexivity).
  assert (Hr : epoch_ready h w).
  { unfold epoch_ready, step_ready.
    split.
    { split; [discriminate|]. split; [intros _; discriminate|].
      split; [discriminate|]. split; [discriminate|].
      split; [discriminate | discriminate]. }
    split; [reflexivity|]. split; [intros Hn; by destruct Hn|].
    exact metrics_init_keys. }
  assert (Hne : loader_batches h ld <> []) by discriminate.
  split; [exact Hq|]. split; [exact Hcb|]. split; [exact Hr|]. split; [exact Hne|].
  exact (train_one_epoch_records h ld w Hq Hcb Hr Hne).
Defined.

Lemma validate_one_epoch_records_witness :
  let h := Demo.host false None in
  let ld := Demo.loader 2 in
  let w := Demo.ready 1 in
  quiet h /\ callbacks_skip_steps h /\ model (obj w) <> None /\
  (local_rank (obj w) = -1 -> device_count (obj w) <> None) /\
  has_metric_keys w /\ loader_batches h ld <> [] /\
  exists sizes sub ext,
    length sizes = 2%nat /\
    metrics w !! "valid" = Some sub /\
    validate_one_epoch h (Some ld) w =
      (Ok (AvgOf (valid_samples (obj w) ld (loader_batches h ld) sizes)),
       mkWorld (after_valid_batches 2 (set__model_state (Some MS_VALID) (obj w)))
         (<["valid" := <["loss" := AvgOf (valid_samples (obj w) ld (loader_batches h ld)
                                            sizes)]> sub]> (metrics w))
         (log w ++ ext)).
Proof.
  intros h ld w.
  assert (Hq : quiet h) by (intros l e; reflexivity).
  assert (Hcb : callbacks_skip_steps h) by (intros v m _; reflexivity).
  assert (Hm : model (obj w) <> None) by discriminate.
  assert (Hd : local_rank (obj w) = -1 -> device_count (obj w) <> None)
    by (intros _; discriminate).
  assert (Hk : has_metric_keys w) by exact metrics_init_keys.
  assert (Hne : loader_batches h ld <> []) by discriminate.
  split; [exact Hq|]. split; [exact Hcb|]. split; [exact Hm|]. split; [exact Hd|].
  split; [exact Hk|]. split; [exact Hne|].
  exact (validate_one_epoch_records h ld w Hq Hcb Hm Hd Hk Hne).
Defined.

(** * Where the model ends up *)

Lemma placed_log net d rank dc :
  log_indep (fun w => Placed net d rank w /\ device_count (obj w) = dc).
Proof. intros o ms l l' Hw. exact Hw. Qed.

Lemma always_given {A} (P : World -> Prop) (G : Prop) L (m : M A) Q :
  (G -> always P L m Q) -> always (fun w => P w /\ G) L m Q.
Proof. intros Hm w [Hw HG]. by apply Hm. Qed.

Lemma always_exists {A B} (P : B -> World -> Prop) L (m : M A) Q :
  (forall b, always (P b) L m Q) -> always (fun w => exists b, P b w) L m Q.
Proof. intros Hm w [b Hw]. by apply (Hm b). Qed.

Section Placement.

Variable H : Host.
Hypothesis Hkeep : callbacks_keep_placement H.

Ltac placed_side :=
  unfold Placed, anywhere, unconstrained in *; simpl in *; intros;
  try match goal with
      | |- context [callbacks_effect H ?v ?m] =>
          let E1 := fresh in let E2 := fresh in let E3 := fresh in let E4 := fresh in
          destruct (Hkeep v m) as (E1 & E2 & E3 & E4); rewrite ?E1, ?E2, ?E3, ?E4
      end;
  repeat match goal with Hx : _ /\ _ |- _ => destruct Hx end;
  try solve [ done | congruence | (repeat split; first [done | congruence]) ].

Ltac placed_walk net d rank dc known :=
  inv_walk (placed_log net d rank dc) unconstrained_closed placed_side known.

Lemma placed_train_batches net d rank dc ld bs : forall i loc,
  inv (fun w => Placed net d rank w /\ device_count (obj w) = dc) unconstrained
    (train_batches H ld i bs loc) (fun _ => True).
Proof.
  induction bs as [|b bs IH]; intros i loc; simpl.
  - placed_walk net d rank dc fail.
  - placed_walk net d rank dc ltac:(apply IH).
Qed.

Lemma placed_valid_batches net d rank dc ld bs : forall i loc,
  inv (fun w => Placed net d rank w /\ device_count (obj w) = dc) unconstrained
    (valid_batches H ld i bs loc) (fun _ => True).
Proof.
  induction bs as [|b bs IH]; intros i loc; simpl.
  - placed_walk net d rank dc fail.
  - placed_walk net d rank dc ltac:(apply IH).
Qed.

Lemma placed_fit_epochs net d rank dc n :
  inv (fun w => Placed net d rank w /\ device_count (obj w) = dc) unconstrained
    (fit_epochs H n) (fun _ => True).
Proof.
  induction n as [|n IH]; simpl.
  - placed_walk net d rank dc fail.
  - placed_walk net d rank dc
      ltac:(first [apply IH | apply placed_train_batches | apply placed_valid_batches]).
Qed.

Local Abbreviation Ranked net rank :=
  (fun w : World => model (obj w) = net /\ local_rank (obj w) = rank).

Lemma ranked_placed_log net rank : log_indep (Ranked net rank).
Proof. intros o ms l l' Hw. exact Hw. Qed.

Lemma model_is_log net : log_indep (fun w => model (obj w) = net).
Proof. intros o ms l l' Hw. exact Hw. Qed.

Lemma placed_only_log net d rank : log_indep (Placed net d rank).
Proof. intros o ms l l' Hw. exact Hw. Qed.

Lemma placed_select_device net rank args :
  py_int (default "-1" (LOCAL_RANK H)) = Some rank ->
  always (fun w => model (obj w) = net) unconstrained (select_device H args)
    (fun a w => Placed net (Some (fit_device args rank)) rank w /\ a = chosen args).
Proof.
  intros Hrank. unfold select_device, fit_device, chosen. rewrite Hrank.
  eapply (always_seq _ _ unconstrained_closed);
    [inv_walk (model_is_log net) unconstrained_closed placed_side fail|].
  intros r ->.
  apply (always_switch _ _ (Ranked net rank)); [placed_side|].
  destruct (String.eqb (args_device args) "tpu") eqn:Etpu.
  - destruct (XLA_AVAILABLE H); cbn [negb].
    + eapply (always_seq _ _ unconstrained_closed);
        [inv_walk (ranked_placed_log net rank) unconstrained_closed placed_side fail|].
      intros _ _. cbn zeta.
      eapply (always_seq _ _ unconstrained_closed);
        [inv_walk (ranked_placed_log net rank) unconstrained_closed placed_side fail|].
      intros _ _.
      apply (always_switch _ _ (Placed net (Some XlaDevice) rank)); [placed_side|].
      inv_walk (placed_only_log net (Some XlaDevice) rank) unconstrained_closed
        placed_side fail.
    + inv_walk (ranked_placed_log net rank) unconstrained_closed placed_side fail.
  - destruct (String.prefix "cuda" (args_device args)) eqn:Ecuda.
    + apply (always_self_bind _ _). intros w [_ ->].
      destruct (rank =? -1) eqn:Er.
      * eapply always_bind with
          (Q1 := fun _ w => Placed net (Some (TorchDevice (args_device args) None)) rank w);
          [ apply unconstrained_closed | | ].
        -- inv_walk (ranked_placed_log net rank) unconstrained_closed placed_side fail.
        -- intros _.
           inv_walk (placed_only_log net (Some (TorchDevice (args_device args) None)) rank)
             unconstrained_closed placed_side fail.
      * eapply always_bind with
          (Q1 := fun _ w => Placed net (Some (TorchDevice "cuda" (Some rank))) rank w);
          [ apply unconstrained_closed | | ].
        -- inv_walk (ranked_placed_log net rank) unconstrained_closed placed_side fail.
        -- intros _.
           inv_walk (placed_only_log net (Some (TorchDevice "cuda" (Some rank))) rank)
             unconstrained_closed placed_side fail.
    + eapply (always_seq _ _ unconstrained_closed);
        [inv_walk (ranked_placed_log net rank) unconstrained_closed placed_side fail|].
      intros _ _.
      apply (always_switch _ _ (Placed net (Some (TorchDevice "cpu" None)) rank));
        [placed_side|].
      inv_walk (placed_only_log net (Some (TorchDevice "cpu" None)) rank)
        unconstrained_closed placed_side fail.
Qed.

Ltac placed_step net d rank :=
  eapply (always_seq _ _ unconstrained_closed);
  [ inv_walk (placed_only_log net d rank) unconstrained_closed placed_side fail
  | intros ? ? ].

Lemma placed_init_tez net d rank args td vd ts vs cbs tc vc :
  always (Placed net d rank) unconstrained (_init_tez H args td vd ts vs cbs tc vc)
    (fun _ w => exists dc,
       Placed (wrapped rank dc net) d rank w /\ device_count (obj w) = Some dc).
Proof.
  unfold _init_tez.
  do 6 placed_step net d rank.
  eapply always_answer_bind; intros l.
  set (dc := cuda_device_count H l).
  apply (always_switch _ _
           (fun w => Placed net d rank w /\ device_count (obj w) = Some dc));
    [placed_side|].
  apply (always_self_bind _ _). intros w0 [(_ & _ & ->) _].
  eapply always_bind with
    (Q1 := fun _ w => Placed (wrapped rank dc net) d rank w /\
                      device_count (obj w) = Some dc);
    [ apply unconstrained_closed | | ].
  - unfold wrapped. destruct (rank =? -1) eqn:Er.
    + destruct (1 <? dc) eqn:Edc.
      * apply (always_self_bind _ _). intros w1 [(-> & _ & _) _].
        inv_walk (placed_log net d rank (Some dc)) unconstrained_closed
          placed_side fail.
      * inv_walk (placed_log net d rank (Some dc)) unconstrained_closed placed_side fail.
    + eapply (always_seq _ _ unconstrained_closed);
        [inv_walk (placed_log net d rank (Some dc)) unconstrained_closed placed_side fail|].
      intros _ _.
      apply (always_self_bind _ _). intros w1 [(-> & _ & _) _].
      eapply (always_seq _ _ unconstrained_closed);
        [inv_walk (placed_log net d rank (Some dc)) unconstrained_closed
           placed_side fail|].
      intros _ _.
      apply (always_switch _ _
               (fun w => Placed ((fun n => DistributedDataParallel n rank) <$> net)
                           d rank w /\ device_count (obj w) = Some dc));
        [placed_side|].
      inv_walk (placed_log ((fun n => DistributedDataParallel n rank) <$> net)
                  d rank (Some dc)) unconstrained_closed placed_side fail.
  - intros _.
    eapply always_of_inv;
      [| inv_walk (placed_log (wrapped rank dc net) d rank (Some dc)) unconstrained_closed
           placed_side fail ].
    intros ? w Hw _. by exists dc.
Qed.

Lemma placed_fit net rank td args vd ts vs cbs tc vc :
  py_int (default "-1" (LOCAL_RANK H)) = Some rank ->
  always (fun w => model (obj w) = net) unconstrained (fit H td args vd ts vs cbs tc vc)
    (fun _ w => exists dc,
       Placed (wrapped rank dc net) (Some (fit_device args rank)) rank w /\
       device_count (obj w) = Some dc).
Proof.
  intros Hrank. unfold fit.
  eapply always_bind;
    [apply unconstrained_closed | by apply placed_select_device |].
  intros a.
  apply (always_given (Placed net (Some (fit_device args rank)) rank)). intros ->.
  apply (always_self_bind _ _). intros w0 _.
  placed_step net (Some (fit_device args rank)) rank.
  apply (always_self_bind _ _). intros w1 _.
  placed_step net (Some (fit_device args rank)) rank.
  eapply always_bind;
    [apply unconstrained_closed | apply placed_init_tez |].
  intros ?.
  apply (always_exists
           (fun dc w => Placed (wrapped rank dc net) (Some (fit_device args rank)) rank w /\
                        device_count (obj w) = Some dc)).
  intros dc.
  eapply always_of_inv;
    [| inv_walk (placed_log (wrapped rank dc net) (Some (fit_device args rank)) rank
                   (Some dc)) unconstrained_closed placed_side
         ltac:(apply placed_fit_epochs) ].
  intros ? w Hw _. by exists dc.
Qed.

End Placement.

Lemma state_only_keeps_placement H :
  callbacks_set_state_only H -> callbacks_keep_placement H.
Proof.
  intros Hcb v m. by destruct (proj2 Hcb v m) as [-> | [ms ->]].
Qed.

(** X15.  Where [fit] leaves the model, for every host whose callbacks keep
    the model, the device, the local rank and the device count.  When [fit]
    returns, [local_rank] is the integer of the environment variable, the
    device is the XLA device for "tpu", the named device for a name that
    starts with "cuda" (the GPU of the local rank when the run is
    distributed, whatever the name says) and the CPU for every other name,
    and the model is the model from before the call in a new wrapper:
    [DataParallel] when the run is not distributed and the host counts
    several GPUs, [DistributedDataParallel] when it is distributed.  Every
    call of [fit] wraps again.  [fit] does return when it can start, the
    host fails no call and the callbacks at most set the model-lifecycle
    state. *)
Theorem fit_places_model (H : Host) (args : Args) (td vd : option Dataset)
    (ts vs : option Sampler) (cbs : option (list Callback)) (tc vc : option Collate)
    (rank : Z) (w : World) :
  callbacks_keep_placement H ->
  py_int (default "-1" (LOCAL_RANK H)) = Some rank ->
  let out := fit H td args vd ts vs cbs tc vc w in
  (forall a, out.1 = Ok a ->
     exists dc,
       device_count (obj out.2) = Some dc /\
       model (obj out.2) = wrapped rank dc (model (obj w)) /\
       device (obj out.2) = Some (fit_device args rank) /\
       local_rank (obj out.2) = rank) /\
  (quiet H -> callbacks_set_state_only H ->
   fit_can_start H args td vd ts tc rank w -> out.1 = Ok (chosen args)).
Proof.
  intros Hkeep Hrank out. split.
  - intros a Ha.
    destruct (placed_fit H Hkeep (model (obj w)) rank td args vd ts vs cbs tc vc Hrank
                w eq_refl) as [_ Hpost].
    destruct (Hpost a Ha) as (dc & (Hm & Hd & Hr) & Hdc).
    exists dc. done.
  - intros Hq Hcb Hstart.
    destruct (fit_through H args td vd ts vs cbs tc vc rank w (fun _ _ => True)
                Hq Hcb Hstart) as (w' & ext & j & e & Hrun & _).
    + intros w3 Hr3 _.
      destruct (fit_epochs_run H _ (Z.to_nat (epochs args)) Hq Hcb _ w3 Hr3)
        as (w4 & ext4 & j & Hrun4 & Hlog4 & Ht4 & He4 & Hcase).
      exists w4, ext4, j.
      destruct Hcase as [(HN & -> & ->) | [(HN & -> & _ & Hr) | (HN & Hj & _ & Hr)]];
        eexists; do 4 (split; [done|]); (split; [eassumption | done]).
    + subst out. by rewrite Hrun.
Qed.

Lemma fit_places_model_witness :
  let h := Demo.host false None in
  let args := Demo.config 1 (-1) "mps" 1 false in
  let out := fit h (Some 2%nat) args None None None None None None Demo.fresh in
  callbacks_keep_placement h /\
  py_int (default "-1" (LOCAL_RANK h)) = Some (-1) /\
  out.1 = Ok args /\
  exists dc,
    device_count (obj out.2) = Some dc /\
    model (obj out.2) = wrapped (-1) dc (model (obj Demo.fresh)) /\
    device (obj out.2) = Some (TorchDevice "cpu" None) /\
    local_rank (obj out.2) = -1.
Proof.
  intros h args out.
  assert (Hk : callbacks_keep_placement h) by (intros v m; repeat split).
  assert (Hr : py_int (default "-1" (LOCAL_RANK h)) = Some (-1)) by reflexivity.
  destruct (fit_places_model h args (Some 2%nat) None None None None None None (-1)
              Demo.fresh Hk Hr) as [Hpost Hret].
  assert (Hok : out.1 = Ok args).
  { apply Hret.
    - intros l e. reflexivity.
    - split; [intros v m _; reflexivity | intros v m; left; reflexivity].
    - unfold fit_can_start.
      split; [reflexivity|].
      split; [intros [E|E]; discriminate E|].
      split; [discriminate|].
      split; [by left|].
      split; [discriminate|].
      split; [discriminate|].
      split; [right; intros l; discriminate|].
      split; [reflexivity | exact metrics_init_keys]. }
  split; [exact Hk|]. split; [exact Hr|]. split; [exact Hok|].
  exact (Hpost args Hok).
Defined.

(** * The order of the training states *)

Lemma says_seq (P1 P2 P3 : list TrainingState -> Prop) :
  (forall l1 l2, P1 l1 -> P2 l2 -> P3 (l1 ++ l2)) ->
  seq_ok (says P1) (says P2) (says P3).
Proof.
  intros Hcat. split.
  - intros l e1 e2 r H1 H2 Hr. unfold assigned. rewrite omap_app.
    apply Hcat; [by apply H1 | by apply H2].
  - intros l e1 x _ Hx. discriminate Hx.
Qed.

Lemma says_nothing_closed : closed (says (eq [])).
Proof.
  split; [done|]. apply says_seq. by intros l1 l2 <- <-.
Qed.

(** After [m], whose states satisfy [P1], the rest has to complete them. *)
Lemma says_then {A B} (P1 P3 : list TrainingState -> Prop) (m : M A) (k : A -> M B) :
  always anywhere (says P1) m (fun _ _ => True) ->
  (forall a, always anywhere (says (fun l2 => forall l1, P1 l1 -> P3 (l1 ++ l2))) (k a)
               (fun _ _ => True)) ->
  always anywhere (says P3) (bind m k) (fun _ _ => True).
Proof.
  intros Hm Hk.
  eapply always_bind; [ | exact Hm | ].
  - apply (says_seq P1 (fun l2 => forall l1, P1 l1 -> P3 (l1 ++ l2)) P3).
    intros l1 l2 H1 H2. by apply H2.
  - intros a. eapply always_conseq; [ | | | apply (Hk a)]; done.
Qed.

Lemma says_last {A} (P1 P3 : list TrainingState -> Prop) (m : M A) :
  (forall l, P1 l -> P3 l) ->
  always anywhere (says P1) m (fun _ _ => True) ->
  always anywhere (says P3) m (fun _ _ => True).
Proof.
  intros Hi Hm. eapply always_conseq; [ | | | exact Hm]; try done.
  intros l ext r HL Hr. apply Hi, HL, Hr.
Qed.

Ltac says_side :=
  unfold says, assigned, anywhere in *; simpl in *; intros;
  try solve [ done | congruence ].

Ltac says_walk := inv_walk anywhere_log says_nothing_closed says_side fail.

(** The statements in front, one after the other: a known operation, or
    statements that assign nothing. *)
Ltac says_step known :=
  try progress cbv zeta;
  lazymatch goal with
  | |- always _ _ (bind (self _) _) _ => apply (always_self_bind _ _); intros ? _
  | |- always _ _ (bind (answer _ _) _) _ => eapply always_answer_bind; intros ?
  | |- always anywhere (says _) (bind _ _) _ =>
      first [ eapply says_then; [solve [known] | intros ?]
            | eapply (says_then (eq [])); [says_walk | intros ?] ]
  end.

Ltac says_end :=
  apply (says_last (eq [])); [intros ? <-; cbv beta; intros; subst; simpl | says_walk].

Section Trace.

Variable H : Host.

Lemma says_set_train_state v :
  always anywhere (says (eq [v])) (set_train_state H v) (fun _ _ => True).
Proof.
  intros w _. split; [|done].
  change (wp (set_train_state H v) (fun r w' =>
    exists ext, log w' = log w ++ ext /\ says (eq [v]) (log w) ext (exn_of r)) w).
  wp_run fail.
  all: rewrite <- ?app_assoc; eexists; (split; [reflexivity|]); says_side.
Qed.

Ltac states := apply says_set_train_state.

Lemma says_train_batch ld i data loc :
  always anywhere (says (eq [TRAIN_STEP_START; TRAIN_STEP_END]))
    (train_batch H ld i data loc) (fun _ _ => True).
Proof.
  unfold train_batch.
  do 3 says_step states. destruct a1 as [loss mets].
  says_step states. says_end. reflexivity.
Qed.

Lemma says_train_batches ld bs : forall i loc,
  always anywhere (says (step_pairs TRAIN_STEP_START TRAIN_STEP_END))
    (train_batches H ld i bs loc) (fun _ _ => True).
Proof.
  induction bs as [|data rest IH]; intros i loc; simpl.
  - says_end. constructor.
  - eapply says_then; [apply says_train_batch | intros loc'].
    eapply says_last; [|apply IH]. intros l Hl ? <-. by constructor.
Qed.

Lemma says_train_one_epoch ld :
  always anywhere (says (step_pairs TRAIN_STEP_START TRAIN_STEP_END))
    (train_one_epoch H ld) (fun _ _ => True).
Proof.
  unfold train_one_epoch.
  repeat says_step ltac:(apply says_train_batches).
  says_end. by rewrite app_nil_r.
Qed.

Lemma says_valid_batch ld i data loc :
  always anywhere (says (eq [VALID_STEP_START; VALID_STEP_END]))
    (valid_batch H ld i data loc) (fun _ _ => True).
Proof.
  unfold valid_batch.
  do 2 says_step states. destruct a0 as [loss mets].
  do 3 says_step states. says_end. reflexivity.
Qed.

Lemma says_valid_batches ld bs : forall i loc,
  always anywhere (says (step_pairs VALID_STEP_START VALID_STEP_END))
    (valid_batches H ld i bs loc) (fun _ _ => True).
Proof.
  induction bs as [|data rest IH]; intros i loc; simpl.
  - says_end. constructor.
  - eapply says_then; [apply says_valid_batch | intros loc'].
    eapply says_last; [|apply IH]. intros l Hl ? <-. by constructor.
Qed.

Lemma says_validate_one_epoch ld :
  always anywhere (says (step_pairs VALID_STEP_START VALID_STEP_END))
    (validate_one_epoch H ld) (fun _ _ => True).
Proof.
  unfold validate_one_epoch.
  repeat says_step ltac:(apply says_valid_batches).
  says_end. by rewrite app_nil_r.
Qed.

Lemma says_valid_block vl :
  always anywhere (says valid_part)
    (if truthy_loader H vl
     then set_train_state H VALID_EPOCH_START;;
          vl <- self valid_loader;;
          validate_one_epoch H vl;;
          set_train_state H VALID_EPOCH_END
     else ret tt)
    (fun _ _ => True).
Proof.
  destruct (truthy_loader H vl).
  - says_step states. says_step states.
    says_step ltac:(apply says_validate_one_epoch).
    eapply says_last; [|apply says_set_train_state].
    intros ? <- steps Hsteps ? <-. right. by exists steps.
  - says_end. by left.
Qed.

Lemma says_fit_epoch :
  always anywhere (says epoch_trace) (fit_epoch H) (fun _ _ => True).
Proof.
  unfold fit_epoch.
  repeat says_step ltac:(first [ apply says_set_train_state
                               | apply says_train_one_epoch
                               | apply says_valid_block ]).
  says_end.
  match goal with Hs : step_pairs _ _ ?s, Hv : valid_part ?v |- _ =>
    exists ([EPOCH_START; TRAIN_EPOCH_START] ++ s ++ [TRAIN_EPOCH_END]), v;
    split; [|split; [by exists s | exact Hv]]
  end.
  simpl. by rewrite <- !app_assoc.
Qed.

Lemma says_fit_epochs n :
  always anywhere (says (epochs_trace n)) (fit_epochs H n) (fun _ _ => True).
Proof.
  induction n as [|n IH]; simpl.
  - says_end. constructor.
  - eapply says_then; [apply says_fit_epoch | intros [|]].
    + eapply says_last; [|apply IH]. intros l Hl l1 Hl1. by constructor.
    + says_end. rewrite app_nil_r.
      match goal with Hl : epoch_trace ?l |- _ =>
        rewrite <- (app_nil_r l); constructor; [exact Hl | constructor]
      end.
Qed.

Lemma says_init_tez args td vd ts vs cbs tc vc :
  always anywhere (says (eq [TRAIN_START])) (_init_tez H args td vd ts vs cbs tc vc)
    (fun _ _ => True).
Proof.
  unfold _init_tez.
  repeat says_step fail.
  eapply says_last; [|apply says_set_train_state].
  intros ? <-. cbv beta. intros. by subst.
Qed.

Lemma says_select_device args :
  always anywhere (says (eq [])) (select_device H args)
    (fun a _ => epochs a = epochs args).
Proof.
  says_walk.
Qed.

Lemma says_fit_rest n args td vd ts vs cbs tc vc :
  epochs args = n ->
  always anywhere (says (fit_trace (Z.to_nat n)))
    (net <- self model;;
     deref "to" net;;
     d <- self device;;
     call H (ModelTo d);;
     _init_tez H args td vd ts vs cbs tc vc;;
     fit_epochs H (Z.to_nat (epochs args));;
     set_train_state H TRAIN_END;;
     ret args)
    (fun _ _ => True).
Proof.
  intros ->.
  repeat says_step ltac:(first [ apply says_set_train_state
                               | apply says_init_tez
                               | apply says_fit_epochs ]).
  says_end.
  match goal with Hl : epochs_trace _ ?l |- _ => exists l; split; [|exact Hl] end.
  simpl. by rewrite <- ?app_assoc.
Qed.

Lemma says_fit args td vd ts vs cbs tc vc :
  always anywhere (says (fit_trace (Z.to_nat (epochs args))))
    (fit H td args vd ts vs cbs tc vc) (fun _ _ => True).
Proof.
  unfold fit.
  eapply always_bind;
    [ apply (says_seq (eq []) (fit_trace (Z.to_nat (epochs args))));
      by intros ? ? <-
    | apply says_select_device | ].
  intros a. intros w Ha. by apply says_fit_rest.
Qed.

End Trace.

(** X16.  The training states of a run of [fit] that returns, on any host
    and with any callbacks: [TRAIN_START]; then for each pass of the epoch
    loop (at most [epochs] of them) [EPOCH_START], [TRAIN_EPOCH_START], a
    [TRAIN_STEP_START] and a [TRAIN_STEP_END] for every batch,
    [TRAIN_EPOCH_END], for a validate epoch if there is one
    [VALID_EPOCH_START], a [VALID_STEP_START] and a [VALID_STEP_END] for
    every batch and [VALID_EPOCH_END], and [EPOCH_END]; finally [TRAIN_END].
    Nothing else is assigned to [train_state], and as long as no callback
    removes the runner, the callback runner is invoked with exactly this
    sequence. *)
Theorem fit_states_in_order (H : Host) (args : Args) (td vd : option Dataset)
    (ts vs : option Sampler) (cbs : option (list Callback)) (tc vc : option Collate)
    (w : World) (a : Args) :
  (fit H td args vd ts vs cbs tc vc w).1 = Ok a ->
  exists ext,
    log (fit H td args vd ts vs cbs tc vc w).2 = log w ++ ext /\
    fit_trace (Z.to_nat (epochs args)) (assigned ext) /\
    ((forall v m, _callback_runner m <> None ->
                  _callback_runner (callbacks_effect H v m) <> None) ->
     dispatched ext = assigned ext).
Proof.
  intros Hrun.
  destruct (says_fit H args td vd ts vs cbs tc vc w Logic.I) as [(ext & Hlog & Hsays) _].
  exists ext. split; [exact Hlog|]. split.
  - apply Hsays. by rewrite Hrun.
  - intros Hcb.
    destruct (paired_fit H Hcb td args vd ts vs cbs tc vc w Logic.I)
      as [(ext' & Hlog' & Hp) _].
    rewrite Hlog in Hlog'. apply app_inv_head in Hlog'. by subst ext'.
Qed.

Lemma fit_states_in_order_witness :
  let h := Demo.host false None in
  let args := Demo.config 2 (-1) "cpu" 1 false in
  let out := fit h (Some 1%nat) args (Some 1%nat) None None None None None Demo.fresh in
  out.1 = Ok args /\
  exists ext,
    log out.2 = log Demo.fresh ++ ext /\
    fit_trace 2 (assigned ext) /\
    ((forall v m, _callback_runner m <> None ->
                  _callback_runner (callbacks_effect h v m) <> None) ->
     dispatched ext = assigned ext).
Proof.
  intros h args out.
  assert (Hrun : out.1 = Ok args) by (vm_compute; reflexivity).
  split; [exact Hrun|].
  exact (fit_states_in_order h args (Some 1%nat) (Some 1%nat) None None None None None
           Demo.fresh args Hrun).
Defined.

(** * Training without an optimizer *)

Lemma train_one_epoch_needs_optimizer_early H ld w :
  quiet H -> model (obj w) <> None -> local_rank (obj w) = -1 ->
  optimizer (obj w) = None ->
  1 < accumulation_steps (obj w) ->
  (train_one_epoch H ld w).1 = Raise (AttributeError "zero_grad") /\
  log (train_one_epoch H ld w).2 = log w ++ [ModelTrain; Assign_model_state MS_TRAIN].
Proof.
  intros Hq Hm Hr Ho Hk.
  apply Z.ltb_lt in Hk.
  change (wp (train_one_epoch H ld) (fun r w' =>
    r = Raise (AttributeError "zero_grad") /\
    log w' = log w ++ [ModelTrain; Assign_model_state MS_TRAIN]) w).
  unfold train_one_epoch.
  wp_run ltac:(exact Hq).
  all: try done.
  all: split; [done|]; by rewrite <- ?app_assoc.
Qed.

Lemma train_one_step_needs_optimizer H data w :
  quiet H -> model (obj w) <> None ->
  (local_rank (obj w) = -1 -> device_count (obj w) <> None) ->
  optimizer (obj w) = None ->
  fp16 (obj w) = false -> using_tpu (obj w) = false ->
  accumulation_steps (obj w) <> 0 ->
  (batch_index (obj w) + 1) mod accumulation_steps (obj w) = 0 ->
  let out := train_one_step H data w in
  out.1 = Raise (AttributeError "step") /\
  obj out.2 = obj w /\
  exists ext, log out.2 = log w ++ ext /\
    Backward (LossDiv (reduced (obj w) (LossOf data)) (accumulation_steps (obj w))) false
      ∈ ext /\
    Forall (fun e => is_step e = false) ext.
Proof.
  intros Hq Hm Hd Ho Hf Ht Hk Hi out. subst out.
  apply Z.eqb_eq in Hi.
  change (wp (train_one_step H data) (fun r w' =>
    r = Raise (AttributeError "step") /\
    obj w' = obj w /\
    exists ext, log w' = log w ++ ext /\
      Backward (LossDiv (reduced (obj w) (LossOf data)) (accumulation_steps (obj w))) false
        ∈ ext /\
      Forall (fun e => is_step e = false) ext) w).
  unfold reduced, multi_gpu.
  wp_run ltac:(exact Hq).
  all: try done.
  all: try (exfalso; apply Hk; by apply Z.eqb_eq).
  all: try (exfalso; apply Hd; [by apply Z.eqb_eq | done]).
  all: try congruence.
  all: split; [reflexivity|]; split; [reflexivity|];
       rewrite <- ?app_assoc; eexists; (split; [reflexivity|]); split;
       [ repeat first [apply list_elem_of_here | apply list_elem_of_further]
       | repeat constructor ].
Qed.

(** X17.  Training needs an optimizer: [fetch_optimizer] of the class
    returns nothing, and nothing checks that [optimizer] is set.  On an
    object whose [optimizer] is [None] (the model is set, the run is not
    distributed, the host fails no call): with [accumulation_steps > 1],
    [train_one_epoch] puts the model in training mode, sets the model state
    and ends in [AttributeError] at [optimizer.zero_grad()], before the
    loader is opened; and a [train_one_step] that comes to step the
    optimizer (no mixed precision, no TPU) has run the forward and the
    backward pass when it ends in [AttributeError] at [optimizer.step()]:
    no step is taken and the object is as before. *)
Theorem training_needs_an_optimizer (H : Host) (w : World) :
  quiet H -> model (obj w) <> None -> local_rank (obj w) = -1 ->
  optimizer (obj w) = None ->
  (1 < accumulation_steps (obj w) ->
   forall ld,
     (train_one_epoch H ld w).1 = Raise (AttributeError "zero_grad") /\
     log (train_one_epoch H ld w).2 = log w ++ [ModelTrain; Assign_model_state MS_TRAIN]) /\
  (device_count (obj w) <> None ->
   fp16 (obj w) = false -> using_tpu (obj w) = false ->
   accumulation_steps (obj w) <> 0 ->
   (batch_index (obj w) + 1) mod accumulation_steps (obj w) = 0 ->
   forall data,
     let out := train_one_step H data w in
     out.1 = Raise (AttributeError "step") /\
     obj out.2 = obj w /\
     exists ext, log out.2 = log w ++ ext /\
       Backward (LossDiv (reduced (obj w) (LossOf data)) (accumulation_steps (obj w))) false
         ∈ ext /\
       Forall (fun e => is_step e = false) ext).
Proof.
  intros Hq Hm Hr Ho. split.
  - intros Hk ld. by apply train_one_epoch_needs_optimizer_early.
  - intros Hd Hf Ht Hk Hi data. by apply train_one_step_needs_optimizer.
Qed.

Lemma training_needs_an_optimizer_witness :
  let h := Demo.host false None in
  let w := mkWorld (set_device_count (Some 1) (set_accumulation_steps 1 (obj Demo.fresh)))
             metrics_init [] in
  quiet h /\ model (obj w) <> None /\ local_rank (obj w) = -1 /\
  optimizer (obj w) = None /\
  (train_one_step h 0%nat w).1 = Raise (AttributeError "step").
Proof.
  intros h w.
  assert (Hq : quiet h) by (intros l e; reflexivity).
  assert (Hm : model (obj w) <> None) by discriminate.
  assert (Hr : local_rank (obj w) = -1) by reflexivity.
  assert (Ho : optimizer (obj w) = None) by reflexivity.
  do 4 (split; [assumption|]).
  destruct (training_needs_an_optimizer h w Hq Hm Hr Ho) as [_ Hstep].
  apply (Hstep ltac:(discriminate) eq_refl eq_refl ltac:(discriminate) eq_refl 0%nat).
Defined.

(** * Steps of the scheduler *)

Lemma no_scheduler_steps_closed : closed no_scheduler_steps.
Proof.
  split; [intros; constructor|]. split.
  - intros l e1 e2 r H1 H2. apply Forall_app. done.
  - intros l e1 x H1. done.
Qed.

Lemma scheduler_idle_log : log_indep scheduler_idle.
Proof. intros o ms l l' Hw. exact Hw. Qed.

Section SchedulerIdle.

Variable H : Host.
Hypothesis callbacks_keep_after :
  forall v m, step_scheduler_after (callbacks_effect H v m) = step_scheduler_after m.

Ltac sched_side :=
  unfold no_scheduler_steps, scheduler_idle, anywhere in *; simpl in *; intros;
  rewrite ?callbacks_keep_after in *;
  repeat match goal with
         | E : bool_decide _ = true |- _ => apply bool_decide_eq_true in E
         end;
  try solve [ done | repeat constructor | congruence | naive_solver ].

Ltac sched_walk known :=
  inv_walk scheduler_idle_log no_scheduler_steps_closed sched_side known.

Lemma idle_train_batches ld bs : forall i loc,
  inv scheduler_idle no_scheduler_steps (train_batches H ld i bs loc) (fun _ => True).
Proof.
  induction bs as [|b bs IH]; intros i loc; simpl.
  - sched_walk fail.
  - sched_walk ltac:(apply IH).
Qed.

Lemma idle_valid_batches ld bs : forall i loc,
  inv scheduler_idle no_scheduler_steps (valid_batches H ld i bs loc) (fun _ => True).
Proof.
  induction bs as [|b bs IH]; intros i loc; simpl.
  - sched_walk fail.
  - sched_walk ltac:(apply IH).
Qed.

Lemma idle_fit_epochs n :
  inv scheduler_idle no_scheduler_steps (fit_epochs H n) (fun _ => True).
Proof.
  induction n as [|n IH]; simpl.
  - sched_walk fail.
  - sched_walk ltac:(first [apply IH | apply idle_train_batches | apply idle_valid_batches]).
Qed.

Lemma idle_fit td args vd ts vs cbs tc vc :
  inv scheduler_idle no_scheduler_steps (fit H td args vd ts vs cbs tc vc) (fun _ => True).
Proof.
  sched_walk ltac:(apply idle_fit_epochs).
Qed.

End SchedulerIdle.

(** X18.  The scheduler is stepped on request only.  The class body sets
    [step_scheduler_after] to [None] and nothing in [fit] assigns it: as
    long as it is neither "batch" nor "epoch" (and the callbacks leave it
    alone), a call of [fit] never steps the scheduler, whatever
    [fetch_scheduler] returned, whatever the host does and however the call
    ends. *)
Theorem scheduler_steps_on_request_only (H : Host) (args : Args) (td vd : option Dataset)
    (ts vs : option Sampler) (cbs : option (list Callback)) (tc vc : option Collate)
    (w : World) :
  (forall v m, step_scheduler_after (callbacks_effect H v m) = step_scheduler_after m) ->
  scheduler_idle w ->
  exists ext, log (fit H td args vd ts vs cbs tc vc w).2 = log w ++ ext /\
              Forall (fun e => is_scheduler_step e = false) ext.
Proof.
  intros Hcb Hw.
  destruct (idle_fit H Hcb td args vd ts vs cbs tc vc w Hw) as [Hlog _].
  exact Hlog.
Qed.

Lemma scheduler_steps_on_request_only_witness :
  let h := {| XLA_AVAILABLE := false;
              LOCAL_RANK := None;
              cpu_count := 4;
              cuda_device_count := fun _ => 1;
              world_size := fun _ => 1;
              host_raises := fun _ _ => None;
              loader_batches := fun _ => [0%nat; 1%nat];
              param_device := fun _ => TorchDevice "cpu" None;
              model_state_dict := fun _ => ∅;
              optimizer_state_dict := fun _ => 7;
              scheduler_state_dict := fun _ => 9;
              files := fun _ => None;
              fetch_optimizer := fun _ => Some 0%nat;
              fetch_scheduler := fun _ => Some 0%nat;
              callbacks_effect := fun _ m => m |} in
  let args := Demo.config 2 (-1) "cpu" 1 false in
  (forall v m, step_scheduler_after (callbacks_effect h v m) = step_scheduler_after m) /\
  scheduler_idle Demo.fresh /\
  exists ext,
    log (fit h (Some 2%nat) args None None None None None None Demo.fresh).2 =
      log Demo.fresh ++ ext /\
    Forall (fun e => is_scheduler_step e = false) ext.
Proof.
  intros h args.
  assert (Hcb : forall v m,
             step_scheduler_after (callbacks_effect h v m) = step_scheduler_after m)
    by (intros v m; reflexivity).
  assert (Hw : scheduler_idle Demo.fresh) by (split; discriminate).
  split; [exact Hcb|]. split; [exact Hw|].
  exact (scheduler_steps_on_request_only h args (Some 2%nat) None None None None None None
           Demo.fresh Hcb Hw).
Defined.

(** * Files *)









